(** * Teamhood MCP server: the request-translation layer of [src/index.ts]

    The development embeds the tool catalog [tools], the transport client
    [apiRequest], the dispatcher [handleToolCall] and the [call_tool] request
    handler, over a small model of the JavaScript values the code handles, and
    states what the handlers put on the wire.

    Conventions of the model.
    - A JavaScript string is held as the bytes of its UTF-8 encoding (a Rocq
      [string]); the strings of the program are well-formed text.
    - A JavaScript number is held as an integer ([Z]); every number the program
      formats ([skip], [take], an HTTP status) is one, and numbers with a
      fractional part are outside the model. Integers print with all their
      digits, as Number::toString prints the safe integers (up to 2^53 - 1 in
      magnitude); beyond them JavaScript prints the shortest digits that
      identify the number, which the model does not.
    - An object is the list of its own properties in enumeration order.
    - [JS.ToString] is a total function: it gives the text of the conversion
      where JavaScript performs it. JavaScript refuses to convert an object
      that has an own property [toString] (a TypeError); [JS.printable] marks
      the values on which the model and JavaScript agree, and the statements
      about a converted argument assume it.
    - [handleToolCall] and [CallToolRequestHandler] take the record of
      arguments of the call; a call without [arguments] is
      [CallToolRequestHandler_params] at [None]. *)

From Stdlib Require Import String Ascii List ZArith Bool Lia DecimalString PeanoNat.
Import ListNotations.
Open Scope string_scope.
Set Warnings "-register-all".

(** ** JavaScript values and the platform operations the program uses *)

Module JS.

Inductive value : Type :=
| VUndefined
| VNull
| VBool (b : bool)
| VNum (n : Z)
| VStr (s : string)
| VArr (elements : list value)
| VObj (properties : list (string * value)).

(** [Record<string, unknown>]: own properties, in enumeration order. *)
Definition object : Type := list (string * value).

(** What a [throw] carries: an [Error] instance (only its [message] is ever
    read) or any other value. *)
Inductive thrown : Type :=
| ErrorObject (message : string)
| ThrownValue (v : value).

(** Completion of an evaluation: a value, or an exception. *)
Inductive outcome (A : Type) : Type :=
| Return (a : A)
| Throw (e : thrown).
Arguments Return {A} a.
Arguments Throw {A} e.

Definition LF : string := String "010"%char EmptyString.
Definition DQ : string := String "034"%char EmptyString.

(** [o.k]: the own property [k], [undefined] when there is none. *)
Fixpoint prop (o : object) (k : string) : value :=
  match o with
  | [] => VUndefined
  | (k', v) :: o' => if k' =? k then v else prop o' k
  end.

(** [k in o], for own properties. *)
Fixpoint hasOwn (o : object) (k : string) : bool :=
  match o with
  | [] => false
  | (k', _) :: o' => (k' =? k) || hasOwn o' k
  end.

(** [o.k = v]: overwrites in place, or adds the property at the end. *)
Fixpoint set_prop (o : object) (k : string) (v : value) : object :=
  match o with
  | [] => [(k, v)]
  | (k', v') :: o' => if k' =? k then (k', v) :: o' else (k', v') :: set_prop o' k v
  end.

Definition keys (o : object) : list string := map fst o.

Definition is_undefined (v : value) : bool :=
  match v with VUndefined => true | _ => false end.

(** ToBoolean. *)
Definition truthy (v : value) : bool :=
  match v with
  | VUndefined | VNull => false
  | VBool b => b
  | VNum n => negb (n =? 0)%Z
  | VStr s => negb (s =? "")
  | VArr _ | VObj _ => true
  end.

(** [a || b]. *)
Definition or_else (a b : value) : value := if truthy a then a else b.

(** [a ?? b]. *)
Definition nullish (a b : value) : value :=
  match a with VUndefined | VNull => b | _ => a end.

(** [a === b], for two values that do not share an object: primitives compare
    by value, and two distinct arrays or objects are never equal. The program
    only compares a value read from a response with one read from the call's
    arguments. *)
Definition strict_equals (a b : value) : bool :=
  match a, b with
  | VUndefined, VUndefined => true
  | VNull, VNull => true
  | VBool x, VBool y => Bool.eqb x y
  | VNum x, VNum y => (x =? y)%Z
  | VStr x, VStr y => x =? y
  | _, _ => false
  end.

(** Number::toString, on integers. *)
Definition Number_toString (n : Z) : string :=
  NilZero.string_of_int (Z.to_int n).

(** ToString, as a template literal, [String(v)] and the Web IDL string
    conversion apply it. An array joins its elements with a comma, [null] and
    [undefined] elements printing as nothing. *)
Fixpoint ToString (v : value) : string :=
  match v with
  | VUndefined => "undefined"
  | VNull => "null"
  | VBool true => "true"
  | VBool false => "false"
  | VNum n => Number_toString n
  | VStr s => s
  | VArr l =>
      String.concat ","
        (map (fun x => match x with
                       | VUndefined | VNull => ""
                       | _ => ToString x
                       end) l)
  | VObj _ => "[object Object]"
  end.

(** Number.isSafeInteger, on integers: the integers a number holds exactly
    together with both neighbours, which print with all their digits. *)
Definition isSafeInteger (n : Z) : bool := (Z.abs n <=? 9007199254740991)%Z.

(** The values on which [ToString] is the conversion JavaScript performs.
    The conversion of an object calls its [toString] method: an object made
    by [JSON.parse] inherits the one of [Object.prototype], unless it has an
    own property of that name, which is no function, and then the conversion
    throws a TypeError. An array converts its elements. A number is printed
    by [Number_toString] as JavaScript prints it when it is a safe
    integer. *)
Fixpoint printable (v : value) : bool :=
  match v with
  | VNum n => isSafeInteger n
  | VArr l => forallb printable l
  | VObj o => negb (hasOwn o "toString")
  | _ => true
  end.

(** *** Strings *)

(** [s.includes(sub)]. *)
Fixpoint includes (sub s : string) : bool :=
  String.prefix sub s ||
  match s with
  | EmptyString => false
  | String _ s' => includes sub s'
  end.

Definition hex_lower (n : nat) : string :=
  String.substring n 1 "0123456789abcdef".

Definition hex_upper (n : nat) : string :=
  String.substring n 1 "0123456789ABCDEF".

Definition is_continuation_byte (c : ascii) : bool :=
  let n := nat_of_ascii c in (128 <=? n)%nat && (n <? 192)%nat.

(** The code points of a string, each as a string: what iterating a string
    yields. *)
Fixpoint code_points (s : string) : list string :=
  match s with
  | EmptyString => []
  | String c r =>
      match r with
      | String c' _ =>
          if is_continuation_byte c' then
            match code_points r with
            | x :: xs => String c x :: xs
            | [] => [String c EmptyString]
            end
          else String c EmptyString :: code_points r
      | EmptyString => [String c EmptyString]
      end
  end.

(** [for (const x of v)]: the values the loop visits, or the TypeError of a
    value that is not iterable. [what] is the source text of the iterated
    expression, which the engine puts in the message. *)
Definition iterate (what : string) (v : value) : outcome (list value) :=
  match v with
  | VArr l => Return l
  | VStr s => Return (map VStr (code_points s))
  | _ => Throw (ErrorObject (what ++ " is not iterable"))
  end.

(** [v.k] for a property name [k] that no built-in prototype defines (the
    program reads [id]): reading a property of [null] or [undefined] throws. *)
Definition member (v : value) (k : string) : outcome value :=
  match v with
  | VUndefined =>
      Throw (ErrorObject ("Cannot read properties of undefined (reading '" ++ k ++ "')"))
  | VNull =>
      Throw (ErrorObject ("Cannot read properties of null (reading '" ++ k ++ "')"))
  | VObj o => Return (prop o k)
  | _ => Return VUndefined
  end.

(** [Array.prototype.find]: the first element the callback accepts,
    [undefined] when it accepts none; an exception of the callback ends the
    search. *)
Fixpoint Array_find (cb : value -> outcome bool) (l : list value) : outcome value :=
  match l with
  | [] => Return VUndefined
  | x :: l' =>
      match cb x with
      | Throw e => Throw e
      | Return true => Return x
      | Return false => Array_find cb l'
      end
  end.

(** [v.find(cb)], [what] being the source text of [v]. *)
Definition call_find (what : string) (v : value) (cb : value -> outcome bool)
  : outcome value :=
  match v with
  | VArr l => Array_find cb l
  | VUndefined =>
      Throw (ErrorObject "Cannot read properties of undefined (reading 'find')")
  | VNull =>
      Throw (ErrorObject "Cannot read properties of null (reading 'find')")
  | _ => Throw (ErrorObject (what ++ ".find is not a function"))
  end.

(** *** JSON.stringify *)

(** QuoteJSONString, byte by byte: the quote, the backslash and the control
    characters are escaped, every other byte is copied. *)
Definition quote_char (c : ascii) : string :=
  let n := nat_of_ascii c in
  if (n =? 34)%nat then "\" ++ DQ
  else if (n =? 92)%nat then "\\"
  else if (n =? 8)%nat then "\b"
  else if (n =? 12)%nat then "\f"
  else if (n =? 10)%nat then "\n"
  else if (n =? 13)%nat then "\r"
  else if (n =? 9)%nat then "\t"
  else if (n <? 32)%nat then "\u00" ++ hex_lower (n / 16) ++ hex_lower (n mod 16)
  else String c EmptyString.

Fixpoint quote_chars (s : string) : string :=
  match s with
  | EmptyString => EmptyString
  | String c s' => quote_char c ++ quote_chars s'
  end.

Definition quote (s : string) : string := DQ ++ quote_chars s ++ DQ.

Fixpoint spaces (n : nat) : string :=
  match n with
  | O => EmptyString
  | S n' => String " "%char (spaces n')
  end.

(** The bracketed list of SerializeJSONArray and SerializeJSONObject. *)
Definition wrap (open close indent gap : string) (partial : list string) : string :=
  match partial with
  | [] => open ++ close
  | _ =>
      if gap =? "" then open ++ String.concat "," partial ++ close
      else
        let stepback := indent in
        let indent := indent ++ gap in
        open ++ LF ++ indent
          ++ String.concat ("," ++ LF ++ indent) partial
          ++ LF ++ stepback ++ close
  end.

(** SerializeJSONProperty: [None] is [undefined]. An [undefined] element of an
    array prints as [null]; a property whose value is [undefined] is left
    out. *)
Fixpoint serialize (gap indent : string) (v : value) : option string :=
  match v with
  | VUndefined => None
  | VNull => Some "null"
  | VBool true => Some "true"
  | VBool false => Some "false"
  | VNum n => Some (Number_toString n)
  | VStr s => Some (quote s)
  | VArr l =>
      Some (wrap "[" "]" indent gap
              (map (fun x => match serialize gap (indent ++ gap) x with
                             | Some s => s
                             | None => "null"
                             end) l))
  | VObj o =>
      Some (wrap "{" "}" indent gap
              (flat_map (fun kv => match serialize gap (indent ++ gap) (snd kv) with
                                   | Some s =>
                                       [quote (fst kv) ++ ":"
                                          ++ (if gap =? "" then "" else " ") ++ s]
                                   | None => []
                                   end) o))
  end.

(** [JSON.stringify(v, null, space)] for a numeric [space];
    [JSON.stringify(v)] is [JSON_stringify v 0]. *)
Definition JSON_stringify (v : value) (space : nat) : option string :=
  serialize (spaces (Nat.min 10 space)) "" v.

(** The values whose JSON text [serialize] gives as JavaScript does: every
    number in them is a safe integer, which prints with all its digits. *)
Fixpoint stringifiable (v : value) : bool :=
  match v with
  | VNum n => isSafeInteger n
  | VArr l => forallb stringifiable l
  | VObj o => forallb (fun kv => stringifiable (snd kv)) o
  | _ => true
  end.

(** *** URLSearchParams *)

Definition URLSearchParams : Type := list (string * string).

(** [params.append(name, value)], the value already converted to a string. *)
Definition append (params : URLSearchParams) (name value : string) : URLSearchParams :=
  (params ++ [(name, value)])%list.

(** The application/x-www-form-urlencoded byte serializer. *)
Definition urlencode_byte (c : ascii) : string :=
  let n := nat_of_ascii c in
  if ((48 <=? n) && (n <=? 57) || (65 <=? n) && (n <=? 90) || (97 <=? n) && (n <=? 122)
      || (n =? 42) || (n =? 45) || (n =? 46) || (n =? 95))%nat
  then String c EmptyString
  else if (n =? 32)%nat then "+"
  else "%" ++ hex_upper (n / 16) ++ hex_upper (n mod 16).

Fixpoint urlencode (s : string) : string :=
  match s with
  | EmptyString => EmptyString
  | String c s' => urlencode_byte c ++ urlencode s'
  end.

(** [params.toString()]. *)
Definition URLSearchParams_toString (params : URLSearchParams) : string :=
  String.concat "&" (map (fun p => urlencode (fst p) ++ "=" ++ urlencode (snd p)) params).

End JS.

Import JS.

(** ** The fetch API, as far as the program uses it *)

Inductive Method : Type := GET | POST | PUT | DELETE.

(** An entry of a [FormData]: a string, or a file (a [Blob] with a name). *)
Inductive FormDataEntryValue : Type :=
| FormString (s : string)
| FormFile (bytes : string) (filename : string).

Definition FormData : Type := list (string * FormDataEntryValue).

Inductive BodyInit : Type :=
| BodyText (s : string)
| BodyForm (f : FormData).

(** [RequestInit]; an absent [body] is [None]. *)
Record RequestInit : Type := {
  method : Method;
  headers : list (string * string);
  body : option BodyInit
}.

(** A call [fetch(url, options)]. *)
Record Request : Type := {
  url : string;
  options : RequestInit
}.

(** A response: its status and the text [response.text()] resolves to. *)
Record Response : Type := {
  status : Z;
  text : string
}.

(** [response.ok]: the status is in the range 200 to 299. *)
Definition ok (r : Response) : bool :=
  ((200 <=? status r) && (status r <=? 299))%Z.

(** ** The protocol types of the SDK *)

Module MCP.

Record Tool : Type := {
  name : string;
  description : string;
  inputSchema : value
}.

(** A content block; [text] is what [JSON.stringify] returned, [None] being
    [undefined]. *)
Record TextContent : Type := {
  type : string;
  text : option string
}.

(** The result of a tool call; an absent [isError] is [None]. *)
Record CallToolResult : Type := {
  content : list TextContent;
  isError : option bool
}.

End MCP.

(** ** Asynchronous code: a computation logs the requests it sends and
    completes with a value or an exception *)

Definition M (A : Type) : Type := list Request -> outcome A * list Request.

Definition ret {A : Type} (a : A) : M A := fun log => (Return a, log).

Definition throw {A : Type} (e : thrown) : M A := fun log => (Throw e, log).

Definition lift {A : Type} (o : outcome A) : M A := fun log => (o, log).

Definition bind {A B : Type} (m : M A) (k : A -> M B) : M B :=
  fun log =>
    match m log with
    | (Return a, log') => k a log'
    | (Throw e, log') => (Throw e, log')
    end.

(** [try { m } catch (error) { handler }]. *)
Definition try_catch {A : Type} (m : M A) (handler : thrown -> M A) : M A :=
  fun log =>
    match m log with
    | (Return a, log') => (Return a, log')
    | (Throw e, log') => handler e log'
    end.

Notation "x <- c1 ;; c2" := (bind c1 (fun x => c2))
  (at level 61, c1 at next level, right associativity).

(** Sequencing of completions, for code that sends nothing. *)
Definition and_then {A B : Type} (o : outcome A) (k : A -> outcome B) : outcome B :=
  match o with
  | Return a => k a
  | Throw e => Throw e
  end.

(** ** Sample platforms, to run the program on concrete calls *)

(** A backend that answers every request with the same response. *)
Definition fixed_backend (r : Response) : Request -> outcome Response :=
  fun _ => Return r.

(** [JSON.parse] on the texts listed in [table]; any other text is taken as
    malformed. *)
Fixpoint parser_of (table : list (string * value)) (t : string) : outcome value :=
  match table with
  | [] => Throw (ErrorObject "Unexpected token")
  | (t', v) :: table' => if t' =? t then Return v else parser_of table' t
  end.

(** [Buffer.from(content, 'base64')] on the strings listed in [table]; every
    other string decodes to no bytes, and a value that is not a string is
    refused. *)
Fixpoint decoder_of (table : list (string * string)) (content : value) : outcome string :=
  match content with
  | VStr s =>
      match table with
      | [] => Return EmptyString
      | (s', bytes) :: table' =>
          if s' =? s then Return bytes else decoder_of table' content
      end
  | _ => Throw (ErrorObject "The first argument must be of type string")
  end.

(** A 404 answer with the body [Not found]. *)
Definition not_found_404 : Response := {| status := 404; text := "Not found" |}.

(** [create_item] with the required arguments and [assigneeId: "U1"]. *)
Definition create_item_sample : object := [
  ("workspaceId", VStr "W1");
  ("boardId", VStr "B1");
  ("statusId", VStr "S1");
  ("title", VStr "Write the report");
  ("assigneeId", VStr "U1");
  ("tags", VArr [VStr "urgent"])
].

(** [update_item] with [assigneeId: "U1"], and with only [itemId]. *)
Definition update_item_sample : object := [("itemId", VStr "I1"); ("assigneeId", VStr "U1")].


(** The compact JSON text of a value, as a backend would send it. *)
Definition text_of (v : value) : string :=
  match JSON_stringify v 0 with
  | Some t => t
  | None => EmptyString
  end.

(** A 200 answer with the JSON text of [v]. *)
Definition ok_200 (v : value) : Response := {| status := 200; text := text_of v |}.

(** The boards of a workspace, and calls of [get_board] on it. *)
Definition board_B1 : value := VObj [("id", VStr "B1"); ("title", VStr "Roadmap")].

Definition board_B2 : value := VObj [("id", VStr "B2"); ("title", VStr "Sprint")].

Definition boards_sample : list value := [board_B1; board_B2].

Definition get_board_B2 : object := [("workspaceId", VStr "W1"); ("boardId", VStr "B2")].




(** ** Loading the secrets

    [loadSecrets] reads the decrypted secrets file line by line with the
    regular expression [/^(\w+):\s*(.+)$/]. The expression is held as data
    and matched by backtracking, each greedy repetition trying its longest
    run first. Characters are UTF-8 sequences: a character class gives the
    number of bytes of the character it accepts. *)

(** The string of the given bytes. *)
Definition of_bytes (codes : list nat) : string :=
  string_of_list_ascii (map ascii_of_nat codes).

(** Character classes of the regular expressions: the number of bytes of the
    character of the class that starts the string, [0] when none does. *)
Definition char_class : Type := string -> nat.

(** [\w]. *)
Definition is_word_byte (c : ascii) : bool :=
  let n := nat_of_ascii c in
  ((48 <=? n) && (n <=? 57) || (65 <=? n) && (n <=? 90)
   || (97 <=? n) && (n <=? 122) || (n =? 95))%nat.

Definition word_char : char_class := fun s =>
  match s with
  | String c _ => if is_word_byte c then 1%nat else 0%nat
  | EmptyString => 0%nat
  end.

(** LineTerminator: LF, CR, U+2028, U+2029. *)
Definition line_terminator : char_class := fun s =>
  if String.prefix (of_bytes [10]) s || String.prefix (of_bytes [13]) s then 1%nat
  else if String.prefix (of_bytes [226; 128; 168]) s
          || String.prefix (of_bytes [226; 128; 169]) s then 3%nat
  else 0%nat.

(** [\s]: WhiteSpace and LineTerminator. *)
Definition white_space : char_class := fun s =>
  if (0 <? line_terminator s)%nat then line_terminator s
  else if String.prefix (of_bytes [9]) s || String.prefix (of_bytes [11]) s
          || String.prefix (of_bytes [12]) s || String.prefix (of_bytes [32]) s then 1%nat
  else if String.prefix (of_bytes [194; 160]) s then 2%nat
  else if String.prefix (of_bytes [225; 154; 128]) s
          || existsb (fun b => String.prefix (of_bytes [226; 128; b]) s)
               [128; 129; 130; 131; 132; 133; 134; 135; 136; 137; 138; 175]%nat
          || String.prefix (of_bytes [226; 129; 159]) s
          || String.prefix (of_bytes [227; 128; 128]) s
          || String.prefix (of_bytes [239; 187; 191]) s then 3%nat
  else 0%nat.

(** [.]: anything but a line terminator, taken a byte at a time. *)
Definition any_char : char_class := fun s =>
  match s with
  | EmptyString => 0%nat
  | String _ _ => if (0 <? line_terminator s)%nat then 0%nat else 1%nat
  end.

(** A piece of a regular expression: a literal character, or a greedy
    repetition of a class ([*], or [+] when one character at least is
    needed). *)
Inductive atom : Type :=
| Literal (c : ascii)
| Greedy (class : char_class) (at_least_one : bool).

(** A regex anchored at both ends: its pieces, each captured or not. *)
Definition regex : Type := list (atom * bool).

(** The ways a greedy repetition can match at the start of [s], longest
    first: what it takes and what it leaves. *)
(** The first [n] bytes, and the rest. *)
Fixpoint take (n : nat) (s : string) : string :=
  match n, s with
  | S k, String c r => String c (take k r)
  | _, _ => EmptyString
  end.

Fixpoint drop (n : nat) (s : string) : string :=
  match n, s with
  | S k, String _ r => drop k r
  | _, _ => s
  end.

Fixpoint runs (class : char_class) (fuel : nat) (s : string) : list (string * string) :=
  match fuel with
  | O => [(EmptyString, s)]
  | S fuel' =>
      match class s with
      | O => [(EmptyString, s)]
      | n =>
          (map (fun mr => ((take n s ++ fst mr)%string, snd mr))
             (runs class fuel' (drop n s))
           ++ [(EmptyString, s)])%list
      end
  end.

(** The first alternative that succeeds. *)
Fixpoint first_match {A B : Type} (f : A -> option B) (l : list A) : option B :=
  match l with
  | [] => None
  | x :: l' => match f x with Some y => Some y | None => first_match f l' end
  end.

(** Backtracking match of the whole string; the captures, in order. *)
Fixpoint regex_match (p : regex) (s : string) : option (list string) :=
  match p with
  | [] => if s =? "" then Some [] else None
  | (Literal c, captured) :: p' =>
      match s with
      | String c' r =>
          if Ascii.eqb c c' then
            option_map (fun caps => if captured then String c EmptyString :: caps else caps)
              (regex_match p' r)
          else None
      | EmptyString => None
      end
  | (Greedy class at_least_one, captured) :: p' =>
      first_match
        (fun mr =>
           if at_least_one && (fst mr =? "") then None
           else option_map (fun caps => if captured then fst mr :: caps else caps)
                  (regex_match p' (snd mr)))
        (runs class (String.length s) s)
  end.

(** [/^(\w+):\s*(.+)$/]. *)
Definition secret_line : regex := [
  (Greedy word_char true, true);
  (Literal ":"%char, false);
  (Greedy white_space false, false);
  (Greedy any_char true, true)
].

(** [s.split("\n")]. *)
Fixpoint split_lines (s : string) : list string :=
  match s with
  | EmptyString => [EmptyString]
  | String c r =>
      if Ascii.eqb c "010"%char then EmptyString :: split_lines r
      else match split_lines r with
           | l :: ls => String c l :: ls
           | [] => [String c EmptyString]
           end
  end.

(** [s.trim()]. *)
Fixpoint trim_start (pending : nat) (s : string) : string :=
  match s with
  | EmptyString => EmptyString
  | String c r =>
      match pending with
      | S k => trim_start k r
      | O => match white_space s with
             | O => s
             | S k => trim_start k r
             end
      end
  end.

Fixpoint trim_end (s : string) : string :=
  match s with
  | EmptyString => EmptyString
  | String c r => if trim_start 0 s =? "" then EmptyString else String c (trim_end r)
  end.

Definition trim (s : string) : string := trim_end (trim_start 0 s).


(** [Record<string, string>]. *)
Definition strings : Type := list (string * string).

Fixpoint record_get (o : strings) (k : string) : option string :=
  match o with
  | [] => None
  | (k', v) :: o' => if k' =? k then Some v else record_get o' k
  end.

Fixpoint record_set (o : strings) (k v : string) : strings :=
  match o with
  | [] => [(k, v)]
  | (k', v') :: o' => if k' =? k then (k', v) :: o' else (k', v') :: record_set o' k v
  end.

(** [a || b], on strings that may be [undefined]. *)
Definition or_undefined (a b : option string) : option string :=
  match a with
  | Some s => if s =? "" then b else a
  | None => b
  end.

(** [a || b], [b] being a string. *)
Definition or_string (a : option string) (b : string) : string :=
  match a with
  | Some s => if s =? "" then b else s
  | None => b
  end.

(** What [loadSecrets] reads of the machine: whether [secrets.yaml] is
    there, what [sops -d] prints for it (or the failure of the command),
    and the environment. *)
Record Host : Type := {
  existsSync : bool;
  execSync : outcome string;
  env : string -> option string
}.

Record Secrets : Type := {
  apiKey : string;
  baseUrl : string
}.

(** The tenant the source falls back to. *)
Definition DEFAULT_BASE_URL : string := "https://api-lafermedutemple.teamhood.com/api/v1".

(** The body of the loop over the lines; assigning to [__proto__] leaves an
    object as it is. *)
Definition read_line (secrets : strings) (line : string) : strings :=
  match regex_match secret_line line with
  | Some [key; value] =>
      if key =? "__proto__" then secrets else record_set secrets key (trim value)
  | _ => secrets
  end.

Definition loadSecrets (host : Host) : Secrets :=
  let from_environment :=
    {| apiKey := or_string (env host "TEAMHOOD_API_KEY") "";
       baseUrl := or_string (env host "TEAMHOOD_BASE_URL") DEFAULT_BASE_URL |} in
  if negb (existsSync host) then from_environment
  else
    match execSync host with
    | Return decrypted =>
        let lines := split_lines decrypted in
        let secrets := fold_left read_line lines [] in
        {| apiKey :=
             or_string (or_undefined (record_get secrets "TEAMHOOD_API_KEY")
                          (env host "TEAMHOOD_API_KEY")) "";
           baseUrl :=
             or_string (or_undefined (record_get secrets "TEAMHOOD_BASE_URL")
                          (env host "TEAMHOOD_BASE_URL")) DEFAULT_BASE_URL |}
    | Throw _ => from_environment
    end.

(** Printable ASCII but the space: the bytes 33 to 126. *)
Definition plain_byte (c : ascii) : bool :=
  let n := nat_of_ascii c in (33 <=? n)%nat && (n <=? 126)%nat.

Fixpoint plain (s : string) : bool :=
  match s with
  | EmptyString => true
  | String c r => plain_byte c && plain r
  end.

(** No line feed in the string. *)
Fixpoint no_linefeed (s : string) : bool :=
  match s with
  | EmptyString => true
  | String c r => negb (Ascii.eqb c "010"%char) && no_linefeed r
  end.

(** A carriage return. *)
Definition CR : string := String "013"%char EmptyString.

(** A machine: the decrypted file when there is one, and the two variables
    of the environment. *)
Definition sample_host (file : option string) (key url : option string) : Host :=
  {| existsSync := match file with Some _ => true | None => false end;
     execSync := match file with Some t => Return t | None => Throw (ErrorObject "sops") end;
     env := fun k => if k =? "TEAMHOOD_API_KEY" then key
                     else if k =? "TEAMHOOD_BASE_URL" then url else None |}.

(** Made of word characters only. *)
Fixpoint all_word (s : string) : bool :=
  match s with
  | EmptyString => true
  | String c r => is_word_byte c && all_word r
  end.

(** ** The tool catalog *)

Definition tools : list MCP.Tool := [
  {| MCP.name := "list_workspaces";
     MCP.description :=
       "List all workspaces you have access to";
     MCP.inputSchema :=
       VObj [("type", VStr "object"); ("properties", VObj [])] |};
  {| MCP.name := "get_workspace";
     MCP.description :=
       "Get workspace details including settings and metadata";
     MCP.inputSchema :=
       VObj [
         ("type", VStr "object");
         ("properties", VObj [
           ("workspaceId", VObj [("type", VStr "string"); ("description", VStr "Workspace UUID")])]);
         ("required", VArr [VStr "workspaceId"])] |};
  {| MCP.name := "create_workspace";
     MCP.description :=
       "Create a new workspace. Requires templateId from list_workspace_templates and ownerId from list_users.";
     MCP.inputSchema :=
       VObj [
         ("type", VStr "object");
         ("properties", VObj [
           ("title", VObj [("type", VStr "string"); ("description", VStr "Workspace title")]);
           ("displayId", VObj [
             ("type", VStr "string");
             ("description", VStr "Short display ID (e.g., 'PROJ')")]);
           ("icon", VObj [
             ("type", VStr "string");
             ("description", VStr "Icon type (e.g., 'briefcase', 'star')")]);
           ("color", VObj [("type", VStr "number"); ("description", VStr "Color code (optional)")]);
           ("templateId", VObj [
             ("type", VStr "string");
             ("description", VStr "Workspace template UUID (use list_workspace_templates)")]);
           ("ownerId", VObj [
             ("type", VStr "string");
             ("description", VStr "Owner user UUID (use list_users)")])]);
         ("required", VArr [VStr "title"; VStr "displayId"; VStr "icon"; VStr "templateId"; VStr "ownerId"])] |};
  {| MCP.name := "add_workspace_member";
     MCP.description :=
       "Add a user to a workspace with Collaborator role (API does not support custom roles)";
     MCP.inputSchema :=
       VObj [
         ("type", VStr "object");
         ("properties", VObj [
           ("workspaceId", VObj [("type", VStr "string"); ("description", VStr "Workspace UUID")]);
           ("userId", VObj [("type", VStr "string"); ("description", VStr "User UUID to add")])]);
         ("required", VArr [VStr "workspaceId"; VStr "userId"])] |};
  {| MCP.name := "list_boards";
     MCP.description :=
       "List all boards in a workspace";
     MCP.inputSchema :=
       VObj [
         ("type", VStr "object");
         ("properties", VObj [
           ("workspaceId", VObj [("type", VStr "string"); ("description", VStr "Workspace UUID")])]);
         ("required", VArr [VStr "workspaceId"])] |};
  {| MCP.name := "get_board";
     MCP.description :=
       "Get a specific board by ID (returns board info from workspace boards list)";
     MCP.inputSchema :=
       VObj [
         ("type", VStr "object");
         ("properties", VObj [
           ("workspaceId", VObj [
             ("type", VStr "string");
             ("description", VStr "Workspace UUID containing the board")]);
           ("boardId", VObj [("type", VStr "string"); ("description", VStr "Board UUID to retrieve")])]);
         ("required", VArr [VStr "workspaceId"; VStr "boardId"])] |};
  {| MCP.name := "create_board";
     MCP.description :=
       "Create a new board in a workspace. Requires templateId from list_board_templates.";
     MCP.inputSchema :=
       VObj [
         ("type", VStr "object");
         ("properties", VObj [
           ("workspaceId", VObj [
             ("type", VStr "string");
             ("description", VStr "Workspace UUID where board will be created")]);
           ("title", VObj [("type", VStr "string"); ("description", VStr "Board title")]);
           ("displayId", VObj [
             ("type", VStr "string");
             ("description", VStr "Short display ID (e.g., 'Q1PRIO') - required")]);
           ("templateId", VObj [
             ("type", VStr "string");
             ("description", VStr "Board template UUID (use list_board_templates to get available templates)")]);
           ("viewType", VObj [
             ("type", VStr "string");
             ("enum", VArr [VStr "Kanban"; VStr "Gantt"; VStr "List"; VStr "Overview"]);
             ("description", VStr "Default view type for the board")])]);
         ("required", VArr [VStr "workspaceId"; VStr "title"; VStr "displayId"; VStr "templateId"; VStr "viewType"])] |};
  {| MCP.name := "list_rows";
     MCP.description :=
       "List rows (swimlanes) on a board for grouping items";
     MCP.inputSchema :=
       VObj [
         ("type", VStr "object");
         ("properties", VObj [("boardId", VObj [("type", VStr "string"); ("description", VStr "Board UUID")])]);
         ("required", VArr [VStr "boardId"])] |};
  {| MCP.name := "list_statuses";
     MCP.description :=
       "List status columns on a board (workflow stages)";
     MCP.inputSchema :=
       VObj [
         ("type", VStr "object");
         ("properties", VObj [("boardId", VObj [("type", VStr "string"); ("description", VStr "Board UUID")])]);
         ("required", VArr [VStr "boardId"])] |};
  {| MCP.name := "create_row";
     MCP.description :=
       "Create a new row (swimlane) on a board";
     MCP.inputSchema :=
       VObj [
         ("type", VStr "object");
         ("properties", VObj [
           ("boardId", VObj [("type", VStr "string"); ("description", VStr "Board UUID")]);
           ("title", VObj [("type", VStr "string"); ("description", VStr "Row title")]);
           ("startDate", VObj [
             ("type", VStr "string");
             ("description", VStr "Optional start date (ISO 8601)")]);
           ("endDate", VObj [("type", VStr "string"); ("description", VStr "Optional end date (ISO 8601)")])]);
         ("required", VArr [VStr "boardId"; VStr "title"])] |};
  {| MCP.name := "list_items";
     MCP.description :=
       "Search and filter items across boards with pagination";
     MCP.inputSchema :=
       VObj [
         ("type", VStr "object");
         ("properties", VObj [
           ("workspaceId", VObj [("type", VStr "string"); ("description", VStr "Filter by workspace UUID")]);
           ("boardId", VObj [("type", VStr "string"); ("description", VStr "Filter by board UUID")]);
           ("statusId", VObj [("type", VStr "string"); ("description", VStr "Filter by status UUID")]);
           ("rowId", VObj [("type", VStr "string"); ("description", VStr "Filter by row UUID")]);
           ("assignedUserId", VObj [("type", VStr "string"); ("description", VStr "Filter by assigned user UUID")]);
           ("ownerId", VObj [("type", VStr "string"); ("description", VStr "Filter by owner user UUID")]);
           ("parentId", VObj [("type", VStr "string"); ("description", VStr "Filter by parent item UUID")]);
           ("completed", VObj [("type", VStr "boolean"); ("description", VStr "Filter by completion status")]);
           ("tags", VObj [
             ("type", VStr "array");
             ("items", VObj [("type", VStr "string")]);
             ("description", VStr "Filter by tags")]);
           ("customFields", VObj [
             ("type", VStr "array");
             ("items", VObj [("type", VStr "string")]);
             ("description", VStr ("Filter by custom fields, e.g. ['" ++ DQ ++ "Project" ++ DQ ++ "=" ++ DQ ++ "Cars" ++ DQ ++ "']"))]);
           ("createdSince", VObj [
             ("type", VStr "string");
             ("description", VStr "Filter items created since (ISO 8601)")]);
           ("modifiedSince", VObj [
             ("type", VStr "string");
             ("description", VStr "Filter items modified since (ISO 8601)")]);
           ("completedSince", VObj [
             ("type", VStr "string");
             ("description", VStr "Filter items completed since (ISO 8601)")]);
           ("includeChildItems", VObj [
             ("type", VStr "boolean");
             ("description", VStr "Include child items in results")]);
           ("skip", VObj [("type", VStr "number"); ("description", VStr "Pagination: records to skip")]);
           ("take", VObj [
             ("type", VStr "number");
             ("description", VStr "Pagination: records to return (max 100)")])])] |};
  {| MCP.name := "get_item";
     MCP.description :=
       "Get full item details including custom fields and metadata";
     MCP.inputSchema :=
       VObj [
         ("type", VStr "object");
         ("properties", VObj [("itemId", VObj [("type", VStr "string"); ("description", VStr "Item UUID")])]);
         ("required", VArr [VStr "itemId"])] |};
  {| MCP.name := "create_item";
     MCP.description :=
       "Create a new item (task/card) on a board";
     MCP.inputSchema :=
       VObj [
         ("type", VStr "object");
         ("properties", VObj [
           ("workspaceId", VObj [("type", VStr "string"); ("description", VStr "Workspace UUID (required)")]);
           ("boardId", VObj [
             ("type", VStr "string");
             ("description", VStr "Board UUID where item will be created")]);
           ("statusId", VObj [
             ("type", VStr "string");
             ("description", VStr "Status UUID for initial workflow stage (required)")]);
           ("title", VObj [("type", VStr "string"); ("description", VStr "Item title")]);
           ("description", VObj [("type", VStr "string"); ("description", VStr "Rich text description")]);
           ("rowId", VObj [
             ("type", VStr "string");
             ("description", VStr "Row UUID for swimlane placement")]);
           ("assigneeId", VObj [
             ("type", VStr "string");
             ("description", VStr "User UUID to assign (single assignee)")]);
           ("startDate", VObj [("type", VStr "string"); ("description", VStr "Start date (ISO 8601 format)")]);
           ("dueDate", VObj [("type", VStr "string"); ("description", VStr "Due date (ISO 8601 format)")]);
           ("color", VObj [("type", VStr "number"); ("description", VStr "Color index (1-18)")]);
           ("tags", VObj [
             ("type", VStr "array");
             ("items", VObj [("type", VStr "string")]);
             ("description", VStr "Tags to apply to the item")]);
           ("customFields", VObj [
             ("type", VStr "array");
             ("items", VObj [
               ("type", VStr "object");
               ("properties", VObj [
                 ("name", VObj [("type", VStr "string")]);
                 ("value", VObj [("type", VStr "string")])]);
               ("required", VArr [VStr "name"; VStr "value"])]);
             ("description", VStr "Custom field values as name/value pairs")]);
           ("blocking", VObj [
             ("type", VStr "array");
             ("items", VObj [
               ("type", VStr "object");
               ("properties", VObj [
                 ("itemId", VObj [("type", VStr "string")]);
                 ("direction", VObj [
                   ("type", VStr "string");
                   ("enum", VArr [VStr "FinishToStart"; VStr "StartToStart"; VStr "FinishToFinish"; VStr "StartToFinish"])])]);
               ("required", VArr [VStr "itemId"; VStr "direction"])]);
             ("description", VStr "Items this task blocks (dependencies)")]);
           ("waiting", VObj [
             ("type", VStr "array");
             ("items", VObj [
               ("type", VStr "object");
               ("properties", VObj [
                 ("itemId", VObj [("type", VStr "string")]);
                 ("direction", VObj [
                   ("type", VStr "string");
                   ("enum", VArr [VStr "FinishToStart"; VStr "StartToStart"; VStr "FinishToFinish"; VStr "StartToFinish"])])]);
               ("required", VArr [VStr "itemId"; VStr "direction"])]);
             ("description", VStr "Items this task waits for (dependencies)")])]);
         ("required", VArr [VStr "workspaceId"; VStr "boardId"; VStr "statusId"; VStr "title"])] |};
  {| MCP.name := "update_item";
     MCP.description :=
       "Update item properties (title, status, board, assignee, dates, etc.)";
     MCP.inputSchema :=
       VObj [
         ("type", VStr "object");
         ("properties", VObj [
           ("itemId", VObj [("type", VStr "string"); ("description", VStr "Item UUID to update")]);
           ("title", VObj [("type", VStr "string"); ("description", VStr "New title")]);
           ("description", VObj [("type", VStr "string"); ("description", VStr "New description")]);
           ("statusId", VObj [
             ("type", VStr "string");
             ("description", VStr "New status UUID (move to different column)")]);
           ("rowId", VObj [
             ("type", VStr "string");
             ("description", VStr "New row UUID (move to different swimlane)")]);
           ("boardId", VObj [
             ("type", VStr "string");
             ("description", VStr "New board UUID (move to different board)")]);
           ("assigneeId", VObj [
             ("type", VStr "string");
             ("description", VStr "User UUID to assign (single assignee)")]);
           ("startDate", VObj [("type", VStr "string"); ("description", VStr "New start date (ISO 8601)")]);
           ("dueDate", VObj [("type", VStr "string"); ("description", VStr "New due date (ISO 8601)")]);
           ("color", VObj [("type", VStr "number"); ("description", VStr "Color index (1-18)")]);
           ("tags", VObj [
             ("type", VStr "array");
             ("items", VObj [("type", VStr "string")]);
             ("description", VStr "Tags for the item")]);
           ("customFields", VObj [
             ("type", VStr "array");
             ("items", VObj [
               ("type", VStr "object");
               ("properties", VObj [
                 ("name", VObj [("type", VStr "string")]);
                 ("value", VObj [("type", VStr "string")])]);
               ("required", VArr [VStr "name"; VStr "value"])]);
             ("description", VStr "Custom field values to update")]);
           ("blocking", VObj [
             ("type", VStr "array");
             ("items", VObj [
               ("type", VStr "object");
               ("properties", VObj [
                 ("itemId", VObj [("type", VStr "string")]);
                 ("direction", VObj [
                   ("type", VStr "string");
                   ("enum", VArr [VStr "FinishToStart"; VStr "StartToStart"; VStr "FinishToFinish"; VStr "StartToFinish"])])]);
               ("required", VArr [VStr "itemId"; VStr "direction"])]);
             ("description", VStr "Items this task blocks (replaces existing)")]);
           ("waiting", VObj [
             ("type", VStr "array");
             ("items", VObj [
               ("type", VStr "object");
               ("properties", VObj [
                 ("itemId", VObj [("type", VStr "string")]);
                 ("direction", VObj [
                   ("type", VStr "string");
                   ("enum", VArr [VStr "FinishToStart"; VStr "StartToStart"; VStr "FinishToFinish"; VStr "StartToFinish"])])]);
               ("required", VArr [VStr "itemId"; VStr "direction"])]);
             ("description", VStr "Items this task waits for (replaces existing)")]);
           ("archived", VObj [
             ("type", VStr "boolean");
             ("description", VStr "Archive or unarchive the item")]);
           ("milestone", VObj [("type", VStr "boolean"); ("description", VStr "Mark as milestone")]);
           ("progress", VObj [("type", VStr "number"); ("description", VStr "Progress percentage (0-100)")]);
           ("parentId", VObj [
             ("type", VStr "string");
             ("description", VStr "Parent item UUID for sub-items")])]);
         ("required", VArr [VStr "itemId"])] |};
  {| MCP.name := "delete_item";
     MCP.description :=
       "Permanently delete an item";
     MCP.inputSchema :=
       VObj [
         ("type", VStr "object");
         ("properties", VObj [
           ("itemId", VObj [("type", VStr "string"); ("description", VStr "Item UUID to delete")])]);
         ("required", VArr [VStr "itemId"])] |};
  {| MCP.name := "move_item";
     MCP.description :=
       "Move an item to a different board, status column, or row (swimlane)";
     MCP.inputSchema :=
       VObj [
         ("type", VStr "object");
         ("properties", VObj [
           ("itemId", VObj [("type", VStr "string"); ("description", VStr "Item UUID to move")]);
           ("targetBoardId", VObj [
             ("type", VStr "string");
             ("description", VStr "Target board UUID (to move between boards)")]);
           ("targetStatusId", VObj [
             ("type", VStr "string");
             ("description", VStr "Target status UUID (new column)")]);
           ("targetRowId", VObj [
             ("type", VStr "string");
             ("description", VStr "Target row UUID (new swimlane)")])]);
         ("required", VArr [VStr "itemId"])] |};
  {| MCP.name := "archive_item";
     MCP.description :=
       "Archive or unarchive an item (soft delete - item can be restored)";
     MCP.inputSchema :=
       VObj [
         ("type", VStr "object");
         ("properties", VObj [
           ("itemId", VObj [
             ("type", VStr "string");
             ("description", VStr "Item UUID to archive/unarchive")]);
           ("archived", VObj [
             ("type", VStr "boolean");
             ("description", VStr "True to archive, false to unarchive (default: true)")])]);
         ("required", VArr [VStr "itemId"])] |};
  {| MCP.name := "list_attachments";
     MCP.description :=
       "List all attachments on an item";
     MCP.inputSchema :=
       VObj [
         ("type", VStr "object");
         ("properties", VObj [("itemId", VObj [("type", VStr "string"); ("description", VStr "Item UUID")])]);
         ("required", VArr [VStr "itemId"])] |};
  {| MCP.name := "get_attachment";
     MCP.description :=
       "Get attachment metadata (name, size, type)";
     MCP.inputSchema :=
       VObj [
         ("type", VStr "object");
         ("properties", VObj [
           ("attachmentId", VObj [("type", VStr "string"); ("description", VStr "Attachment UUID")])]);
         ("required", VArr [VStr "attachmentId"])] |};
  {| MCP.name := "download_attachment";
     MCP.description :=
       "Download attachment file content by ID";
     MCP.inputSchema :=
       VObj [
         ("type", VStr "object");
         ("properties", VObj [
           ("attachmentId", VObj [("type", VStr "string"); ("description", VStr "Attachment UUID")])]);
         ("required", VArr [VStr "attachmentId"])] |};
  {| MCP.name := "update_attachment";
     MCP.description :=
       "Update attachment name";
     MCP.inputSchema :=
       VObj [
         ("type", VStr "object");
         ("properties", VObj [
           ("attachmentId", VObj [("type", VStr "string"); ("description", VStr "Attachment UUID")]);
           ("name", VObj [("type", VStr "string"); ("description", VStr "New filename")])]);
         ("required", VArr [VStr "attachmentId"; VStr "name"])] |};
  {| MCP.name := "delete_attachment";
     MCP.description :=
       "Permanently delete an attachment";
     MCP.inputSchema :=
       VObj [
         ("type", VStr "object");
         ("properties", VObj [
           ("attachmentId", VObj [("type", VStr "string"); ("description", VStr "Attachment UUID to delete")])]);
         ("required", VArr [VStr "attachmentId"])] |};
  {| MCP.name := "upload_attachment";
     MCP.description :=
       "Upload a file attachment to an item. Note: For binary files, content should be base64 encoded.";
     MCP.inputSchema :=
       VObj [
         ("type", VStr "object");
         ("properties", VObj [
           ("itemId", VObj [("type", VStr "string"); ("description", VStr "Item UUID to attach file to")]);
           ("name", VObj [
             ("type", VStr "string");
             ("description", VStr "Filename with extension (e.g., 'report.pdf')")]);
           ("content", VObj [
             ("type", VStr "string");
             ("description", VStr "File content (base64 encoded for binary files)")])]);
         ("required", VArr [VStr "itemId"; VStr "name"; VStr "content"])] |};
  {| MCP.name := "list_users";
     MCP.description :=
       "List all users in the organization";
     MCP.inputSchema :=
       VObj [("type", VStr "object"); ("properties", VObj [])] |};
  {| MCP.name := "get_time_logs";
     MCP.description :=
       "Get time logs for a workspace within a date range. Can filter by boards, rows, users, or tags.";
     MCP.inputSchema :=
       VObj [
         ("type", VStr "object");
         ("properties", VObj [
           ("workspaceId", VObj [("type", VStr "string"); ("description", VStr "Workspace UUID (required)")]);
           ("startDate", VObj [("type", VStr "string"); ("description", VStr "Start date (ISO 8601 UTC)")]);
           ("endDate", VObj [("type", VStr "string"); ("description", VStr "End date (ISO 8601 UTC)")]);
           ("boardIds", VObj [
             ("type", VStr "array");
             ("items", VObj [("type", VStr "string")]);
             ("description", VStr "Filter by board UUIDs")]);
           ("rowIds", VObj [
             ("type", VStr "array");
             ("items", VObj [("type", VStr "string")]);
             ("description", VStr "Filter by row UUIDs")]);
           ("userIds", VObj [
             ("type", VStr "array");
             ("items", VObj [("type", VStr "string")]);
             ("description", VStr "Filter by user UUIDs")]);
           ("tags", VObj [
             ("type", VStr "array");
             ("items", VObj [("type", VStr "string")]);
             ("description", VStr "Filter by tags")])]);
         ("required", VArr [VStr "workspaceId"; VStr "startDate"; VStr "endDate"])] |};
  {| MCP.name := "list_workspace_templates";
     MCP.description :=
       "List available workspace templates";
     MCP.inputSchema :=
       VObj [("type", VStr "object"); ("properties", VObj [])] |};
  {| MCP.name := "list_board_templates";
     MCP.description :=
       "List available board templates. Use templateId when creating a new board.";
     MCP.inputSchema :=
       VObj [("type", VStr "object"); ("properties", VObj [])] |};
  {| MCP.name := "list_activities";
     MCP.description :=
       "Get item change history on a board (audit log)";
     MCP.inputSchema :=
       VObj [
         ("type", VStr "object");
         ("properties", VObj [
           ("boardId", VObj [("type", VStr "string"); ("description", VStr "Board UUID")]);
           ("startDate", VObj [("type", VStr "string"); ("description", VStr "Start date (ISO 8601 UTC)")]);
           ("endDate", VObj [
             ("type", VStr "string");
             ("description", VStr "End date (ISO 8601 UTC, max 3 months from start)")]);
           ("offset", VObj [
             ("type", VStr "number");
             ("description", VStr "Pagination offset (default: 0)")]);
           ("limit", VObj [
             ("type", VStr "number");
             ("description", VStr "Records to return (default: 100, max: 1000)")])]);
         ("required", VArr [VStr "boardId"; VStr "startDate"; VStr "endDate"])] |};
  {| MCP.name := "list_system_logs";
     MCP.description :=
       "List system logs by date range with paging";
     MCP.inputSchema :=
       VObj [
         ("type", VStr "object");
         ("properties", VObj [
           ("fromDate", VObj [
             ("type", VStr "string");
             ("description", VStr "Start date (ISO 8601 UTC, e.g., 2024-02-05T02:00:00Z)")]);
           ("toDate", VObj [("type", VStr "string"); ("description", VStr "End date (ISO 8601 UTC)")]);
           ("skip", VObj [("type", VStr "number"); ("description", VStr "Number of records to skip")]);
           ("take", VObj [
             ("type", VStr "number");
             ("description", VStr "Number of records to take (max 1000)")])]);
         ("required", VArr [VStr "fromDate"; VStr "toDate"])] |}
].

(** The handler of [ListToolsRequestSchema]. *)
Definition ListToolsRequestHandler : list MCP.Tool := tools.

(** The arguments a descriptor declares as required. *)
Definition required (tool : MCP.Tool) : list string :=
  match MCP.inputSchema tool with
  | VObj schema =>
      match prop schema "required" with
      | VArr l => map ToString l
      | _ => []
      end
  | _ => []
  end.

(** The arguments a descriptor accepts: the keys of its schema's
    [properties]. *)
Definition accepted (tool : MCP.Tool) : list string :=
  match MCP.inputSchema tool with
  | VObj schema =>
      match prop schema "properties" with
      | VObj properties => keys properties
      | _ => []
      end
  | _ => []
  end.

(** The descriptor of a tool, by name. *)
Definition descriptor (name : string) : option MCP.Tool :=
  find (fun tool => MCP.name tool =? name) tools.

(** ** The server *)

Section Server.

(** The resolved secrets. *)
Variable API_KEY : string.
Variable BASE_URL : string.

(** The backend behind [fetch]: a response, or the rejection of the call. *)
Variable backend : Request -> outcome Response.

(** The platform's [JSON.parse]: the parsed value, or its SyntaxError. *)
Variable JSON_parse : string -> outcome value.

(** The platform's [Buffer.from(content, 'base64')]: the decoded bytes, or
    the TypeError of a [content] it does not accept. *)
Variable Buffer_from : value -> outcome string.

Definition fetch (url : string) (options : RequestInit) : M Response :=
  fun log =>
    let request := {| url := url; options := options |} in
    (backend request, (log ++ [request])%list).

(** The [url] and [options] that [apiRequest] hands to [fetch]. *)
Definition apiRequest_fetch_arguments (endpoint : string) (method : Method) (body : value)
  : Request :=
  let url := BASE_URL ++ endpoint in
  let headers := [("Authorization", API_KEY); ("Content-Type", "application/json")] in
  {| url := url;
     options :=
       {| method := method;
          headers := headers;
          body :=
            if truthy body && match method with POST | PUT => true | _ => false end
            then option_map BodyText (JSON_stringify body 0)
            else None |} |}.

(** [apiRequest(endpoint, method, body)]. A caller that leaves [method] out
    passes [GET], and one that leaves [body] out passes [undefined]. *)
Definition apiRequest (endpoint : string) (method : Method) (body : value) : M value :=
  let request := apiRequest_fetch_arguments endpoint method body in
  response <- fetch (url request) (options request) ;;
  if negb (ok response) then
    let errorText := text response in
    throw (ErrorObject ("API Error " ++ Number_toString (status response) ++ ": " ++ errorText))
  else
    let text := text response in
    if text =? "" then ret (VObj [])
    else lift (JSON_parse text).

(** The [params] that the case [list_items] builds. *)
Definition list_items_params (args : object) : outcome URLSearchParams :=
  let params : URLSearchParams := [] in
  let params := if truthy (prop args "workspaceId")
    then append params "WorkspaceId" (ToString (prop args "workspaceId")) else params in
  let params := if truthy (prop args "boardId")
    then append params "BoardId" (ToString (prop args "boardId")) else params in
  let params := if truthy (prop args "statusId")
    then append params "StatusId" (ToString (prop args "statusId")) else params in
  let params := if truthy (prop args "rowId")
    then append params "RowId" (ToString (prop args "rowId")) else params in
  let params := if truthy (prop args "assignedUserId")
    then append params "AssignedUserId" (ToString (prop args "assignedUserId")) else params in
  let params := if truthy (prop args "ownerId")
    then append params "OwnerId" (ToString (prop args "ownerId")) else params in
  let params := if truthy (prop args "parentId")
    then append params "ParentId" (ToString (prop args "parentId")) else params in
  let params := if negb (is_undefined (prop args "completed"))
    then append params "Completed" (ToString (prop args "completed")) else params in
  and_then
    (if truthy (prop args "tags") then
       and_then (iterate "args.tags" (prop args "tags")) (fun tags =>
       Return (fold_left (fun params tag => append params "Tags" (ToString tag)) tags params))
     else Return params) (fun params =>
  and_then
    (if truthy (prop args "customFields") then
       and_then (iterate "args.customFields" (prop args "customFields")) (fun customFields =>
       Return (fold_left (fun params cf => append params "CustomFields" (ToString cf))
                 customFields params))
     else Return params) (fun params =>
  let params := if truthy (prop args "createdSince")
    then append params "CreatedSince" (ToString (prop args "createdSince")) else params in
  let params := if truthy (prop args "modifiedSince")
    then append params "ModifiedSince" (ToString (prop args "modifiedSince")) else params in
  let params := if truthy (prop args "completedSince")
    then append params "CompletedSince" (ToString (prop args "completedSince")) else params in
  let params := if negb (is_undefined (prop args "includeChildItems"))
    then append params "IncludeChildItems" (ToString (prop args "includeChildItems")) else params in
  let params := if negb (is_undefined (prop args "skip"))
    then append params "Skip" (ToString (prop args "skip")) else params in
  let params := if negb (is_undefined (prop args "take"))
    then append params "Take" (ToString (prop args "take")) else params in
  Return params)).

(** The endpoint of the case [list_items], from its [params]. *)
Definition list_items_endpoint (params : URLSearchParams) : string :=
  let query := URLSearchParams_toString params in
  "/items" ++ (if negb (query =? "") then "?" ++ query else "").

(** The object literal that the case [create_item] posts. *)
Definition create_item_body (args : object) : value :=
  VObj [
    ("workspaceId", prop args "workspaceId");
    ("boardId", prop args "boardId");
    ("statusId", prop args "statusId");
    ("title", prop args "title");
    ("description", prop args "description");
    ("rowId", prop args "rowId");
    ("assignedUserId", prop args "assigneeId");
    ("startDate", prop args "startDate");
    ("dueDate", prop args "dueDate");
    ("color", prop args "color");
    ("tags", or_else (prop args "tags") (VArr []));
    ("customFields", or_else (prop args "customFields") (VArr []));
    ("blocking", or_else (prop args "blocking") (VArr []));
    ("waiting", or_else (prop args "waiting") (VArr []));
    ("milestone", VBool false);
    ("isSuspended", VBool false);
    ("suspendReason", VStr "")
  ].

(** The [updateData] that the case [update_item] builds. *)
Definition update_item_updateData (args : object) : object :=
  let updateData : object := [] in
  let updateData := if negb (is_undefined (prop args "title"))
    then set_prop updateData "title" (prop args "title") else updateData in
  let updateData := if negb (is_undefined (prop args "description"))
    then set_prop updateData "description" (prop args "description") else updateData in
  let updateData := if negb (is_undefined (prop args "statusId"))
    then set_prop updateData "statusId" (prop args "statusId") else updateData in
  let updateData := if negb (is_undefined (prop args "rowId"))
    then set_prop updateData "rowId" (prop args "rowId") else updateData in
  let updateData := if negb (is_undefined (prop args "boardId"))
    then set_prop updateData "boardId" (prop args "boardId") else updateData in
  let updateData := if negb (is_undefined (prop args "assigneeId"))
    then set_prop updateData "userId" (prop args "assigneeId") else updateData in
  let updateData := if negb (is_undefined (prop args "startDate"))
    then set_prop updateData "startDate" (prop args "startDate") else updateData in
  let updateData := if negb (is_undefined (prop args "dueDate"))
    then set_prop updateData "dueDate" (prop args "dueDate") else updateData in
  let updateData := if negb (is_undefined (prop args "color"))
    then set_prop updateData "color" (prop args "color") else updateData in
  let updateData := if negb (is_undefined (prop args "tags"))
    then set_prop updateData "tags" (prop args "tags") else updateData in
  let updateData := if negb (is_undefined (prop args "customFields"))
    then set_prop updateData "customFields" (prop args "customFields") else updateData in
  let updateData := if negb (is_undefined (prop args "blocking"))
    then set_prop updateData "blocking" (prop args "blocking") else updateData in
  let updateData := if negb (is_undefined (prop args "waiting"))
    then set_prop updateData "waiting" (prop args "waiting") else updateData in
  let updateData := if negb (is_undefined (prop args "archived"))
    then set_prop updateData "archived" (prop args "archived") else updateData in
  let updateData := if negb (is_undefined (prop args "milestone"))
    then set_prop updateData "milestone" (prop args "milestone") else updateData in
  let updateData := if negb (is_undefined (prop args "progress"))
    then set_prop updateData "progress" (prop args "progress") else updateData in
  let updateData := if negb (is_undefined (prop args "parentId"))
    then set_prop updateData "parentId" (prop args "parentId") else updateData in
  updateData.

(** The object that the case [update_item] puts. *)
Definition update_item_body (args : object) : value :=
  VObj [("data", VObj (update_item_updateData args))].

(** The [url] and [options] of the [fetch] of the case [upload_attachment]. *)
Definition upload_attachment_fetch_arguments (args : object) (binaryContent : string)
  : Request :=
  let url := BASE_URL ++ "/attachments" in
  let formData : FormData := [] in
  let formData := (formData ++ [("ItemId", FormString (ToString (prop args "itemId")))])%list in
  let formData := (formData ++ [("Name", FormString (ToString (prop args "name")))])%list in
  let formData :=
    (formData ++ [("Content", FormFile binaryContent (ToString (prop args "name")))])%list in
  {| url := url;
     options :=
       {| method := POST;
          headers := [("Authorization", API_KEY)];
          body := Some (BodyForm formData) |} |}.

Definition handleToolCall (name : string) (args : object) : M value :=
  (* === WORKSPACES === *)
  if name =? "list_workspaces" then
    apiRequest "/workspaces" GET VUndefined
  else if name =? "get_workspace" then
    apiRequest ("/workspaces/" ++ ToString (prop args "workspaceId")) GET VUndefined
  else if name =? "create_workspace" then
    apiRequest "/workspaces" POST (VObj [
      ("title", prop args "title");
      ("displayId", prop args "displayId");
      ("icon", prop args "icon");
      ("color", prop args "color");
      ("templateId", prop args "templateId");
      ("ownerId", prop args "ownerId")
    ])
  else if name =? "add_workspace_member" then
    apiRequest
      ("/workspaces/" ++ ToString (prop args "workspaceId")
         ++ "/users/" ++ ToString (prop args "userId"))
      PUT
      (VObj [])
  else if name =? "list_boards" then
    apiRequest ("/workspaces/" ++ ToString (prop args "workspaceId") ++ "/boards") GET VUndefined
  (* === BOARDS === *)
  else if name =? "get_board" then
    boards <- apiRequest ("/workspaces/" ++ ToString (prop args "workspaceId") ++ "/boards")
                GET VUndefined ;;
    board <- lift (call_find "boards" boards (fun b =>
               and_then (member b "id") (fun id =>
               Return (strict_equals id (prop args "boardId"))))) ;;
    if negb (truthy board) then
      throw (ErrorObject ("Board " ++ ToString (prop args "boardId") ++ " not found in workspace"))
    else ret board
  else if name =? "create_board" then
    apiRequest "/boards" POST (VObj [
      ("workspaceId", prop args "workspaceId");
      ("title", prop args "title");
      ("displayId", prop args "displayId");
      ("templateId", prop args "templateId");
      ("viewType", prop args "viewType")
    ])
  else if name =? "list_rows" then
    apiRequest ("/boards/" ++ ToString (prop args "boardId") ++ "/rows") GET VUndefined
  else if name =? "list_statuses" then
    apiRequest ("/boards/" ++ ToString (prop args "boardId") ++ "/statuses") GET VUndefined
  else if name =? "create_row" then
    apiRequest "/rows" POST (VObj [
      ("boardId", prop args "boardId");
      ("title", prop args "title");
      ("startDate", prop args "startDate");
      ("endDate", prop args "endDate")
    ])
  (* === ITEMS === *)
  else if name =? "list_items" then
    params <- lift (list_items_params args) ;;
    apiRequest (list_items_endpoint params) GET VUndefined
  else if name =? "get_item" then
    apiRequest ("/items/" ++ ToString (prop args "itemId")) GET VUndefined
  else if name =? "create_item" then
    apiRequest "/items" POST (create_item_body args)
  else if name =? "update_item" then
    apiRequest ("/items/" ++ ToString (prop args "itemId")) PUT (update_item_body args)
  else if name =? "delete_item" then
    apiRequest ("/items/" ++ ToString (prop args "itemId")) DELETE VUndefined
  else if name =? "move_item" then
    apiRequest ("/items/" ++ ToString (prop args "itemId")) PUT (VObj [
      ("data", VObj [
        ("boardId", prop args "targetBoardId");
        ("statusId", prop args "targetStatusId");
        ("rowId", prop args "targetRowId")
      ])
    ])
  else if name =? "archive_item" then
    apiRequest ("/items/" ++ ToString (prop args "itemId")) PUT (VObj [
      ("data", VObj [("archived", nullish (prop args "archived") (VBool true))])
    ])
  (* === ATTACHMENTS === *)
  else if name =? "list_attachments" then
    apiRequest ("/items/" ++ ToString (prop args "itemId") ++ "/attachments") GET VUndefined
  else if name =? "get_attachment" then
    apiRequest ("/attachments/" ++ ToString (prop args "attachmentId")) GET VUndefined
  else if name =? "download_attachment" then
    apiRequest ("/attachments/" ++ ToString (prop args "attachmentId") ++ "/content")
      GET VUndefined
  else if name =? "update_attachment" then
    apiRequest ("/attachments/" ++ ToString (prop args "attachmentId")) PUT (VObj [
      ("Name", prop args "name")
    ])
  else if name =? "delete_attachment" then
    apiRequest ("/attachments/" ++ ToString (prop args "attachmentId")) DELETE VUndefined
  else if name =? "upload_attachment" then
    let content := prop args "content" in
    binaryContent <- lift (Buffer_from content) ;;
    let request := upload_attachment_fetch_arguments args binaryContent in
    response <- fetch (url request) (options request) ;;
    if negb (ok response) then
      let errorText := text response in
      throw (ErrorObject
               ("Upload failed " ++ Number_toString (status response) ++ ": " ++ errorText))
    else
      let text := text response in
      if negb (text =? "") then lift (JSON_parse text) else ret (VObj [])
  (* === USERS === *)
  else if name =? "list_users" then
    apiRequest "/users" GET VUndefined
  (* === TIME TRACKING === *)
  else if name =? "get_time_logs" then
    apiRequest "/timelogs" POST (VObj [
      ("workspaceId", prop args "workspaceId");
      ("startDate", prop args "startDate");
      ("endDate", prop args "endDate");
      ("boardIds", prop args "boardIds");
      ("rowIds", prop args "rowIds");
      ("userIds", prop args "userIds");
      ("tags", prop args "tags")
    ])
  (* === TEMPLATES === *)
  else if name =? "list_workspace_templates" then
    apiRequest "/templates/workspace" GET VUndefined
  else if name =? "list_board_templates" then
    apiRequest "/templates/board" GET VUndefined
  (* === ACTIVITY / LOGS === *)
  else if name =? "list_activities" then
    apiRequest ("/boards/" ++ ToString (prop args "boardId") ++ "/item-activities") POST (VObj [
      ("startDate", prop args "startDate");
      ("endDate", prop args "endDate");
      ("offset", nullish (prop args "offset") (VNum 0));
      ("limit", nullish (prop args "limit") (VNum 100))
    ])
  else if name =? "list_system_logs" then
    let logParams : URLSearchParams := [] in
    let logParams := append logParams "fromDate" (ToString (prop args "fromDate")) in
    let logParams := append logParams "toDate" (ToString (prop args "toDate")) in
    let logParams := if negb (is_undefined (prop args "skip"))
      then append logParams "skip" (ToString (prop args "skip")) else logParams in
    let logParams := if negb (is_undefined (prop args "take"))
      then append logParams "take" (ToString (prop args "take")) else logParams in
    apiRequest ("/logs?" ++ URLSearchParams_toString logParams) GET VUndefined
  else
    throw (ErrorObject ("Unknown tool: " ++ name)).

(** The message the [catch] of the handler reports:
    [error instanceof Error ? error.message : String(error)]. *)
Definition errorMessage (error : thrown) : string :=
  match error with
  | ErrorObject message => message
  | ThrownValue v => ToString v
  end.

(** The handler of [CallToolRequestSchema], on
    [request.params = { name, arguments: args }]; [args] is the record the
    source casts the arguments to, [Record<string, unknown>]. *)
Definition CallToolRequestHandler (name : string) (args : object) : M MCP.CallToolResult :=
  try_catch
    (result <- handleToolCall name args ;;
     ret {| MCP.content :=
              [ {| MCP.type := "text";
                   MCP.text := JSON_stringify result 2 |} ];
            MCP.isError := None |})
    (fun error =>
     let errorMessage := errorMessage error in
     ret {| MCP.content :=
              [ {| MCP.type := "text";
                   MCP.text := Some ("Error: " ++ errorMessage) |} ];
            MCP.isError := Some true |}).




(** ** Vocabulary of the statements *)

(** A successful result: one text block, no error flag. *)
Definition success_response (text : option string) : MCP.CallToolResult :=
  {| MCP.content := [ {| MCP.type := "text"; MCP.text := text |} ];
     MCP.isError := None |}.

(** A result flagged as an error: one text block ["Error: <message>"]. *)
Definition error_response (message : string) : MCP.CallToolResult :=
  {| MCP.content := [ {| MCP.type := "text"; MCP.text := Some ("Error: " ++ message) |} ];
     MCP.isError := Some true |}.


(** The callback of the search of [get_board]: [b.id === args.boardId]. *)
Definition has_board_id (args : object) (b : value) : outcome bool :=
  and_then (member b "id") (fun id => Return (strict_equals id (prop args "boardId"))).

(** Every argument the descriptor requires is defined in [args]. *)
Definition has_required_arguments (tool : MCP.Tool) (args : object) : bool :=
  forallb (fun k => negb (is_undefined (prop args k))) (required tool).

(** The first letter in upper case. *)
Definition capitalize (s : string) : string :=
  match s with
  | EmptyString => EmptyString
  | String c r =>
      let n := nat_of_ascii c in
      String (if ((97 <=? n) && (n <=? 122))%nat then ascii_of_nat (n - 32) else c) r
  end.

(** When a filter of [list_items] reaches the query string. *)
Inductive guard : Type :=
| WhenTruthy      (* the argument is truthy: a string other than the empty one *)
| WhenDefined     (* the argument is not [undefined] *)
| EachElement.    (* the argument is truthy; one parameter per element *)

(** The filters of [list_items], in the order of the query string. *)
Definition list_items_filters : list (string * guard) := [
  ("workspaceId", WhenTruthy);
  ("boardId", WhenTruthy);
  ("statusId", WhenTruthy);
  ("rowId", WhenTruthy);
  ("assignedUserId", WhenTruthy);
  ("ownerId", WhenTruthy);
  ("parentId", WhenTruthy);
  ("completed", WhenDefined);
  ("tags", EachElement);
  ("customFields", EachElement);
  ("createdSince", WhenTruthy);
  ("modifiedSince", WhenTruthy);
  ("completedSince", WhenTruthy);
  ("includeChildItems", WhenDefined);
  ("skip", WhenDefined);
  ("take", WhenDefined)
].

(** The table-driven reading of [list_items]: each filter, in turn, appends
    its parameters under its capitalized name. *)
Definition filter_step (args : object) (f : string * guard) (params : URLSearchParams)
  : outcome URLSearchParams :=
  let v := prop args (fst f) in
  match snd f with
  | WhenTruthy =>
      Return (if truthy v then append params (capitalize (fst f)) (ToString v) else params)
  | WhenDefined =>
      Return (if negb (is_undefined v)
              then append params (capitalize (fst f)) (ToString v) else params)
  | EachElement =>
      if truthy v then
        and_then (iterate ("args." ++ fst f) v) (fun l =>
        Return (fold_left (fun params x => append params (capitalize (fst f)) (ToString x))
                  l params))
      else Return params
  end.

Fixpoint run_filters (args : object) (fs : list (string * guard)) (params : URLSearchParams)
  : outcome URLSearchParams :=
  match fs with
  | [] => Return params
  | f :: fs' => and_then (filter_step args f params) (run_filters args fs')
  end.

(** The parameters one filter contributes. *)
Definition contribution (args : object) (f : string * guard) : URLSearchParams :=
  let v := prop args (fst f) in
  match snd f with
  | WhenTruthy => if truthy v then [(capitalize (fst f), ToString v)] else []
  | WhenDefined => if negb (is_undefined v) then [(capitalize (fst f), ToString v)] else []
  | EachElement =>
      if truthy v then
        match iterate ("args." ++ fst f) v with
        | Return l => map (fun x => (capitalize (fst f), ToString x)) l
        | Throw _ => []
        end
      else []
  end.

(** The update fields of [update_item]: the argument, and the field of the
    patch that carries it. *)
Definition update_fields : list (string * string) := [
  ("title", "title");
  ("description", "description");
  ("statusId", "statusId");
  ("rowId", "rowId");
  ("boardId", "boardId");
  ("assigneeId", "userId");
  ("startDate", "startDate");
  ("dueDate", "dueDate");
  ("color", "color");
  ("tags", "tags");
  ("customFields", "customFields");
  ("blocking", "blocking");
  ("waiting", "waiting");
  ("archived", "archived");
  ("milestone", "milestone");
  ("progress", "progress");
  ("parentId", "parentId")
].

(** The table-driven reading of [update_item]: each field, in turn, is set
    when its argument is defined. *)
Definition update_step (args : object) (updateData : object) (f : string * string) : object :=
  if negb (is_undefined (prop args (fst f)))
  then set_prop updateData (snd f) (prop args (fst f))
  else updateData.

(** The patch as the specification words it: the supplied fields, renamed,
    and nothing else. *)
Definition supplied_fields (args : object) : object :=
  flat_map (fun f => if is_undefined (prop args (fst f)) then []
                     else [(snd f, prop args (fst f))]) update_fields.

(** The compact text of a member of an object. *)
Definition member_text (k s : string) : string := quote k ++ ":" ++ s.

(** No duplicates in a list of strings, decided. *)
Fixpoint distinct (l : list string) : bool :=
  match l with
  | [] => true
  | x :: l' => negb (existsb (String.eqb x) l') && distinct l'
  end.

(** The filters of [list_items] that hold a string, and those sent whenever
    they are defined. *)
Definition string_filters : list string := [
  "workspaceId"; "boardId"; "statusId"; "rowId"; "assignedUserId"; "ownerId";
  "parentId"; "createdSince"; "modifiedSince"; "completedSince"
].

Definition defined_filters : list string := [
  "completed"; "includeChildItems"; "skip"; "take"
].

(** The arguments named by [keys] convert to a string in the model as they
    do in JavaScript. *)
Definition printable_arguments (keys : list string) (args : object) : bool :=
  forallb (fun k => printable (prop args k)) keys.

(** The arguments each case converts to a string on the way to its request:
    in a template literal, by [String], or by the [append] of
    [URLSearchParams] or of [FormData]. The cases that are not listed convert
    none. *)
Definition printed_arguments : list (string * list string) := [
  ("get_workspace", ["workspaceId"]);
  ("add_workspace_member", ["workspaceId"; "userId"]);
  ("list_boards", ["workspaceId"]);
  ("get_board", ["workspaceId"]);
  ("list_rows", ["boardId"]);
  ("list_statuses", ["boardId"]);
  ("list_items", ["workspaceId"; "boardId"; "statusId"; "rowId"; "assignedUserId";
                  "ownerId"; "parentId"; "completed"; "tags"; "customFields";
                  "createdSince"; "modifiedSince"; "completedSince";
                  "includeChildItems"; "skip"; "take"]);
  ("get_item", ["itemId"]);
  ("update_item", ["itemId"]);
  ("delete_item", ["itemId"]);
  ("move_item", ["itemId"]);
  ("archive_item", ["itemId"]);
  ("list_attachments", ["itemId"]);
  ("get_attachment", ["attachmentId"]);
  ("download_attachment", ["attachmentId"]);
  ("update_attachment", ["attachmentId"]);
  ("delete_attachment", ["attachmentId"]);
  ("upload_attachment", ["itemId"; "name"]);
  ("list_activities", ["boardId"]);
  ("list_system_logs", ["fromDate"; "toDate"; "skip"; "take"])
].

Definition printed (name : string) : list string :=
  match find (fun entry => fst entry =? name) printed_arguments with
  | Some (_, keys) => keys
  | None => []
  end.

(** What the loops of [list_items] accept: a falsy value, which the guard
    skips, an array or a string. *)
Definition iterable_or_falsy (v : value) : bool :=
  negb (truthy v) || match v with VArr _ | VStr _ => true | _ => false end.


(** ** Proof steps *)

(** Case analysis on the [switch] of [handleToolCall]: one goal per [case],
    with [name] replaced by the label, and one for [default]. *)
Ltac switch_on name :=
  unfold handleToolCall;
  repeat match goal with
         | |- context [if String.eqb name ?s then _ else _] =>
             destruct (String.eqb_spec name s) as [?E|?N]; [subst name|]
         end.

(** The calls that send nothing complete where they started. *)
Ltac no_request H := exfalso; apply H; reflexivity.

(** The HTTP method each tool uses. *)
Definition tool_methods : list (string * Method) := [
  ("list_workspaces", GET); ("get_workspace", GET); ("create_workspace", POST);
  ("add_workspace_member", PUT); ("list_boards", GET); ("get_board", GET);
  ("create_board", POST); ("list_rows", GET); ("list_statuses", GET);
  ("create_row", POST); ("list_items", GET); ("get_item", GET);
  ("create_item", POST); ("update_item", PUT); ("delete_item", DELETE);
  ("move_item", PUT); ("archive_item", PUT); ("list_attachments", GET);
  ("get_attachment", GET); ("download_attachment", GET); ("update_attachment", PUT);
  ("delete_attachment", DELETE); ("upload_attachment", POST); ("list_users", GET);
  ("get_time_logs", POST); ("list_workspace_templates", GET);
  ("list_board_templates", GET); ("list_activities", POST); ("list_system_logs", GET)
].

Fixpoint tool_method (table : list (string * Method)) (name : string) : option Method :=
  match table with
  | [] => None
  | (n, m) :: table' => if n =? name then Some m else tool_method table' name
  end.

(** The tools whose endpoint holds an argument: the text before it, the
    argument, the text after it. *)
Definition path_tools : list (string * (string * string * string)) := [
  ("get_workspace", ("/workspaces/", "workspaceId", ""));
  ("list_boards", ("/workspaces/", "workspaceId", "/boards"));
  ("get_board", ("/workspaces/", "workspaceId", "/boards"));
  ("list_rows", ("/boards/", "boardId", "/rows"));
  ("list_statuses", ("/boards/", "boardId", "/statuses"));
  ("get_item", ("/items/", "itemId", ""));
  ("update_item", ("/items/", "itemId", ""));
  ("delete_item", ("/items/", "itemId", ""));
  ("move_item", ("/items/", "itemId", ""));
  ("archive_item", ("/items/", "itemId", ""));
  ("list_attachments", ("/items/", "itemId", "/attachments"));
  ("get_attachment", ("/attachments/", "attachmentId", ""));
  ("download_attachment", ("/attachments/", "attachmentId", "/content"));
  ("update_attachment", ("/attachments/", "attachmentId", ""));
  ("delete_attachment", ("/attachments/", "attachmentId", ""));
  ("list_activities", ("/boards/", "boardId", "/item-activities"))
].

(** The requests a computation sent: what it added to the log. *)
Definition sent {A : Type} (m : M A) (log : list Request) : list Request :=
  skipn (length log) (snd (m log)).

(** One case of the proof that a tool reads only the arguments of its
    descriptor: [H] equates them in [args] and in the other record. *)
Ltac same_arguments H args :=
  match type of H with
  | context [accepted ?tool] =>
      let l := eval vm_compute in (accepted tool) in
      change (accepted tool) with l in H
  end;
  cbv beta iota zeta delta [MCP.name handleToolCall String.eqb Ascii.eqb Bool.eqb];
  unfold create_item_body, upload_attachment_fetch_arguments;
  repeat match goal with
         | |- context [prop args ?k] =>
             rewrite (H k) by (simpl; repeat ((left; reflexivity) || right))
         end;
  reflexivity.

(** ** Strings *)

Lemma append_empty_r (s : string) : s ++ "" = s.
Proof. induction s; simpl; congruence. Qed.

Lemma append_assoc (a b c : string) : (a ++ b) ++ c = a ++ b ++ c.
Proof. induction a as [|x a IH]; simpl; congruence. Qed.

Lemma prefix_app (a b : string) : String.prefix a (a ++ b) = true.
Proof.
  induction a as [|c a IH]; simpl.
  - destruct b; reflexivity.
  - destruct (ascii_dec c c) as [_|n]; [exact IH | contradiction].
Qed.

Lemma prefix_app_r (sub s b : string) :
  String.prefix sub s = true -> String.prefix sub (s ++ b) = true.
Proof.
  revert s. induction sub as [|c sub IH]; intros s H.
  - destruct (s ++ b); reflexivity.
  - destruct s as [|d s]; simpl in *; [discriminate|].
    destruct (ascii_dec c d); [now apply IH | discriminate].
Qed.

Lemma includes_prefix (sub s : string) :
  String.prefix sub s = true -> includes sub s = true.
Proof. intros H. destruct s; simpl in *; rewrite H; reflexivity. Qed.

Lemma includes_app_l (sub a s : string) :
  includes sub s = true -> includes sub (a ++ s) = true.
Proof.
  intros H. induction a as [|c a IH]; simpl.
  - exact H.
  - rewrite IH. apply orb_true_r.
Qed.

Lemma includes_app_r (sub s b : string) :
  includes sub s = true -> includes sub (s ++ b) = true.
Proof.
  induction s as [|c s IH]; intros H.
  - change (includes sub "") with (String.prefix sub "" || false) in H.
    rewrite orb_false_r in H.
    destruct sub; [|discriminate]. destruct b; reflexivity.
  - change (includes sub (String c s))
      with (String.prefix sub (String c s) || includes sub s) in H.
    apply orb_true_iff in H. destruct H as [H|H].
    + apply includes_prefix, prefix_app_r, H.
    + change (includes sub (String c s ++ b))
        with (String.prefix sub (String c (s ++ b)) || includes sub (s ++ b)).
      rewrite (IH H). apply orb_true_r.
Qed.


Lemma includes_refl (s : string) : includes s s = true.
Proof.
  pose proof (prefix_app s "") as P. rewrite append_empty_r in P.
  apply includes_prefix, P.
Qed.

Lemma distinct_NoDup (l : list string) : distinct l = true -> NoDup l.
Proof.
  induction l as [|x l IH]; simpl; intros H.
  - constructor.
  - apply andb_true_iff in H. destruct H as [H1 H2].
    constructor; [|now apply IH].
    intros Hin. apply negb_true_iff in H1.
    assert (existsb (String.eqb x) l = true) as E.
    { apply existsb_exists. exists x. split; [exact Hin | apply String.eqb_refl]. }
    congruence.
Qed.

(** ** The catalog *)

Lemma tool_names :
  map MCP.name tools =
  [ "list_workspaces"; "get_workspace"; "create_workspace"; "add_workspace_member";
    "list_boards"; "get_board"; "create_board"; "list_rows"; "list_statuses";
    "create_row"; "list_items"; "get_item"; "create_item"; "update_item";
    "delete_item"; "move_item"; "archive_item"; "list_attachments"; "get_attachment";
    "download_attachment"; "update_attachment"; "delete_attachment";
    "upload_attachment"; "list_users"; "get_time_logs"; "list_workspace_templates";
    "list_board_templates"; "list_activities"; "list_system_logs" ].
Proof. reflexivity. Qed.

(** The tables of the statements list what the catalog advertises. *)
Lemma list_items_filters_accepted :
  option_map accepted (descriptor "list_items") = Some (map fst list_items_filters).
Proof. reflexivity. Qed.

Lemma update_fields_accepted :
  option_map accepted (descriptor "update_item") = Some ("itemId" :: map fst update_fields).
Proof. reflexivity. Qed.

Lemma string_filters_guard :
  map fst (filter (fun f => match snd f with WhenTruthy => true | _ => false end)
             list_items_filters) = string_filters.
Proof. reflexivity. Qed.

Lemma defined_filters_guard :
  map fst (filter (fun f => match snd f with WhenDefined => true | _ => false end)
             list_items_filters) = defined_filters.
Proof. reflexivity. Qed.

(** C8 (as amended): the catalog holds exactly 29 descriptors, and no two of
    them share a name: the names form a duplicate-free list, so the
    descriptors at two distinct positions have different names. *)
Theorem tools_count_and_unique_names :
  length tools = 29%nat
  /\ NoDup (map MCP.name tools)
  /\ (forall i j a b,
        nth_error tools i = Some a -> nth_error tools j = Some b ->
        i <> j -> MCP.name a <> MCP.name b).
Proof.
  assert (NoDup (map MCP.name tools)) as ND.
  { apply distinct_NoDup. reflexivity. }
  split; [reflexivity|]. split; [exact ND|].
  intros i j a b Ha Hb Hij E. apply Hij.
  assert (i < length (map MCP.name tools))%nat as Hi.
  { rewrite length_map. apply nth_error_Some. congruence. }
  apply (proj1 (NoDup_nth_error (map MCP.name tools)) ND i j Hi).
  rewrite !nth_error_map, Ha, Hb. simpl. congruence.
Qed.


(** ** Computations *)

Lemma truthy_serializes (v : value) (space : nat) :
  truthy v = true -> exists s, JSON_stringify v space = Some s.
Proof.
  unfold JSON_stringify.
  destruct v as [| |b|n|s|l|o]; simpl; try discriminate; intros _;
    try (destruct b); eexists; reflexivity.
Qed.

Lemma fetch_request (request : Request) (log : list Request) :
  fetch (url request) (options request) log = (backend request, (log ++ [request])%list).
Proof. destruct request; reflexivity. Qed.

Lemma apiRequest_log (endpoint : string) (m : Method) (b : value) (log : list Request) :
  snd (apiRequest endpoint m b log)
  = (log ++ [apiRequest_fetch_arguments endpoint m b])%list.
Proof.
  unfold apiRequest, bind. cbv zeta. rewrite fetch_request.
  destruct (backend _) as [r|e]; [|reflexivity].
  destruct (ok r); simpl; [|reflexivity].
  destruct (text r =? ""); reflexivity.
Qed.

(** What a computation sent, from its log. *)
Lemma sent_app {A : Type} (m : M A) (log new : list Request) :
  snd (m log) = (log ++ new)%list -> sent m log = new.
Proof.
  intros H. unfold sent. rewrite H.
  rewrite skipn_app, skipn_all, Nat.sub_diag. reflexivity.
Qed.

(** What [apiRequest] completes with, from the backend's answer. *)
Lemma apiRequest_resolved (endpoint : string) (m : Method) (b : value)
      (log : list Request) (r : Response) :
  backend (apiRequest_fetch_arguments endpoint m b) = Return r ->
  apiRequest endpoint m b log =
  ( if negb (ok r) then
      Throw (ErrorObject ("API Error " ++ Number_toString (status r) ++ ": " ++ text r))
    else if text r =? "" then Return (VObj [])
    else JSON_parse (text r),
    (log ++ [apiRequest_fetch_arguments endpoint m b])%list ).
Proof.
  intros H. unfold apiRequest, bind. cbv zeta. rewrite fetch_request, H.
  destruct (ok r); simpl; [|reflexivity].
  destruct (text r =? ""); reflexivity.
Qed.

Lemma apiRequest_rejected (endpoint : string) (m : Method) (b : value)
      (log : list Request) (e : thrown) :
  backend (apiRequest_fetch_arguments endpoint m b) = Throw e ->
  apiRequest endpoint m b log
  = (Throw e, (log ++ [apiRequest_fetch_arguments endpoint m b])%list).
Proof.
  intros H. unfold apiRequest, bind. cbv zeta. rewrite fetch_request, H. reflexivity.
Qed.

Lemma handleToolCall_default (name : string) (args : object) (log : list Request) :
  ~ In name (map MCP.name tools) ->
  handleToolCall name args log = (Throw (ErrorObject ("Unknown tool: " ++ name)), log).
Proof.
  rewrite tool_names. intros H.
  switch_on name;
    try solve [exfalso; apply H; simpl; repeat ((left; reflexivity) || right)].
  reflexivity.
Qed.

(** The handler always completes, with a response. *)
Lemma CallToolRequestHandler_completes (name : string) (args : object) (log : list Request) :
  CallToolRequestHandler name args log
  = match handleToolCall name args log with
    | (Return result, log') => (Return (success_response (JSON_stringify result 2)), log')
    | (Throw e, log') => (Return (error_response (errorMessage e)), log')
    end.
Proof.
  unfold CallToolRequestHandler, try_catch, bind.
  destruct (handleToolCall name args log) as [[result|e] log']; reflexivity.
Qed.

(** A rejected [fetch] is reported like any other failure. *)
Lemma transport_error_is_reported (args : object) (log : list Request) (e : thrown) :
  backend (apiRequest_fetch_arguments "/users" GET VUndefined) = Throw e ->
  CallToolRequestHandler "list_users" args log
  = (Return (error_response (errorMessage e)),
     (log ++ [apiRequest_fetch_arguments "/users" GET VUndefined])%list).
Proof.
  intros H. rewrite CallToolRequestHandler_completes.
  change (handleToolCall "list_users" args log) with (apiRequest "/users" GET VUndefined log).
  now rewrite (apiRequest_rejected _ _ _ _ _ H).
Qed.

(** ** The transport client *)

(** C7 (as amended): [apiRequest] sends one request; its URL is the base URL
    followed by the endpoint; its headers are always the raw API key as
    [Authorization] and [Content-Type: application/json], with or without a
    body; a GET or DELETE request carries no body; a POST or PUT request
    carries the JSON text of the body when one is given (a truthy value), and
    no body otherwise. *)
Theorem apiRequest_request :
  forall (endpoint : string) (m : Method) (b : value) (log : list Request),
    let request := apiRequest_fetch_arguments endpoint m b in
    snd (apiRequest endpoint m b log) = (log ++ [request])%list
    /\ url request = BASE_URL ++ endpoint
    /\ method (options request) = m
    /\ headers (options request)
       = [("Authorization", API_KEY); ("Content-Type", "application/json")]
    /\ (m = GET \/ m = DELETE -> body (options request) = None)
    /\ (m = POST \/ m = PUT ->
        (truthy b = true ->
         exists s, JSON_stringify b 0 = Some s
                   /\ body (options request) = Some (BodyText s))
        /\ (truthy b = false -> body (options request) = None)).
Proof.
  intros endpoint m b log request.
  split; [apply apiRequest_log|].
  repeat split; subst request; simpl.
  - intros [->| ->]; rewrite andb_false_r; reflexivity.
  - intros T. destruct (truthy_serializes b 0 T) as [s Hs].
    exists s. split; [exact Hs|]. rewrite T, Hs.
    destruct H as [->| ->]; reflexivity.
  - intros T. rewrite T. reflexivity.
Qed.

(** ** The protocol endpoint *)

(** C3: a call whose dispatch fails, whatever was thrown, completes with the
    response flagged as an error whose one text block is ["Error: <message>"];
    the handler never throws itself, so the endpoint goes on; an unknown name
    fails with ["Unknown tool: <name>"] before any request is sent, and
    [call_tool("unknown_tool_xyz", {})] answers an error-flagged response
    whose text contains ["Unknown tool: unknown_tool_xyz"]. *)
Theorem call_tool_failure_is_recovered :
  (forall name args log e log',
      handleToolCall name args log = (Throw e, log') ->
      CallToolRequestHandler name args log
      = (Return (error_response (errorMessage e)), log'))
  /\ (forall name args log,
        exists response log',
          CallToolRequestHandler name args log = (Return response, log'))
  /\ (forall name args log,
        ~ In name (map MCP.name tools) ->
        CallToolRequestHandler name args log
        = (Return (error_response ("Unknown tool: " ++ name)), log))
  /\ (forall log,
        exists t,
          CallToolRequestHandler "unknown_tool_xyz" [] log
          = (Return {| MCP.content := [ {| MCP.type := "text"; MCP.text := Some t |} ];
                       MCP.isError := Some true |}, log)
          /\ includes "Unknown tool: unknown_tool_xyz" t = true).
Proof.
  repeat split.
  - intros name args log e log' H.
    rewrite CallToolRequestHandler_completes, H. reflexivity.
  - intros name args log. rewrite CallToolRequestHandler_completes.
    destruct (handleToolCall name args log) as [[result|e] log'];
      eexists; eexists; reflexivity.
  - intros name args log H.
    rewrite CallToolRequestHandler_completes, (handleToolCall_default _ _ _ H).
    reflexivity.
  - intros log. eexists. split.
    + rewrite CallToolRequestHandler_completes, handleToolCall_default.
      * reflexivity.
      * rewrite tool_names. simpl. intuition discriminate.
    + reflexivity.
Qed.


(** ** Objects and their JSON text *)





Lemma set_prop_fresh (o : object) (k : string) (v : value) :
  ~ In k (keys o) -> set_prop o k v = (o ++ [(k, v)])%list.
Proof.
  induction o as [|[k' v'] o IH]; simpl; intros H.
  - reflexivity.
  - destruct (String.eqb_spec k' k) as [E|N].
    + exfalso. apply H. left. exact E.
    + rewrite IH; [reflexivity|]. intros Hin. apply H. right. exact Hin.
Qed.


Lemma is_undefined_false (v : value) : is_undefined v = false <-> v <> VUndefined.
Proof. destruct v; simpl; split; congruence. Qed.

Lemma concat_includes (sep x : string) (l : list string) :
  In x l -> includes x (String.concat sep l) = true.
Proof.
  induction l as [|y l IH]; [contradiction|].
  intros [E|Hin].
  - subst y. destruct l as [|z l]; simpl.
    + apply includes_refl.
    + apply includes_app_r, includes_refl.
  - destruct l as [|z l]; [contradiction|].
    change (String.concat sep (y :: z :: l)) with (y ++ sep ++ String.concat sep (z :: l)).
    apply includes_app_l, includes_app_l, IH, Hin.
Qed.

Lemma wrap_includes (open close indent gap x : string) (partial : list string) :
  In x partial -> includes x (wrap open close indent gap partial) = true.
Proof.
  intros Hin. pose proof (concat_includes "," x partial Hin) as H1.
  pose proof (concat_includes ("," ++ LF ++ indent ++ gap) x partial Hin) as H2.
  unfold wrap. destruct partial as [|y l]; [contradiction|].
  destruct (gap =? "").
  - apply includes_app_l, includes_app_r, H1.
  - cbv zeta. apply includes_app_l, includes_app_l, includes_app_l, includes_app_r, H2.
Qed.

(** A property whose value has a JSON text shows in the compact text of the
    object, under its key. *)
Lemma stringify_includes_member (o : object) (k : string) (v : value) (s : string) :
  In (k, v) o -> JSON_stringify v 0 = Some s ->
  exists t, JSON_stringify (VObj o) 0 = Some t /\ includes (member_text k s) t = true.
Proof.
  unfold JSON_stringify. simpl. intros Hin Hs.
  eexists. split; [reflexivity|].
  apply wrap_includes, in_flat_map. exists (k, v). split; [exact Hin|].
  simpl. rewrite Hs. left. reflexivity.
Qed.

(** ** The dispatcher: [create_item] *)

(** C1: [create_item] posts to [/items] the JSON text of an object in which
    [assignedUserId] holds the [assigneeId] argument and no [assigneeId] key
    exists; [tags], [customFields], [blocking] and [waiting] are always there,
    holding the caller's value when one is supplied (a sequence, or any
    truthy value) and the empty sequence when the argument is absent; [milestone: false], [isSuspended: false] and
    [suspendReason: ""] are there whatever the arguments, also in the text
    sent, which holds ["assignedUserId":"<id>"] for an [assigneeId] string. *)
Theorem create_item_body_fields :
  forall (args : object) (log : list Request),
    handleToolCall "create_item" args log
    = apiRequest "/items" POST (create_item_body args) log
    /\ exists (o : object) (s : string),
        create_item_body args = VObj o
        /\ JSON_stringify (VObj o) 0 = Some s
        /\ snd (handleToolCall "create_item" args log)
           = (log ++ [ {| url := BASE_URL ++ "/items";
                          options :=
                            {| method := POST;
                               headers := [("Authorization", API_KEY);
                                           ("Content-Type", "application/json")];
                               body := Some (BodyText s) |} |} ])%list
        /\ prop o "assignedUserId" = prop args "assigneeId"
        /\ hasOwn o "assigneeId" = false
        /\ (forall f, In f ["tags"; "customFields"; "blocking"; "waiting"] ->
              hasOwn o f = true
              /\ (prop args f = VUndefined -> prop o f = VArr [])
              /\ (forall l, prop args f = VArr l -> prop o f = VArr l)
              /\ (truthy (prop args f) = true -> prop o f = prop args f))
        /\ prop o "milestone" = VBool false
        /\ prop o "isSuspended" = VBool false
        /\ prop o "suspendReason" = VStr ""
        /\ (forall u, prop args "assigneeId" = VStr u ->
              includes (member_text "assignedUserId" (quote u)) s = true)
        /\ includes (member_text "milestone" "false") s = true
        /\ includes (member_text "isSuspended" "false") s = true
        /\ includes (member_text "suspendReason" (DQ ++ DQ)) s = true.
Proof.
  intros args log. split; [reflexivity|].
  destruct (truthy_serializes (create_item_body args) 0 eq_refl) as [s Hs].
  eexists. exists s. split; [reflexivity|]. split; [exact Hs|].
  split.
  { change (handleToolCall "create_item" args log)
      with (apiRequest "/items" POST (create_item_body args) log).
    rewrite apiRequest_log. unfold apiRequest_fetch_arguments.
    cbv zeta. unfold create_item_body in Hs |- *.
    rewrite Hs. reflexivity. }
  split; [reflexivity|]. split; [reflexivity|].
  split.
  { intros f Hf. simpl in Hf.
    destruct Hf as [<-|[<-|[<-|[<-|[]]]]];
      (split; [reflexivity|]; split; [|split];
       [ intros E; simpl; rewrite E; reflexivity
       | intros l E; simpl; rewrite E; reflexivity
       | intros E; simpl; unfold or_else; rewrite E; reflexivity ]). }
  split; [reflexivity|]. split; [reflexivity|]. split; [reflexivity|].
  assert (forall k v t, In (k, v) (match create_item_body args with VObj o => o | _ => [] end) ->
                        JSON_stringify v 0 = Some t ->
                        includes (member_text k t) s = true) as M.
  { intros k v t Hin Ht.
    destruct (stringify_includes_member _ k v t Hin Ht) as [s' [Hs' Hi]].
    unfold create_item_body in Hs, Hs'. simpl in Hs'. rewrite Hs in Hs'.
    inversion Hs'. subst s'. exact Hi. }
  split.
  { intros u E. apply (M "assignedUserId" (prop args "assigneeId")).
    - simpl. repeat ((left; reflexivity) || right).
    - rewrite E. reflexivity. }
  repeat split.
  - apply (M "milestone" (VBool false)); [|reflexivity].
    simpl. repeat ((left; reflexivity) || right).
  - apply (M "isSuspended" (VBool false)); [|reflexivity].
    simpl. repeat ((left; reflexivity) || right).
  - apply (M "suspendReason" (VStr "")); [|reflexivity].
    simpl. repeat ((left; reflexivity) || right).
Qed.

(** ** The dispatcher: [update_item] *)

Lemma update_item_updateData_fold (args : object) :
  update_item_updateData args = fold_left (update_step args) update_fields [].
Proof. reflexivity. Qed.

(** Setting fresh fields one after the other lists them in order. *)
Lemma fold_update_step (args : object) (fs : list (string * string)) (d : object) :
  NoDup (keys d ++ map snd fs) ->
  fold_left (update_step args) fs d
  = (d ++ flat_map (fun f => if is_undefined (prop args (fst f)) then []
                             else [(snd f, prop args (fst f))]) fs)%list.
Proof.
  revert d. induction fs as [|[a b] fs IH]; intros d ND; simpl.
  - now rewrite app_nil_r.
  - unfold update_step at 2. simpl.
    destruct (is_undefined (prop args a)); simpl.
    + apply IH. simpl in ND. now apply NoDup_remove_1 in ND.
    + simpl in ND. rewrite set_prop_fresh.
      * rewrite IH.
        -- now rewrite <- app_assoc.
        -- unfold keys in *. rewrite map_app. simpl. now rewrite <- app_assoc.
      * apply NoDup_remove_2 in ND. intros Hin. apply ND, in_or_app. now left.
Qed.

Lemma update_item_updateData_supplied (args : object) :
  update_item_updateData args = supplied_fields args.
Proof.
  rewrite update_item_updateData_fold, fold_update_step; [reflexivity|].
  apply distinct_NoDup. reflexivity.
Qed.




(** ** The dispatcher: [list_items] *)

Lemma includes_empty (s : string) : includes "" s = true.
Proof. destruct s; reflexivity. Qed.

Lemma prefix_cancel (a s t : string) :
  String.prefix s t = true -> String.prefix (a ++ s) (a ++ t) = true.
Proof.
  intros H. induction a as [|c a IH]; simpl; [exact H|].
  destruct (ascii_dec c c); [exact IH | contradiction].
Qed.

Lemma prefix_empty (s : string) : String.prefix "" s = true.
Proof. destruct s; reflexivity. Qed.

Lemma concat_prefix (sep : string) (m a : list string) :
  String.prefix (String.concat sep m) (String.concat sep (m ++ a)) = true.
Proof.
  induction m as [|x m IH].
  - apply prefix_empty.
  - destruct m as [|y m].
    + destruct a as [|z a]; simpl.
      * pose proof (prefix_app x "") as P. now rewrite append_empty_r in P.
      * apply prefix_app.
    + change (String.concat sep (x :: y :: m)) with (x ++ sep ++ String.concat sep (y :: m)).
      change (String.concat sep ((x :: y :: m) ++ a))
        with (x ++ sep ++ String.concat sep ((y :: m) ++ a)).
      apply prefix_cancel, prefix_cancel, IH.
Qed.

(** A run of parameters shows in the query string as it would alone. *)
Lemma concat_includes_run (sep : string) (b m a : list string) :
  includes (String.concat sep m) (String.concat sep (b ++ m ++ a)) = true.
Proof.
  induction b as [|y b IH].
  - simpl. apply includes_prefix, concat_prefix.
  - destruct (b ++ m ++ a)%list as [|z rest] eqn:E.
    + destruct m as [|x m]; [apply includes_empty|].
      destruct b; discriminate.
    + change (String.concat sep ((y :: b) ++ m ++ a))
        with (String.concat sep (y :: (b ++ m ++ a))).
      rewrite E.
      change (String.concat sep (y :: z :: rest)) with (y ++ sep ++ String.concat sep (z :: rest)).
      apply includes_app_l, includes_app_l, IH.
Qed.

Lemma toString_includes_run (before run after : URLSearchParams) :
  includes (URLSearchParams_toString run)
           (URLSearchParams_toString (before ++ run ++ after)%list) = true.
Proof.
  unfold URLSearchParams_toString. rewrite !map_app. apply concat_includes_run.
Qed.

Lemma list_items_params_table (args : object) :
  list_items_params args = run_filters args list_items_filters [].
Proof. reflexivity. Qed.

Lemma fold_append (K : string) (l : list value) (params : URLSearchParams) :
  fold_left (fun params x => append params K (ToString x)) l params
  = (params ++ map (fun x => (K, ToString x)) l)%list.
Proof.
  revert params. induction l as [|x l IH]; intros params; simpl.
  - now rewrite app_nil_r.
  - rewrite IH. unfold append. now rewrite <- app_assoc.
Qed.

Lemma filter_step_contribution (args : object) (f : string * guard)
      (params out : URLSearchParams) :
  filter_step args f params = Return out ->
  out = (params ++ contribution args f)%list.
Proof.
  unfold filter_step, contribution. destruct f as [a g]. simpl.
  destruct g.
  - intros H. inversion H. destruct (truthy (prop args a)); [reflexivity|].
    now rewrite app_nil_r.
  - intros H. inversion H. destruct (is_undefined (prop args a)); simpl; [|reflexivity].
    now rewrite app_nil_r.
  - destruct (truthy (prop args a)).
    + destruct (iterate _ _) as [l|e]; simpl; intros H; inversion H.
      apply fold_append.
    + intros H. inversion H. now rewrite app_nil_r.
Qed.

Lemma run_filters_contributions (args : object) (fs : list (string * guard))
      (params out : URLSearchParams) :
  run_filters args fs params = Return out ->
  out = (params ++ flat_map (contribution args) fs)%list.
Proof.
  revert params. induction fs as [|f fs IH]; intros params; simpl.
  - intros H. inversion H. now rewrite app_nil_r.
  - destruct (filter_step args f params) as [p|e] eqn:E; simpl; [|discriminate].
    intros H. apply IH in H. apply filter_step_contribution in E.
    subst. now rewrite <- app_assoc.
Qed.

Lemma list_items_params_contributions (args : object) (params : URLSearchParams) :
  list_items_params args = Return params ->
  params = flat_map (contribution args) list_items_filters.
Proof.
  rewrite list_items_params_table. intros H.
  apply run_filters_contributions in H. exact H.
Qed.

(** The parameters of a filter carry its capitalized name. *)
Lemma contribution_key (args : object) (f : string * guard) (K v : string) :
  In (K, v) (contribution args f) -> K = capitalize (fst f).
Proof.
  unfold contribution. destruct f as [a g]. simpl. destruct g.
  - destruct (truthy _); simpl; [|contradiction]. intros [E|[]]. congruence.
  - destruct (is_undefined _); simpl; [contradiction|]. intros [E|[]]. congruence.
  - destruct (truthy _); [|contradiction].
    destruct (iterate _ _); [|contradiction].
    intros H. apply in_map_iff in H. destruct H as [x [E _]]. congruence.
Qed.

Lemma flat_map_split {A B : Type} (g : A -> list B) (l : list A) (x : A) :
  In x l -> exists before after, flat_map g l = (before ++ g x ++ after)%list.
Proof.
  intros H. apply in_split in H. destruct H as [l1 [l2 ->]].
  exists (flat_map g l1), (flat_map g l2).
  rewrite flat_map_app. reflexivity.
Qed.

(** A query with a parameter is not the empty text. *)
Lemma query_not_empty (p : string * string) (ps : URLSearchParams) :
  (URLSearchParams_toString (p :: ps) =? "") = false.
Proof.
  unfold URLSearchParams_toString. destruct p as [k v].
  change (map (fun p => urlencode (fst p) ++ "=" ++ urlencode (snd p)) ((k, v) :: ps))
    with ((urlencode k ++ "=" ++ urlencode v)
            :: map (fun p => urlencode (fst p) ++ "=" ++ urlencode (snd p)) ps).
  destruct (map _ ps) as [|y l].
  - simpl. destruct (urlencode k); reflexivity.
  - change (String.concat "&" ((urlencode k ++ "=" ++ urlencode v) :: y :: l))
      with ((urlencode k ++ "=" ++ urlencode v) ++ "&" ++ String.concat "&" (y :: l)).
    destruct (urlencode k); reflexivity.
Qed.

(** A parameter shows in the query string as its name, the equals sign and
    its value, both encoded. *)
Lemma param_in_query (K v : string) (params : URLSearchParams) :
  In (K, v) params ->
  includes (urlencode K ++ "=" ++ urlencode v) (URLSearchParams_toString params) = true.
Proof.
  intros Hin. apply in_split in Hin. destruct Hin as [l1 [l2 ->]].
  apply (toString_includes_run l1 [(K, v)] l2).
Qed.

(** The names of the parameters need no encoding. *)
Lemma filter_names_plain (a : string) (g : guard) :
  In (a, g) list_items_filters -> urlencode (capitalize a) = capitalize a.
Proof.
  intros Hin. simpl in Hin.
  repeat (destruct Hin as [Hin|Hin]; [inversion Hin; reflexivity|]).
  contradiction.
Qed.

(** The one request of [list_items]: a GET of [/items], followed by a
    question mark and the query when there is a parameter. *)
Lemma list_items_request (args : object) (params : URLSearchParams) (log : list Request) :
  list_items_params args = Return params ->
  sent (handleToolCall "list_items" args) log
  = [ {| url := BASE_URL ++ "/items"
                  ++ match params with
                     | [] => ""
                     | _ :: _ => "?" ++ URLSearchParams_toString params
                     end;
         options :=
           {| method := GET;
              headers := [("Authorization", API_KEY);
                          ("Content-Type", "application/json")];
              body := None |} |} ].
Proof.
  intros H. apply sent_app.
  change (handleToolCall "list_items" args log)
    with ((params <- lift (list_items_params args) ;;
           apiRequest (list_items_endpoint params) GET VUndefined) log).
  unfold bind, lift. rewrite H. rewrite apiRequest_log.
  unfold apiRequest_fetch_arguments, list_items_endpoint. cbv zeta.
  destruct params as [|p ps].
  - reflexivity.
  - rewrite query_not_empty. reflexivity.
Qed.

Lemma flat_map_nil {A B : Type} (g : A -> list B) (l : list A) :
  (forall x, In x l -> g x = []) -> flat_map g l = [].
Proof.
  induction l as [|x l IH]; intros H; simpl; [reflexivity|].
  rewrite (H x (or_introl eq_refl)), IH; [reflexivity|].
  intros y Hy. apply H. now right.
Qed.

(** C4 (as amended): [list_items] sends one GET whose URL is the base URL,
    [/items] and, after a question mark, the query string of the parameters
    (nothing after [/items] when there is none). The query holds, in the
    order of the catalog, the parameters of the filters that pass their
    guard, each under the capitalized name of its argument, which differs
    from the argument's name: a string filter when it is truthy (not the
    empty string), [completed], [includeChildItems], [skip] and [take] when
    they are defined, and for [tags] and [customFields] given as arrays one
    parameter per element, in a row and in order, never joined; so
    [tags: ["a","b"]] yields a query string that contains [Tags=a&Tags=b].
    The filters are values that JavaScript converts as the model does
    ([printable]), and [tags] and [customFields] can be iterated. *)
Theorem list_items_query :
  forall (args : object) (params : URLSearchParams) (log : list Request),
    printable_arguments (map fst list_items_filters) args = true ->
    list_items_params args = Return params ->
    let query := URLSearchParams_toString params in
    sent (handleToolCall "list_items" args) log
    = [ {| url := BASE_URL ++ "/items"
                    ++ match params with
                       | [] => ""
                       | _ :: _ => "?" ++ query
                       end;
           options :=
             {| method := GET;
                headers := [("Authorization", API_KEY);
                            ("Content-Type", "application/json")];
                body := None |} |} ]
    /\ params = flat_map (contribution args) list_items_filters
    /\ (forall a, In (a, WhenTruthy) list_items_filters ->
          truthy (prop args a) = true ->
          In (capitalize a, ToString (prop args a)) params
          /\ includes (capitalize a ++ "=" ++ urlencode (ToString (prop args a))) query
             = true)
    /\ (forall a, In (a, WhenDefined) list_items_filters ->
          prop args a <> VUndefined ->
          In (capitalize a, ToString (prop args a)) params
          /\ includes (capitalize a ++ "=" ++ urlencode (ToString (prop args a))) query
             = true)
    /\ (forall a l, In (a, EachElement) list_items_filters ->
          prop args a = VArr l ->
          (exists before after,
              params
              = (before ++ map (fun x => (capitalize a, ToString x)) l ++ after)%list)
          /\ includes
               (URLSearchParams_toString (map (fun x => (capitalize a, ToString x)) l))
               query = true)
    /\ (forall a g, In (a, g) list_items_filters -> capitalize a <> a)
    /\ (forall K v, In (K, v) params ->
          exists a g, In (a, g) list_items_filters /\ K = capitalize a)
    /\ (prop args "tags" = VArr [VStr "a"; VStr "b"] ->
        includes "Tags=a&Tags=b" query = true).
Proof.
  intros args params log _ H query.
  pose proof (list_items_params_contributions args params H) as EP.
  assert (forall a g, In (a, g) list_items_filters ->
            In (capitalize a, ToString (prop args a)) params ->
            includes (capitalize a ++ "=" ++ urlencode (ToString (prop args a))) query
            = true) as HQ.
  { intros a g Hin Hp. rewrite <- (filter_names_plain a g Hin).
    apply param_in_query, Hp. }
  assert (forall a l, In (a, EachElement) list_items_filters ->
            prop args a = VArr l ->
            (exists before after,
                params
                = (before ++ map (fun x => (capitalize a, ToString x)) l ++ after)%list)
            /\ includes
                 (URLSearchParams_toString (map (fun x => (capitalize a, ToString x)) l))
                 query = true)
    as HE.
  { intros a l Hin E.
    destruct (flat_map_split (contribution args) _ _ Hin) as [before [after S]].
    assert (params
            = (before ++ map (fun x => (capitalize a, ToString x)) l ++ after)%list) as P.
    { rewrite EP, S. unfold contribution. simpl. rewrite E. reflexivity. }
    split; [exists before, after; exact P|].
    unfold query. rewrite P. apply toString_includes_run. }
  split; [apply list_items_request, H|].
  split; [exact EP|]. split.
  { intros a Hin T.
    assert (In (capitalize a, ToString (prop args a)) params) as P.
    { rewrite EP. apply in_flat_map. exists (a, WhenTruthy).
      split; [exact Hin|]. unfold contribution. simpl. rewrite T. now left. }
    split; [exact P | exact (HQ a _ Hin P)]. }
  split.
  { intros a Hin D.
    assert (In (capitalize a, ToString (prop args a)) params) as P.
    { rewrite EP. apply in_flat_map. exists (a, WhenDefined).
      split; [exact Hin|]. unfold contribution. simpl.
      apply is_undefined_false in D. rewrite D. now left. }
    split; [exact P | exact (HQ a _ Hin P)]. }
  split; [exact HE|]. split.
  { intros a g Hin. simpl in Hin.
    repeat (destruct Hin as [Hin|Hin]; [inversion Hin; discriminate|]). contradiction. }
  split.
  { intros K v Hin. rewrite EP in Hin. apply in_flat_map in Hin.
    destruct Hin as [[a g] [Hf Hc]]. exists a, g. split; [exact Hf|].
    apply (contribution_key _ _ _ _ Hc). }
  intros E. refine (proj2 (HE "tags" _ _ E)).
  simpl. repeat ((left; reflexivity) || right).
Qed.

(** C10: the one GET of [list_items] carries a query in which [completed],
    [includeChildItems], [skip] and [take] are sent whenever they are
    defined, so [false] and [0] are sent ([skip: 0] yields [Skip=0]); each of
    the ten string filters given as the empty string leaves no parameter of
    its name, and a call that supplies nothing but such empty strings is
    sent to [/items] with no query at all. The filters are values that
    JavaScript converts as the model does ([printable]). *)
Theorem list_items_guards :
  forall (args : object) (params : URLSearchParams) (log : list Request),
    printable_arguments (map fst list_items_filters) args = true ->
    list_items_params args = Return params ->
    let query := URLSearchParams_toString params in
    sent (handleToolCall "list_items" args) log
    = [ {| url := BASE_URL ++ "/items"
                    ++ match params with
                       | [] => ""
                       | _ :: _ => "?" ++ query
                       end;
           options :=
             {| method := GET;
                headers := [("Authorization", API_KEY);
                            ("Content-Type", "application/json")];
                body := None |} |} ]
    /\ (forall a, In a defined_filters -> prop args a <> VUndefined ->
          In (capitalize a, ToString (prop args a)) params
          /\ includes (capitalize a ++ "=" ++ urlencode (ToString (prop args a))) query
             = true)
    /\ (forall a, In a defined_filters -> prop args a = VBool false ->
          In (capitalize a, "false") params
          /\ includes (capitalize a ++ "=false") query = true)
    /\ (forall a, In a defined_filters -> prop args a = VNum 0 ->
          In (capitalize a, "0") params
          /\ includes (capitalize a ++ "=0") query = true)
    /\ (prop args "skip" = VNum 0 -> includes "Skip=0" query = true)
    /\ (forall a, In a string_filters -> prop args a = VStr "" ->
          forall v, ~ In (capitalize a, v) params)
    /\ ((forall b, In b (map fst list_items_filters) ->
           prop args b = VUndefined
           \/ (In b string_filters /\ prop args b = VStr "")) ->
        params = []
        /\ map url (sent (handleToolCall "list_items" args) log) = [BASE_URL ++ "/items"]).
Proof.
  intros args params log _ H query.
  pose proof (list_items_params_contributions args params H) as EP.
  pose proof (list_items_request args params log H) as HR.
  assert (forall a, In a defined_filters -> In (a, WhenDefined) list_items_filters) as HF.
  { intros a Hin. simpl in Hin. simpl.
    repeat (destruct Hin as [<-|Hin]; [repeat ((left; reflexivity) || right)|]).
    contradiction. }
  assert (forall a, In a defined_filters -> prop args a <> VUndefined ->
            In (capitalize a, ToString (prop args a)) params
            /\ includes (capitalize a ++ "=" ++ urlencode (ToString (prop args a))) query
               = true) as HD.
  { intros a Hin D.
    assert (In (capitalize a, ToString (prop args a)) params) as P.
    { rewrite EP. apply in_flat_map. exists (a, WhenDefined). split; [exact (HF a Hin)|].
      unfold contribution. simpl. apply is_undefined_false in D. rewrite D. now left. }
    split; [exact P|].
    rewrite <- (filter_names_plain a _ (HF a Hin)). apply param_in_query, P. }
  split; [exact HR|].
  split; [exact HD|]. split.
  { intros a Hin E. pose proof (HD a Hin) as P. rewrite E in P. apply P. discriminate. }
  split.
  { intros a Hin E. pose proof (HD a Hin) as P. rewrite E in P. apply P. discriminate. }
  split.
  { intros E.
    assert (In "skip" defined_filters) as Hin
        by (simpl; repeat ((left; reflexivity) || right)).
    pose proof (HD "skip" Hin) as P. rewrite E in P. apply P. discriminate. }
  split.
  { intros a Hin E v Hp. rewrite EP in Hp. apply in_flat_map in Hp.
    destruct Hp as [[a' g] [Hf Hc]].
    pose proof (contribution_key _ _ _ _ Hc) as EK. simpl in EK.
    assert (a' = a /\ g = WhenTruthy) as [-> ->].
    { clear - Hin Hf EK. simpl in Hin, Hf.
      repeat (destruct Hin as [<-|Hin];
              [ repeat (destruct Hf as [Hf|Hf];
                        [inversion Hf; subst; first [discriminate | split; reflexivity]|]);
                contradiction |]).
      contradiction. }
    unfold contribution in Hc. simpl in Hc. rewrite E in Hc. exact Hc. }
  intros Hall.
  assert (params = []) as P.
  { rewrite EP. apply flat_map_nil. intros [b g] Hb.
    assert (In b (map fst list_items_filters)) as Hk
        by (apply in_map_iff; exists (b, g); split; [reflexivity | exact Hb]).
    destruct (Hall b Hk) as [U|[Hs E]].
    - unfold contribution. simpl. rewrite U. destruct g; reflexivity.
    - assert (g = WhenTruthy) as ->.
      { clear - Hs Hb. simpl in Hs, Hb.
        repeat (destruct Hs as [<-|Hs];
                [ repeat (destruct Hb as [Hb|Hb];
                          [inversion Hb; subst; first [discriminate | reflexivity]|]);
                  contradiction |]).
        contradiction. }
      unfold contribution. simpl. rewrite E. reflexivity. }
  split; [exact P|]. rewrite HR, P. reflexivity.
Qed.

(** ** The dispatcher: [get_board] *)



(** A search that returns a truthy value returns the first element the
    callback accepts. *)
Lemma Array_find_found (cb : value -> outcome bool) (l : list value) (x : value) :
  Array_find cb l = Return x -> truthy x = true ->
  exists before after,
    l = (before ++ x :: after)%list
    /\ (forall y, In y before -> cb y = Return false)
    /\ cb x = Return true.
Proof.
  induction l as [|y l IH]; simpl; intros H T.
  - inversion H. subst x. discriminate.
  - destruct (cb y) as [[|]|e] eqn:E; [| |discriminate].
    + inversion H. subst y. exists [], l. repeat split; [|exact E]. intros ? [].
    + destruct (IH H T) as [before [after [-> [Hb Hx]]]].
      exists (y :: before), after. repeat split; [|exact Hx].
      intros z [<-|Hz]; [exact E | now apply Hb].
Qed.

Lemma handleToolCall_get_board (args : object) :
  handleToolCall "get_board" args
  = (boards <- apiRequest ("/workspaces/" ++ ToString (prop args "workspaceId") ++ "/boards")
                 GET VUndefined ;;
     board <- lift (call_find "boards" boards (has_board_id args)) ;;
     if negb (truthy board) then
       throw (ErrorObject
                ("Board " ++ ToString (prop args "boardId") ++ " not found in workspace"))
     else ret board).
Proof. reflexivity. Qed.

(** Whatever the backend answers, [get_board] sends the request of
    [list_boards] and nothing else. *)
Lemma get_board_sends_the_list_request (args : object) (log : list Request) :
  snd (handleToolCall "get_board" args log) = snd (handleToolCall "list_boards" args log)
  /\ snd (handleToolCall "list_boards" args log)
     = (log ++ [apiRequest_fetch_arguments
                  ("/workspaces/" ++ ToString (prop args "workspaceId") ++ "/boards")
                  GET VUndefined])%list.
Proof.
  split; [|apply apiRequest_log].
  rewrite handleToolCall_get_board.
  change (handleToolCall "list_boards" args log)
    with (apiRequest ("/workspaces/" ++ ToString (prop args "workspaceId") ++ "/boards")
            GET VUndefined log).
  unfold bind, lift.
  destruct (apiRequest _ GET VUndefined log) as [[boards|e] log']; [|reflexivity].
  destruct (call_find "boards" boards (has_board_id args)) as [board|e]; [|reflexivity].
  simpl. destruct (truthy board); reflexivity.
Qed.


(** What a good answer of the backend makes [apiRequest] return. *)
Lemma apiRequest_ok (endpoint : string) (m : Method) (b : value)
      (log : list Request) (r : Response) :
  backend (apiRequest_fetch_arguments endpoint m b) = Return r ->
  ok r = true -> text r <> "" ->
  apiRequest endpoint m b log
  = (JSON_parse (text r), (log ++ [apiRequest_fetch_arguments endpoint m b])%list).
Proof.
  intros H Hok Ht. rewrite (apiRequest_resolved _ _ _ _ _ H), Hok. simpl.
  apply String.eqb_neq in Ht. now rewrite Ht.
Qed.


(** ** Backend errors *)

Lemma handleToolCall_upload_attachment (args : object) :
  handleToolCall "upload_attachment" args
  = (binaryContent <- lift (Buffer_from (prop args "content")) ;;
     let request := upload_attachment_fetch_arguments args binaryContent in
     response <- fetch (url request) (options request) ;;
     if negb (ok response) then
       throw (ErrorObject
                ("Upload failed " ++ Number_toString (status response) ++ ": "
                   ++ text response))
     else if negb (text response =? "") then lift (JSON_parse (text response))
     else ret (VObj [])).
Proof. reflexivity. Qed.

(** What [upload_attachment] completes with, from the backend's answer. *)
Lemma upload_attachment_resolved (args : object) (log : list Request)
      (bytes : string) (r : Response) :
  Buffer_from (prop args "content") = Return bytes ->
  backend (upload_attachment_fetch_arguments args bytes) = Return r ->
  handleToolCall "upload_attachment" args log
  = ( if negb (ok r) then
        Throw (ErrorObject ("Upload failed " ++ Number_toString (status r) ++ ": " ++ text r))
      else if negb (text r =? "") then JSON_parse (text r)
      else Return (VObj []),
      (log ++ [upload_attachment_fetch_arguments args bytes])%list ).
Proof.
  intros HB Hb. rewrite handleToolCall_upload_attachment.
  unfold bind at 1. unfold lift at 1. rewrite HB. cbv zeta.
  unfold bind. rewrite fetch_request, Hb.
  destruct (ok r); simpl; [|reflexivity].
  destruct (text r =? ""); reflexivity.
Qed.


(** ** Successful calls *)

(** C9 (as amended): for a tool of the catalog called with its required
    arguments, when the backend answers every request with a good status and
    a JSON text and the dispatch succeeds, the response is one text block, not
    flagged as an error, whose text is the result printed with an indentation
    of two spaces; the result is the value of the backend's JSON text for
    every tool but [get_board], whose result is the first board of that JSON
    array with the [id] asked for. *)
Theorem call_tool_success_text :
  forall (tool : MCP.Tool) (args : object) (log log' : list Request)
         (r : Response) (v result : value),
    In tool tools -> has_required_arguments tool args = true ->
    (forall request, backend request = Return r) -> ok r = true -> text r <> "" ->
    JSON_parse (text r) = Return v ->
    handleToolCall (MCP.name tool) args log = (Return result, log') ->
    CallToolRequestHandler (MCP.name tool) args log
    = (Return (success_response (JSON_stringify result 2)), log')
    /\ (MCP.name tool <> "get_board" ->
        result = v
        /\ CallToolRequestHandler (MCP.name tool) args log
           = (Return (success_response (JSON_stringify v 2)), log'))
    /\ (MCP.name tool = "get_board" ->
        exists before after o,
          v = VArr (before ++ result :: after)
          /\ (forall x, In x before -> has_board_id args x = Return false)
          /\ result = VObj o
          /\ strict_equals (prop o "id") (prop args "boardId") = true).
Proof.
  intros tool args log log' r v result Hin Hreq Hb Hok Ht Hp H.
  assert (CallToolRequestHandler (MCP.name tool) args log
          = (Return (success_response (JSON_stringify result 2)), log')) as HC.
  { rewrite CallToolRequestHandler_completes, H. reflexivity. }
  split; [exact HC|].
  assert (forall endpoint m b,
            apiRequest endpoint m b log
            = (Return v, (log ++ [apiRequest_fetch_arguments endpoint m b])%list)) as HA.
  { intros endpoint m b. rewrite (apiRequest_ok _ _ _ _ _ (Hb _) Hok Ht), Hp.
    reflexivity. }
  split.
  - intros Hname. assert (result = v) as E; [|split; [exact E | now rewrite <- E]].
    clear HC Hin Hreq. revert H Hname. generalize (MCP.name tool) as name. intros name.
    destruct (String.eqb_spec name "upload_attachment") as [->|Nupload].
    { intros H _.
      destruct (Buffer_from (prop args "content")) as [bytes|e] eqn:HB.
      - rewrite (upload_attachment_resolved _ _ _ _ HB (Hb _)), Hok in H.
        apply String.eqb_neq in Ht. rewrite Ht, Hp in H. inversion H. reflexivity.
      - rewrite handleToolCall_upload_attachment in H.
        unfold bind, lift in H. rewrite HB in H. discriminate. }
    switch_on name; intros H Hname;
      try (rewrite HA in H; inversion H; reflexivity).
    + (* get_board *) congruence.
    + (* list_items *) unfold bind, lift in H.
      destruct (list_items_params args) as [params|e]; [|discriminate].
      rewrite HA in H. inversion H. reflexivity.
    + (* upload_attachment *) congruence.
    + (* default *) discriminate.
  - intros Hname. rewrite Hname in H.
    assert (tool = nth 5 tools tool) as Etool.
    { clear - Hin Hname. simpl in Hin.
      repeat (destruct Hin as [<-|Hin]; [first [discriminate | reflexivity]|]).
      contradiction. }
    assert (prop args "boardId" <> VUndefined) as Hid.
    { rewrite Etool in Hreq. unfold has_required_arguments in Hreq. simpl in Hreq.
      apply andb_true_iff in Hreq. destruct Hreq as [_ Hreq].
      intros E. rewrite E in Hreq. discriminate. }
    rewrite handleToolCall_get_board in H. unfold bind at 1 in H.
    rewrite HA in H. unfold bind, lift in H.
    destruct (call_find "boards" v (has_board_id args)) as [found|e] eqn:Hf;
      [|discriminate].
    destruct (truthy found) eqn:T; simpl in H; [|discriminate].
    inversion H. subst found.
    destruct v as [| | | | |boards|]; simpl in Hf; try discriminate.
    destruct (Array_find_found _ _ _ Hf T) as [before [after [-> [Hbefore Hhit]]]].
    unfold has_board_id in Hhit.
    destruct result as [| | | | | |o]; simpl in Hhit; try discriminate;
      try (exfalso; destruct (prop args "boardId");
           solve [now apply Hid | discriminate]).
    exists before, after, o.
    split; [reflexivity|]. split; [exact Hbefore|]. split; [reflexivity|].
    injection Hhit as Hs. exact Hs.
Qed.

(** ** The requests of the dispatcher *)

(** The shape of a dispatch: one request of [apiRequest] with the tool's
    method, a body on POST and PUT only; or the upload; or nothing sent. *)
Lemma dispatch_shape (name : string) (args : object) (log : list Request) :
  (exists endpoint m b,
      snd (handleToolCall name args log)
      = (log ++ [apiRequest_fetch_arguments endpoint m b])%list
      /\ tool_method tool_methods name = Some m
      /\ name <> "upload_attachment"
      /\ ((m = GET \/ m = DELETE) /\ b = VUndefined
          \/ (m = POST \/ m = PUT) /\ truthy b = true))
  \/ (exists bytes,
        name = "upload_attachment"
        /\ Buffer_from (prop args "content") = Return bytes
        /\ snd (handleToolCall name args log)
           = (log ++ [upload_attachment_fetch_arguments args bytes])%list)
  \/ (snd (handleToolCall name args log) = log
      /\ (~ In name (map MCP.name tools)
          \/ (name = "list_items" /\ exists e, list_items_params args = Throw e)
          \/ (name = "upload_attachment"
              /\ exists e, Buffer_from (prop args "content") = Throw e))).
Proof.
  destruct (String.eqb_spec name "upload_attachment") as [->|Nupload].
  { destruct (Buffer_from (prop args "content")) as [bytes|e] eqn:HB.
    - right. left. exists bytes. split; [reflexivity|]. split; [reflexivity|].
      rewrite handleToolCall_upload_attachment.
      unfold bind at 1. unfold lift at 1. rewrite HB. cbv zeta.
      unfold bind. rewrite fetch_request.
      destruct (backend _) as [r|e]; [|reflexivity].
      destruct (ok r); simpl; [|reflexivity].
      destruct (text r =? ""); reflexivity.
    - right. right. split.
      + rewrite handleToolCall_upload_attachment. unfold bind, lift. rewrite HB.
        reflexivity.
      + right. right. split; [reflexivity|]. exists e. reflexivity. }
  destruct (in_dec string_dec name (map MCP.name tools)) as [Hin|Hout].
  2:{ right. right. split.
      - rewrite (handleToolCall_default _ _ _ Hout). reflexivity.
      - left. exact Hout. }
  rewrite tool_names in Hin.
  assert (forall endpoint m b,
            tool_method tool_methods name = Some m ->
            ((m = GET \/ m = DELETE) /\ b = VUndefined
             \/ (m = POST \/ m = PUT) /\ truthy b = true) ->
            exists endpoint' m' b',
              snd (apiRequest endpoint m b log)
              = (log ++ [apiRequest_fetch_arguments endpoint' m' b'])%list
              /\ tool_method tool_methods name = Some m'
              /\ name <> "upload_attachment"
              /\ ((m' = GET \/ m' = DELETE) /\ b' = VUndefined
                  \/ (m' = POST \/ m' = PUT) /\ truthy b' = true)) as HA.
  { intros endpoint m b Hm Hb. exists endpoint, m, b.
    split; [apply apiRequest_log|]. split; [exact Hm|]. split; assumption. }
  revert HA. clear Hin. switch_on name; intros HA;
    try (left; apply HA; [reflexivity|];
         first [ left; split; [first [left; reflexivity | right; reflexivity]
                              | reflexivity]
               | right; split; [first [left; reflexivity | right; reflexivity]
                               | reflexivity] ]).
  - (* get_board *)
    left. destruct (HA ("/workspaces/" ++ ToString (prop args "workspaceId") ++ "/boards")
                       GET VUndefined eq_refl) as [endpoint [m [b [Hlog Hrest]]]].
    { left. split; [left; reflexivity | reflexivity]. }
    exists endpoint, m, b. split; [|exact Hrest].
    rewrite <- Hlog.
    change (snd (handleToolCall "get_board" args log)
            = snd (handleToolCall "list_boards" args log)).
    apply get_board_sends_the_list_request.
  - (* list_items *)
    unfold bind, lift. destruct (list_items_params args) as [params|e] eqn:HP.
    + left. apply HA; [reflexivity|].
      left. split; [left; reflexivity | reflexivity].
    + right. right. split; [reflexivity|].
      right. left. split; [reflexivity|]. exists e. reflexivity.
  - (* upload_attachment *) congruence.
  - (* default *)
    right. right. split; [reflexivity|]. left.
    rewrite tool_names. simpl.
    intros H. repeat (destruct H as [H|H]; [congruence|]). exact H.
Qed.

(** X1: a dispatch on a record of arguments sends at most one request, and
    an unknown name sends none. It sends exactly one when the tool is in the
    catalog and the call does not fail before sending, that is: the
    arguments the case converts to a string are ones JavaScript converts
    ([printable]: no object with an own [toString], numbers that are safe
    integers), the loops of [list_items] build their parameters, and the
    content of an upload is decoded. Every request sent goes to a URL that
    starts with the base URL and carries the raw API key as
    [Authorization]. *)
Theorem dispatch_sends_one_authorized_request :
  forall (name : string) (args : object) (log : list Request),
    let new := sent (handleToolCall name args) log in
    snd (handleToolCall name args log) = (log ++ new)%list
    /\ (length new <= 1)%nat
    /\ (forall request, In request new ->
          In ("Authorization", API_KEY) (headers (options request))
          /\ String.prefix BASE_URL (url request) = true)
    /\ (~ In name (map MCP.name tools) -> new = [])
    /\ (In name (map MCP.name tools) ->
        printable_arguments (printed name) args = true ->
        (name = "list_items" -> exists params, list_items_params args = Return params) ->
        (name = "upload_attachment" ->
         exists bytes, Buffer_from (prop args "content") = Return bytes) ->
        length new = 1%nat).
Proof.
  intros name args log new.
  destruct (dispatch_shape name args log)
    as [[endpoint [m [b [Hlog [Hm [Hn Hb]]]]]]
       |[[bytes [-> [HB Hlog]]]
        |[Hlog Hwhy]]].
  - pose proof (sent_app _ _ _ Hlog) as E. fold new in E. rewrite E.
    split; [exact Hlog|]. split; [simpl; lia|]. split.
    + intros request [<-|[]]. split; [left; reflexivity | apply prefix_app].
    + split; [|reflexivity].
      intros Hout. rewrite (handleToolCall_default _ _ _ Hout) in Hlog. simpl in Hlog.
      exfalso. apply (f_equal (@length Request)) in Hlog.
      rewrite length_app in Hlog. simpl in Hlog. lia.
  - pose proof (sent_app _ _ _ Hlog) as E. fold new in E. rewrite E.
    split; [exact Hlog|]. split; [simpl; lia|]. split.
    + intros request [<-|[]]. split; [left; reflexivity | apply prefix_app].
    + split; [|reflexivity].
      intros Hout. exfalso. apply Hout. rewrite tool_names. simpl.
      repeat ((left; reflexivity) || right).
  - assert (new = []) as E.
    { apply sent_app. rewrite Hlog. now rewrite app_nil_r. }
    rewrite E. split; [now rewrite app_nil_r|]. split; [simpl; lia|].
    split; [intros ? []|]. split; [reflexivity|].
    intros Hin _ HL HU. exfalso.
    destruct Hwhy as [Hout|[[-> [e He]]|[-> [e He]]]].
    + exact (Hout Hin).
    + destruct (HL eq_refl) as [params Hp]. congruence.
    + destruct (HU eq_refl) as [bytes Hb]. congruence.
Qed.

(** X2: the method of a request is the one of its tool; a GET or DELETE
    carries no body, a POST or PUT of [apiRequest] always carries the JSON
    text of an object, and only the upload lacks the [Content-Type] header,
    its body being the form. *)
Theorem dispatch_method_and_body :
  forall (name : string) (args : object) (log : list Request) (request : Request),
    In request (sent (handleToolCall name args) log) ->
    tool_method tool_methods name = Some (method (options request))
    /\ (method (options request) = GET \/ method (options request) = DELETE ->
        body (options request) = None)
    /\ (method (options request) = POST \/ method (options request) = PUT ->
        (name <> "upload_attachment" ->
         exists s, body (options request) = Some (BodyText s))
        /\ (name = "upload_attachment" ->
            exists form, body (options request) = Some (BodyForm form)))
    /\ (In ("Content-Type", "application/json") (headers (options request))
        <-> name <> "upload_attachment").
Proof.
  intros name args log request Hin.
  destruct (dispatch_shape name args log)
    as [[endpoint [m [b [Hlog [Hm [Hn Hb]]]]]]
       |[[bytes [-> [HB Hlog]]]
        |[Hlog Hwhy]]].
  - rewrite (sent_app _ _ _ Hlog) in Hin. destruct Hin as [<-|[]].
    split; [exact Hm|]. simpl.
    destruct Hb as [[Hmeth ->]|[Hmeth T]].
    + split; [reflexivity|]. split.
      * intros H. exfalso. destruct Hmeth as [-> | ->], H as [H|H]; discriminate.
      * split; [intros _; exact Hn | intros _; right; left; reflexivity].
    + rewrite T. destruct (truthy_serializes b 0 T) as [s Hs]. rewrite Hs.
      split.
      * intros H. exfalso. destruct Hmeth as [-> | ->], H as [H|H]; discriminate.
      * split.
        -- intros _. split; [|intros E; contradiction].
           intros _. exists s. destruct Hmeth as [-> | ->]; reflexivity.
        -- split; [intros _; exact Hn | intros _; right; left; reflexivity].
  - rewrite (sent_app _ _ _ Hlog) in Hin. destruct Hin as [<-|[]].
    split; [reflexivity|]. simpl. split.
    + intros [H|H]; discriminate.
    + split.
      * intros _. split; [intros N; now contradiction N|].
        intros _. eexists. reflexivity.
      * split.
        -- intros [H|[]]. discriminate.
        -- intros N. now contradiction N.
  - exfalso. unfold sent in Hin. rewrite Hlog, skipn_all in Hin. exact Hin.
Qed.

(** ** How the tools compose *)




(** ** Arguments in the path *)

Lemma path_tool_log (name prefix key suffix : string) :
  In (name, (prefix, key, suffix)) path_tools ->
  forall (args : object) (log : list Request),
  exists m b,
    snd (handleToolCall name args log)
    = (log ++ [apiRequest_fetch_arguments (prefix ++ ToString (prop args key) ++ suffix)
                 m b])%list.
Proof.
  intros Hin args log. simpl in Hin.
  repeat (destruct Hin as [Hin|Hin];
          [ inversion Hin; subst; clear Hin;
            try (rewrite append_empty_r);
            first [ eexists; eexists; apply apiRequest_log
                  | eexists; eexists;
                    rewrite (proj1 (get_board_sends_the_list_request args log));
                    apply apiRequest_log ] |]).
  contradiction.
Qed.

(** X5: an argument of the path is put in the URL as it prints, with no check
    and no encoding: for each tool whose endpoint holds an argument, and for
    a record of arguments in which that argument is a value JavaScript
    converts ([printable]), the one request goes to
    [BASE_URL ++ before ++ String(argument) ++ after], so a call whose record
    lacks the argument is sent to a path holding [undefined]. *)
Theorem path_argument_is_sent_as_it_prints :
  forall (name prefix key suffix : string),
    In (name, (prefix, key, suffix)) path_tools ->
    forall (args : object) (log : list Request),
    printable (prop args key) = true ->
    exists request,
      sent (handleToolCall name args) log = [request]
      /\ url request = BASE_URL ++ prefix ++ ToString (prop args key) ++ suffix
      /\ (prop args key = VUndefined ->
          url request = BASE_URL ++ prefix ++ "undefined" ++ suffix)
      /\ (forall s, prop args key = VStr s ->
          url request = BASE_URL ++ prefix ++ s ++ suffix).
Proof.
  intros name prefix key suffix Hin args log _.
  destruct (path_tool_log _ _ _ _ Hin args log) as [m [b Hlog]].
  eexists. split; [apply (sent_app _ _ _ Hlog)|].
  split; [reflexivity|]. split.
  - intros E. simpl. rewrite E. reflexivity.
  - intros s E. simpl. rewrite E. reflexivity.
Qed.

(** X6: since the path is not encoded, an identifier that holds a slash
    reaches another endpoint: [get_item] on [<id>/attachments] is
    [list_attachments] on [<id>]. *)
Theorem get_item_path_is_not_encoded :
  forall (id : string) (args args' : object) (log : list Request),
    prop args "itemId" = VStr (id ++ "/attachments") ->
    prop args' "itemId" = VStr id ->
    handleToolCall "get_item" args log = handleToolCall "list_attachments" args' log.
Proof.
  intros id args args' log H H'.
  change (handleToolCall "get_item" args log)
    with (apiRequest ("/items/" ++ ToString (prop args "itemId")) GET VUndefined log).
  change (handleToolCall "list_attachments" args' log)
    with (apiRequest ("/items/" ++ ToString (prop args' "itemId") ++ "/attachments")
            GET VUndefined log).
  rewrite H, H'. reflexivity.
Qed.

(** ** Answers without content, and answers that are not a list *)

(** X7: a good answer with an empty body (such as a 204) makes the call
    return the empty object, whatever the tool, and the response text is
    [{}]; the text is never parsed. Only [get_board] fails on it, having no
    list to search. *)
Theorem empty_body_is_an_empty_object :
  forall (name : string) (args : object) (log : list Request) (r : Response),
    (forall request, backend request = Return r) -> ok r = true -> text r = "" ->
    snd (handleToolCall name args log) <> log ->
    (name <> "get_board" ->
     fst (handleToolCall name args log) = Return (VObj [])
     /\ fst (CallToolRequestHandler name args log) = Return (success_response (Some "{}")))
    /\ (name = "get_board" ->
        exists e,
          fst (handleToolCall name args log) = Throw e
          /\ fst (CallToolRequestHandler name args log)
             = Return (error_response (errorMessage e))).
Proof.
  intros name args log r Hb Hok Ht Hsent.
  assert (forall endpoint m b,
            apiRequest endpoint m b log
            = (Return (VObj []),
               (log ++ [apiRequest_fetch_arguments endpoint m b])%list)) as HA.
  { intros endpoint m b. rewrite (apiRequest_resolved _ _ _ _ _ (Hb _)), Hok, Ht.
    reflexivity. }
  assert (forall o, fst (handleToolCall name args log) = o ->
                    fst (CallToolRequestHandler name args log)
                    = match o with
                      | Return result => Return (success_response (JSON_stringify result 2))
                      | Throw e => Return (error_response (errorMessage e))
                      end) as HC.
  { intros o <-. rewrite CallToolRequestHandler_completes.
    destruct (handleToolCall name args log) as [[result|e] log']; reflexivity. }
  split.
  - intros Hname.
    assert (fst (handleToolCall name args log) = Return (VObj [])) as E;
      [|split; [exact E | exact (HC _ E)]].
    clear HC. revert Hsent Hname.
    destruct (String.eqb_spec name "upload_attachment") as [->|Nupload].
    { intros Hsent _.
      destruct (Buffer_from (prop args "content")) as [bytes|e] eqn:HB.
      - rewrite (upload_attachment_resolved _ _ _ _ HB (Hb _)), Hok, Ht. reflexivity.
      - exfalso. apply Hsent. rewrite handleToolCall_upload_attachment.
        unfold bind, lift. rewrite HB. reflexivity. }
    switch_on name; intros Hsent Hname; try (rewrite HA; reflexivity).
    + congruence.
    + unfold bind, lift in *. destruct (list_items_params args) as [params|e].
      * rewrite HA. reflexivity.
      * no_request Hsent.
    + congruence.
    + no_request Hsent.
  - intros ->. exists (ErrorObject "boards.find is not a function").
    assert (fst (handleToolCall "get_board" args log)
            = Throw (ErrorObject "boards.find is not a function")) as E.
    { rewrite handleToolCall_get_board. unfold bind at 1. rewrite HA. reflexivity. }
    split; [exact E | exact (HC _ E)].
Qed.

(** X8: [get_board] is [list_boards] followed by the search, and the search
    needs a list it can read: when [list_boards] returns anything but an
    array, or an array with a [null] before the board asked for, [get_board]
    fails after the same request, and never returns a value. *)
Theorem get_board_needs_a_list_of_boards :
  forall (args : object) (log log' : list Request) (v : value),
    handleToolCall "list_boards" args log = (Return v, log') ->
    ((forall l, v <> VArr l) \/
     (exists before after,
         v = VArr (before ++ VNull :: after)
         /\ forall x, In x before -> has_board_id args x = Return false)) ->
    exists e,
      handleToolCall "get_board" args log = (Throw e, log')
      /\ CallToolRequestHandler "get_board" args log
         = (Return (error_response (errorMessage e)), log').
Proof.
  intros args log log' v HL Hv.
  change (handleToolCall "list_boards" args log)
    with (apiRequest ("/workspaces/" ++ ToString (prop args "workspaceId") ++ "/boards")
            GET VUndefined log) in HL.
  assert (exists e, call_find "boards" v (has_board_id args) = Throw e) as [e He].
  { destruct Hv as [Hv|[before [after [-> Hbefore]]]].
    - destruct v; try (eexists; reflexivity). exfalso. now apply (Hv elements).
    - simpl. clear HL. induction before as [|x before IH]; simpl.
      + eexists. reflexivity.
      + rewrite (Hbefore x (or_introl eq_refl)). apply IH.
        intros y Hy. apply Hbefore. now right. }
  exists e.
  assert (handleToolCall "get_board" args log = (Throw e, log')) as E.
  { rewrite handleToolCall_get_board. unfold bind at 1. rewrite HL.
    unfold bind, lift. rewrite He. reflexivity. }
  split; [exact E|]. rewrite CallToolRequestHandler_completes, E. reflexivity.
Qed.

(** ** The patch on the wire *)


(** ** The arguments a tool reads *)

Lemma update_item_updateData_same (args args' : object) :
  (forall a b, In (a, b) update_fields -> prop args a = prop args' a) ->
  update_item_updateData args = update_item_updateData args'.
Proof.
  intros H. rewrite !update_item_updateData_supplied. unfold supplied_fields.
  induction update_fields as [|[a b] fs IH]; simpl; [reflexivity|].
  rewrite (H a b (or_introl eq_refl)). f_equal. apply IH.
  intros a' b' Hin. apply (H a' b'). now right.
Qed.

Lemma run_filters_same (args args' : object) (fs : list (string * guard))
      (params : URLSearchParams) :
  (forall f, In f fs -> prop args (fst f) = prop args' (fst f)) ->
  run_filters args fs params = run_filters args' fs params.
Proof.
  revert params. induction fs as [|f fs IH]; intros params H; simpl; [reflexivity|].
  assert (filter_step args f params = filter_step args' f params) as E.
  { unfold filter_step. cbv zeta. rewrite (H f (or_introl eq_refl)). reflexivity. }
  rewrite E. destruct (filter_step args' f params) as [p|e]; simpl; [|reflexivity].
  apply IH. intros f' Hin. apply H. now right.
Qed.

(** X10: a tool reads no argument but the ones its descriptor lists: two calls
    of a tool of the catalog that agree on those arguments send the same
    request and answer alike, whatever else the records hold. *)
Theorem dispatcher_reads_only_advertised_arguments :
  forall (tool : MCP.Tool) (args args' : object) (log : list Request),
    In tool tools ->
    (forall k, In k (accepted tool) -> prop args k = prop args' k) ->
    handleToolCall (MCP.name tool) args log = handleToolCall (MCP.name tool) args' log
    /\ CallToolRequestHandler (MCP.name tool) args log
       = CallToolRequestHandler (MCP.name tool) args' log.
Proof.
  intros tool args args' log Hin H.
  assert (handleToolCall (MCP.name tool) args log
          = handleToolCall (MCP.name tool) args' log) as E.
  { destruct (String.eqb_spec (MCP.name tool) "update_item") as [Eu|Nu].
    { rewrite Eu.
      assert (tool = nth 13 tools tool) as Et.
      { clear - Hin Eu. simpl in Hin.
        repeat (destruct Hin as [<-|Hin]; [first [discriminate | reflexivity]|]).
        contradiction. }
      rewrite Et in H. simpl in H.
      change (handleToolCall "update_item" args log)
        with (apiRequest ("/items/" ++ ToString (prop args "itemId")) PUT
                (VObj [("data", VObj (update_item_updateData args))]) log).
      rewrite (update_item_updateData_same args args'), (H "itemId");
        [reflexivity | now left |].
      intros a b Hab. apply H. right. apply (in_map fst) in Hab. exact Hab. }
    destruct (String.eqb_spec (MCP.name tool) "list_items") as [El|Nl].
    { rewrite El.
      assert (tool = nth 10 tools tool) as Et.
      { clear - Hin El. simpl in Hin.
        repeat (destruct Hin as [<-|Hin]; [first [discriminate | reflexivity]|]).
        contradiction. }
      rewrite Et in H. simpl in H.
      change (handleToolCall "list_items" args log)
        with ((params <- lift (list_items_params args) ;;
               apiRequest (list_items_endpoint params) GET VUndefined) log).
      rewrite (list_items_params_table args), (run_filters_same args args'),
        <- (list_items_params_table args'); [reflexivity|].
      intros f Hf. apply H. apply (in_map fst) in Hf. exact Hf. }
    simpl in Hin.
    repeat (destruct Hin as [Hin|Hin];
            [ subst tool;
              first [ exfalso; apply Nu; reflexivity
                    | exfalso; apply Nl; reflexivity
                    | same_arguments H args ] |]).
    contradiction. }
  split; [exact E|]. rewrite !CallToolRequestHandler_completes, E. reflexivity.
Qed.

(** ** Filters that are not lists *)

Lemma run_filters_throws (args : object) (fs : list (string * guard)) (f : string * guard)
      (e : thrown) :
  In f fs -> (forall params, filter_step args f params = Throw e) ->
  forall params, exists e', run_filters args fs params = Throw e'.
Proof.
  intros Hin Hf. induction fs as [|f0 fs IH]; intros params; [contradiction|].
  simpl. destruct (filter_step args f0 params) as [p|e0] eqn:E; simpl.
  - destruct Hin as [->|Hin]; [rewrite Hf in E; discriminate | now apply IH].
  - exists e0. reflexivity.
Qed.

(** The loops of [list_items] complete on a falsy value, an array and a
    string. *)
Lemma filter_step_returns (args : object) (f : string * guard) (params : URLSearchParams) :
  (snd f = EachElement -> iterable_or_falsy (prop args (fst f)) = true) ->
  exists out, filter_step args f params = Return out.
Proof.
  unfold filter_step, iterable_or_falsy. destruct f as [a g]. simpl.
  destruct g; intros H; try (eexists; reflexivity).
  specialize (H eq_refl).
  destruct (truthy (prop args a)); [|eexists; reflexivity].
  destruct (prop args a); simpl in H; try discriminate H; simpl; eexists; reflexivity.
Qed.

Lemma run_filters_returns (args : object) (fs : list (string * guard))
      (params : URLSearchParams) :
  (forall f, In f fs -> snd f = EachElement ->
             iterable_or_falsy (prop args (fst f)) = true) ->
  exists out, run_filters args fs params = Return out.
Proof.
  revert params. induction fs as [|f fs IH]; intros params H; simpl.
  - exists params. reflexivity.
  - destruct (filter_step_returns args f params) as [out E].
    { apply H. left. reflexivity. }
    rewrite E. simpl. apply IH. intros f' Hin. apply H. right. exact Hin.
Qed.

(** X11: [list_items] iterates over [tags] and [customFields] whatever they
    are. When each is falsy, an array or a string, the parameters are built
    and the one GET is sent; a string given in place of a list, for either
    filter, is sent one character at a time, in a row, under the name of the
    filter. When either is a truthy value that cannot be iterated (a number,
    [true], an object), the call fails before anything is sent and the
    handler answers an error. The filters are values that JavaScript
    converts as the model does ([printable]). *)
Theorem list_items_tags_are_iterated :
  forall (args : object) (log : list Request),
    printable_arguments (map fst list_items_filters) args = true ->
    (iterable_or_falsy (prop args "tags") = true ->
     iterable_or_falsy (prop args "customFields") = true ->
     exists params,
       list_items_params args = Return params
       /\ sent (handleToolCall "list_items" args) log
          = [ {| url := BASE_URL ++ "/items"
                          ++ match params with
                             | [] => ""
                             | _ :: _ => "?" ++ URLSearchParams_toString params
                             end;
                 options :=
                   {| method := GET;
                      headers := [("Authorization", API_KEY);
                                  ("Content-Type", "application/json")];
                      body := None |} |} ]
       /\ (forall a s, a = "tags" \/ a = "customFields" -> prop args a = VStr s ->
             (exists before after,
                 params
                 = (before ++ map (fun c => (capitalize a, c)) (code_points s)
                      ++ after)%list)
             /\ includes
                  (URLSearchParams_toString
                     (map (fun c => (capitalize a, c)) (code_points s)))
                  (URLSearchParams_toString params) = true))
    /\ (forall a, a = "tags" \/ a = "customFields" ->
        iterable_or_falsy (prop args a) = false ->
        exists e,
          handleToolCall "list_items" args log = (Throw e, log)
          /\ sent (handleToolCall "list_items" args) log = []
          /\ CallToolRequestHandler "list_items" args log
             = (Return (error_response (errorMessage e)), log)).
Proof.
  intros args log _. split.
  - intros Ht Hc.
    destruct (run_filters_returns args list_items_filters []) as [params H].
    { intros f Hin Hg. simpl in Hin.
      repeat (destruct Hin as [<-|Hin]; [first [discriminate Hg | assumption]|]).
      contradiction. }
    rewrite <- list_items_params_table in H.
    exists params. split; [exact H|]. split; [apply list_items_request, H|].
    intros a s Ha E.
    pose proof (list_items_params_contributions args params H) as EP.
    destruct (flat_map_split (contribution args) list_items_filters (a, EachElement))
      as [before [after S]].
    { destruct Ha as [-> | ->]; simpl; repeat ((left; reflexivity) || right). }
    assert (params
            = (before ++ map (fun c => (capitalize a, c)) (code_points s) ++ after)%list)
      as P.
    { rewrite EP, S. unfold contribution. simpl. rewrite E. simpl.
      destruct (s =? "") eqn:Es; simpl.
      + apply String.eqb_eq in Es. subst s. reflexivity.
      + rewrite map_map. reflexivity. }
    split; [exists before, after; exact P|].
    rewrite P. apply toString_includes_run.
  - intros a Ha Hno.
    assert (exists e, list_items_params args = Throw e) as [e He].
    { rewrite list_items_params_table.
      assert (exists e0, forall params, filter_step args (a, EachElement) params = Throw e0)
        as [e0 He0].
      { unfold filter_step. unfold iterable_or_falsy in Hno. simpl.
        destruct (truthy (prop args a)); [|discriminate Hno].
        destruct (prop args a); simpl in Hno; try discriminate Hno;
          simpl; eexists; intros; reflexivity. }
      apply (run_filters_throws args list_items_filters (a, EachElement) e0); [|exact He0].
      destruct Ha as [-> | ->]; simpl; repeat ((left; reflexivity) || right). }
    exists e.
    assert (handleToolCall "list_items" args log = (Throw e, log)) as E.
    { change (handleToolCall "list_items" args log)
        with ((params <- lift (list_items_params args) ;;
               apiRequest (list_items_endpoint params) GET VUndefined) log).
      unfold bind, lift. rewrite He. reflexivity. }
    split; [exact E|]. split.
    + unfold sent. rewrite E. apply skipn_all.
    + rewrite CallToolRequestHandler_completes, E. reflexivity.
Qed.

(** ** Queries with fixed parameters *)

(** X12: on a record of arguments whose [fromDate], [toDate], [skip] and
    [take] are values JavaScript converts ([printable]), [list_system_logs]
    always sends [fromDate] and [toDate], in that order and under those very
    names, then [skip] and [take] when they are defined, each value
    percent-encoded; no date is checked, so a missing [fromDate] is sent as
    [fromDate=undefined]. *)
Theorem list_system_logs_query :
  forall (args : object) (log : list Request),
    printable_arguments ["fromDate"; "toDate"; "skip"; "take"] args = true ->
    exists request,
      sent (handleToolCall "list_system_logs" args) log = [request]
      /\ method (options request) = GET
      /\ url request
         = BASE_URL ++ "/logs?fromDate=" ++ urlencode (ToString (prop args "fromDate"))
             ++ "&toDate=" ++ urlencode (ToString (prop args "toDate"))
             ++ (if is_undefined (prop args "skip") then ""
                 else "&skip=" ++ urlencode (ToString (prop args "skip")))
             ++ (if is_undefined (prop args "take") then ""
                 else "&take=" ++ urlencode (ToString (prop args "take")))
      /\ (prop args "fromDate" = VUndefined ->
          String.prefix (BASE_URL ++ "/logs?fromDate=undefined&toDate=") (url request) = true).
Proof.
  intros args log _.
  assert (exists endpoint,
            handleToolCall "list_system_logs" args log = apiRequest endpoint GET VUndefined log
            /\ endpoint
               = "/logs?fromDate=" ++ urlencode (ToString (prop args "fromDate"))
                   ++ "&toDate=" ++ urlencode (ToString (prop args "toDate"))
                   ++ (if is_undefined (prop args "skip") then ""
                       else "&skip=" ++ urlencode (ToString (prop args "skip")))
                   ++ (if is_undefined (prop args "take") then ""
                       else "&take=" ++ urlencode (ToString (prop args "take"))))
    as [endpoint [HE Hend]].
  { eexists. split; [reflexivity|].
    unfold URLSearchParams_toString, append.
    destruct (is_undefined (prop args "skip")), (is_undefined (prop args "take"));
      simpl; rewrite ?append_assoc; simpl; rewrite ?append_assoc; simpl;
      rewrite ?append_empty_r; reflexivity. }
  eexists. split; [|split; [|split]].
  - apply sent_app. rewrite HE. apply apiRequest_log.
  - reflexivity.
  - simpl. rewrite Hend. reflexivity.
  - intros E. simpl. rewrite Hend, E. simpl.
    change (BASE_URL ++ "/logs?fromDate=undefined&toDate=")
      with (BASE_URL ++ "/logs?fromDate=undefined&toDate=" ++ "").
    apply prefix_cancel.
    repeat (simpl; destruct (ascii_dec _ _) as [_|N]; [|now contradiction N]).
    apply prefix_empty.
Qed.

(** Without indentation the brackets enclose the members, joined by
    commas. *)
Lemma wrap_compact (open close indent : string) (partial : list string) :
  wrap open close indent "" partial = open ++ String.concat "," partial ++ close.
Proof. destruct partial; reflexivity. Qed.

(** A value completed by a default has a JSON text. *)
Lemma nullish_serializes (v : value) (d : Z) :
  exists s, serialize "" "" (nullish v (VNum d)) = Some s.
Proof.
  destruct v as [| |b|n|s|l|o]; simpl; try (destruct b); eexists; reflexivity.
Qed.

(** X13: [list_activities] posts its filter, and always with a page. On a
    record of arguments whose [boardId] JavaScript converts ([printable])
    and whose dates and page hold no number beyond the safe integers
    ([stringifiable]), the body of the one POST is the JSON text of an object
    whose last two members are [offset] and [limit], after [startDate] and
    [endDate] when these have a JSON text: [offset] is [0] and [limit] is
    [100] when the argument is absent or [null], and the caller's number
    otherwise, an explicit [0] included. A call with no date and no page
    posts [{"offset":0,"limit":100}]. *)
Theorem list_activities_page_defaults :
  forall (args : object) (log : list Request),
    printable (prop args "boardId") = true ->
    forallb (fun k => stringifiable (prop args k))
            ["startDate"; "endDate"; "offset"; "limit"] = true ->
    exists offset limit : string,
      sent (handleToolCall "list_activities" args) log
      = [ {| url := BASE_URL ++ "/boards/" ++ ToString (prop args "boardId")
                      ++ "/item-activities";
             options :=
               {| method := POST;
                  headers := [("Authorization", API_KEY);
                              ("Content-Type", "application/json")];
                  body :=
                    Some (BodyText
                            ("{" ++ String.concat ","
                                      (flat_map
                                         (fun k =>
                                            match JSON_stringify (prop args k) 0 with
                                            | Some t => [member_text k t]
                                            | None => []
                                            end) ["startDate"; "endDate"]
                                       ++ [member_text "offset" offset;
                                           member_text "limit" limit])
                                 ++ "}")) |} |} ]
      /\ (prop args "offset" = VUndefined \/ prop args "offset" = VNull -> offset = "0")
      /\ (forall n, prop args "offset" = VNum n -> offset = Number_toString n)
      /\ (prop args "limit" = VUndefined \/ prop args "limit" = VNull -> limit = "100")
      /\ (forall n, prop args "limit" = VNum n -> limit = Number_toString n)
      /\ (prop args "startDate" = VUndefined -> prop args "endDate" = VUndefined ->
          prop args "offset" = VUndefined \/ prop args "offset" = VNull ->
          prop args "limit" = VUndefined \/ prop args "limit" = VNull ->
          map (fun request => body (options request))
              (sent (handleToolCall "list_activities" args) log)
          = [Some (BodyText ("{" ++ DQ ++ "offset" ++ DQ ++ ":0,"
                               ++ DQ ++ "limit" ++ DQ ++ ":100}"))]).
Proof.
  intros args log _ _.
  destruct (nullish_serializes (prop args "offset") 0) as [so Ho].
  destruct (nullish_serializes (prop args "limit") 100) as [sl Hl].
  exists so, sl.
  set (b := VObj [("startDate", prop args "startDate");
                  ("endDate", prop args "endDate");
                  ("offset", nullish (prop args "offset") (VNum 0));
                  ("limit", nullish (prop args "limit") (VNum 100))]).
  assert (JSON_stringify b 0
          = Some ("{" ++ String.concat ","
                           (flat_map
                              (fun k =>
                                 match JSON_stringify (prop args k) 0 with
                                 | Some t => [member_text k t]
                                 | None => []
                                 end) ["startDate"; "endDate"]
                            ++ [member_text "offset" so; member_text "limit" sl])
                      ++ "}")) as Hs.
  { unfold b, JSON_stringify.
    change (spaces (Nat.min 10 0)) with "".
    cbn [serialize flat_map fst snd String.eqb String.append].
    rewrite Ho, Hl. rewrite wrap_compact. f_equal. f_equal. f_equal.
    unfold member_text.
    destruct (serialize "" "" (prop args "startDate")),
             (serialize "" "" (prop args "endDate")); reflexivity. }
  assert (sent (handleToolCall "list_activities" args) log
          = [ {| url := BASE_URL ++ "/boards/" ++ ToString (prop args "boardId")
                          ++ "/item-activities";
                 options :=
                   {| method := POST;
                      headers := [("Authorization", API_KEY);
                                  ("Content-Type", "application/json")];
                      body := option_map BodyText (JSON_stringify b 0) |} |} ]) as HS.
  { apply sent_app.
    change (handleToolCall "list_activities" args log)
      with (apiRequest ("/boards/" ++ ToString (prop args "boardId") ++ "/item-activities")
              POST b log).
    rewrite apiRequest_log. reflexivity. }
  assert (prop args "offset" = VUndefined \/ prop args "offset" = VNull -> so = "0") as O0.
  { intros [E|E]; rewrite E in Ho; simpl in Ho; injection Ho as <-; reflexivity. }
  assert (prop args "limit" = VUndefined \/ prop args "limit" = VNull -> sl = "100") as L0.
  { intros [E|E]; rewrite E in Hl; simpl in Hl; injection Hl as <-; reflexivity. }
  split; [rewrite HS, Hs; reflexivity|].
  split; [exact O0|]. split.
  { intros n E. rewrite E in Ho. simpl in Ho. injection Ho as <-. reflexivity. }
  split; [exact L0|]. split.
  { intros n E. rewrite E in Hl. simpl in Hl. injection Hl as <-. reflexivity. }
  intros Es Ee Eo El.
  rewrite HS, Hs, (O0 Eo), (L0 El). cbn [flat_map]. rewrite Es, Ee. reflexivity.
Qed.

(** ** Calls without arguments *)





(** ** The secrets *)


Lemma take_drop (n : nat) (s : string) : take n s ++ drop n s = s.
Proof.
  revert s. induction n as [|n IH]; intros s; simpl.
  - destruct s; reflexivity.
  - destruct s as [|c r]; simpl; [reflexivity|]. now rewrite IH.
Qed.

Lemma runs_S (class : char_class) (fuel : nat) (s : string) :
  runs class (S fuel) s
  = match class s with
    | O => [(EmptyString, s)]
    | n => (map (fun mr => ((take n s ++ fst mr)%string, snd mr))
              (runs class fuel (drop n s)) ++ [(EmptyString, s)])%list
    end.
Proof. reflexivity. Qed.

(** A repetition splits the string in what it takes and what it leaves. *)
Lemma runs_split (class : char_class) (fuel : nat) (s m r : string) :
  In (m, r) (runs class fuel s) -> s = m ++ r.
Proof.
  revert s m r. induction fuel as [|fuel IH]; intros s m r.
  - intros [E|[]]. now inversion E.
  - rewrite runs_S. destruct (class s) as [|n] eqn:C.
    + intros [E|[]]. now inversion E.
    + intros H. apply in_app_or in H. destruct H as [H|[E|[]]].
      * apply in_map_iff in H. destruct H as [[m' r'] [E H]].
        cbn [fst snd] in E. injection E as <- <-. apply IH in H.
        rewrite append_assoc, <- H. symmetry. exact (take_drop (S n) s).
      * now inversion E.
Qed.

Lemma first_match_some {A B : Type} (f : A -> option B) (l : list A) (y : B) :
  first_match f l = Some y -> exists x, In x l /\ f x = Some y.
Proof.
  induction l as [|x l IH]; simpl; [discriminate|].
  destruct (f x) as [y'|] eqn:E.
  - intros H. inversion H. subst. exists x. split; [now left | exact E].
  - intros H. destruct (IH H) as [x' [Hin Hx]]. exists x'. split; [now right | exact Hx].
Qed.

(** What [.+] takes up to the end of the string does not end with a
    carriage return. *)
Lemma runs_any_char_not_cr (fuel : nat) (s m : string) :
  In (m, EmptyString) (runs any_char fuel s) -> m <> EmptyString ->
  forall x, s <> x ++ CR.
Proof.
  revert s m. induction fuel as [|fuel IH]; intros s m.
  - intros [E|[]] Hm. inversion E. congruence.
  - rewrite runs_S. destruct (any_char s) as [|n] eqn:C.
    + intros [E|[]] Hm. inversion E. congruence.
    + intros H Hm x Hx. apply in_app_or in H. destruct H as [H|[E|[]]].
      2:{ inversion E. congruence. }
      apply in_map_iff in H. destruct H as [[m' r'] [E H]].
      cbn [fst snd] in E. injection E as Em Er. subst r'.
      unfold any_char in C. destruct s as [|c s']; [discriminate|].
      destruct (0 <? line_terminator (String c s'))%nat eqn:L; [discriminate|].
      inversion C. subst n. cbn [drop] in H.
      destruct x as [|d x]; simpl in Hx.
      * inversion Hx. subst. discriminate L.
      * inversion Hx. subst d s'.
        destruct (string_dec m' EmptyString) as [->|Hm'].
        -- apply runs_split in H. simpl in H. destruct x; discriminate.
        -- exact (IH _ _ H Hm' x eq_refl).
Qed.

Lemma suffix_ends_with (p r x e : string) :
  p ++ r = x ++ e -> String.length e <= String.length r -> exists y, r = y ++ e.
Proof.
  revert x. induction p as [|c p IH]; intros x H L; simpl in H.
  - exists x. exact H.
  - destruct x as [|d x]; simpl in H.
    + exfalso. subst e. simpl in L.
      assert (String.length (p ++ r) = String.length p + String.length r) as E.
      { clear. induction p; simpl; [reflexivity | now rewrite IHp]. }
      rewrite E in L. lia.
    + inversion H. now apply (IH x).
Qed.

Lemma match_end (s : string) (caps : list string) :
  regex_match [] s = Some caps -> s = "" /\ caps = [].
Proof.
  simpl. destruct (s =? "") eqn:E; [|discriminate].
  intros H. inversion H. split; [now apply String.eqb_eq | reflexivity].
Qed.

Lemma match_literal (c : ascii) (captured : bool) (p : regex) (s : string)
      (caps : list string) :
  regex_match ((Literal c, captured) :: p) s = Some caps ->
  exists r caps',
    s = String c r /\ regex_match p r = Some caps'
    /\ caps = if captured then String c EmptyString :: caps' else caps'.
Proof.
  cbn [regex_match]. destruct s as [|c' r]; [discriminate|].
  destruct (Ascii.eqb_spec c c') as [<-|]; [|discriminate].
  destruct (regex_match p r) as [caps'|] eqn:E; [|discriminate].
  intros H. injection H as <-. exists r, caps'.
  split; [reflexivity|]. split; [exact E | reflexivity].
Qed.

Lemma match_greedy (class : char_class) (one captured : bool) (p : regex) (s : string)
      (caps : list string) :
  regex_match ((Greedy class one, captured) :: p) s = Some caps ->
  exists m r caps',
    In (m, r) (runs class (String.length s) s)
    /\ (one = true -> m <> "")
    /\ regex_match p r = Some caps'
    /\ caps = if captured then m :: caps' else caps'.
Proof.
  cbn [regex_match]. intros H. apply first_match_some in H.
  destruct H as [[m r] [Hin H]]. cbn [fst snd] in H.
  destruct (one && (m =? "")) eqn:E; [discriminate|].
  destruct (regex_match p r) as [caps'|] eqn:E'; [|discriminate].
  injection H as <-. exists m, r, caps'.
  split; [exact Hin|]. split; [|split; [exact E' | reflexivity]].
  intros ->. simpl in E. now apply String.eqb_neq.
Qed.

(** A line that ends with a carriage return does not match. *)
Lemma secret_line_rejects_cr (x : string) :
  regex_match secret_line (x ++ CR) = None.
Proof.
  destruct (regex_match secret_line (x ++ CR)) as [caps|] eqn:H; [|reflexivity].
  exfalso. unfold secret_line in H.
  apply match_greedy in H. destruct H as [m1 [r1 [caps1 [H1 [_ [H _]]]]]].
  apply match_literal in H. destruct H as [r2 [caps2 [-> [H _]]]].
  apply match_greedy in H. destruct H as [m3 [r3 [caps3 [H3 [_ [H _]]]]]].
  apply match_greedy in H. destruct H as [m4 [r4 [caps4 [H4 [N4 [H _]]]]]].
  apply match_end in H. destruct H as [-> _].
  specialize (N4 eq_refl).
  apply runs_split in H1. apply runs_split in H3.
  pose proof (runs_split _ _ _ _ _ H4) as S4.
  assert (r3 <> EmptyString) as N3.
  { intros ->. destruct m4; [congruence | discriminate]. }
  assert (exists y, r3 = y ++ CR) as [y Hy].
  { apply (suffix_ends_with (m1 ++ String ":" m3) r3 x CR).
    - rewrite H1, H3, append_assoc. reflexivity.
    - destruct r3; [congruence | simpl; lia]. }
  exact (runs_any_char_not_cr _ _ _ H4 N4 y Hy).
Qed.

Lemma record_set_get (o : strings) (k v : string) : record_get (record_set o k v) k = Some v.
Proof.
  induction o as [|[k' v'] o IH]; simpl.
  - now rewrite String.eqb_refl.
  - destruct (k' =? k) eqn:E; simpl; rewrite E; [reflexivity | exact IH].
Qed.

Lemma record_set_get_other (o : strings) (k k' v : string) :
  k <> k' -> record_get (record_set o k v) k' = record_get o k'.
Proof.
  intros N. induction o as [|[k0 v0] o IH]; simpl.
  - apply String.eqb_neq in N. now rewrite N.
  - destruct (k0 =? k) eqn:E; simpl.
    + apply String.eqb_eq in E. subst k0.
      apply String.eqb_neq in N. now rewrite N.
    + destruct (k0 =? k'); [reflexivity | exact IH].
Qed.

Lemma or_string_not_empty (a : option string) (b : string) :
  b <> "" -> or_string a b <> "".
Proof.
  intros N. unfold or_string. destruct a as [s|]; [|exact N].
  destruct (s =? "") eqn:E; [exact N | now apply String.eqb_neq].
Qed.

Lemma or_undefined_not_empty (a b : option string) (c : string) :
  c <> "" -> or_string (or_undefined a b) c <> "".
Proof. intros N. now apply or_string_not_empty. Qed.

(** X14: [loadSecrets] always answers, and its base URL is never empty; without
    the file, or when [sops] fails, the answer is read from the environment
    alone, an empty variable counting as unset. *)
Theorem loadSecrets_base_url_is_never_empty :
  forall (host : Host),
    baseUrl (loadSecrets host) <> ""
    /\ (existsSync host = false \/ (exists e, execSync host = Throw e) ->
        loadSecrets host
        = {| apiKey := or_string (env host "TEAMHOOD_API_KEY") "";
             baseUrl := or_string (env host "TEAMHOOD_BASE_URL") DEFAULT_BASE_URL |})
    /\ (env host "TEAMHOOD_BASE_URL" = None \/ env host "TEAMHOOD_BASE_URL" = Some "" ->
        existsSync host = false ->
        baseUrl (loadSecrets host) = DEFAULT_BASE_URL).
Proof.
  intros host. unfold loadSecrets. split; [|split].
  - destruct (existsSync host); simpl.
    + destruct (execSync host); simpl; apply or_string_not_empty; discriminate.
    + apply or_string_not_empty. discriminate.
  - intros [H|[e H]]; rewrite H; simpl; [reflexivity|].
    destruct (existsSync host); reflexivity.
  - intros H E. rewrite E. simpl. destruct H as [-> | ->]; reflexivity.
Qed.

Lemma read_lines_none (lines : list string) (secrets : strings) :
  (forall l, In l lines -> regex_match secret_line l = None) ->
  fold_left read_line lines secrets = secrets.
Proof.
  revert secrets. induction lines as [|l lines IH]; intros secrets H; simpl; [reflexivity|].
  unfold read_line at 2. rewrite (H l (or_introl eq_refl)). apply IH.
  intros l' Hl. apply H. now right.
Qed.

(** X15: a secrets file with Windows line ends is not read: when every line
    that [sops] prints is empty or ends with a carriage return, no line
    matches, and the secrets are those of the environment, as if there were
    no file. *)
Theorem loadSecrets_ignores_crlf_files :
  forall (host : Host) (decrypted : string),
    execSync host = Return decrypted ->
    (forall l, In l (split_lines decrypted) -> l = "" \/ exists x, l = x ++ CR) ->
    loadSecrets host
    = {| apiKey := or_string (env host "TEAMHOOD_API_KEY") "";
         baseUrl := or_string (env host "TEAMHOOD_BASE_URL") DEFAULT_BASE_URL |}.
Proof.
  intros host decrypted HE HL. unfold loadSecrets. rewrite HE.
  destruct (existsSync host); simpl; [|reflexivity].
  rewrite read_lines_none.
  - simpl. reflexivity.
  - intros l Hl. destruct (HL l Hl) as [->|[x ->]]; [reflexivity|].
    apply secret_line_rejects_cr.
Qed.




Lemma first_match_head {A B : Type} (f : A -> option B) (x : A) (l : list A) (y : B) :
  f x = Some y -> first_match f (x :: l) = Some y.
Proof. intros H. simpl. now rewrite H. Qed.

Lemma length_append (a b : string) :
  String.length (a ++ b) = String.length a + String.length b.
Proof. induction a as [|c a IH]; simpl; [reflexivity | now rewrite IH]. Qed.

(** A repetition first tries all the characters of its class. *)
Lemma runs_longest (class : char_class) (m rest : string) (fuel : nat) :
  (forall a c b, m = a ++ String c b -> class (String c b ++ rest) = 1) ->
  class rest = 0 -> String.length m <= fuel ->
  exists others, runs class fuel (m ++ rest) = (m, rest) :: others.
Proof.
  revert fuel. induction m as [|c m IH]; intros fuel Hclass Hrest Hfuel.
  - simpl. destruct fuel as [|fuel]; [eexists; reflexivity|].
    rewrite runs_S, Hrest. eexists. reflexivity.
  - destruct fuel as [|fuel]; [simpl in Hfuel; lia|].
    rewrite runs_S.
    rewrite (Hclass EmptyString c m eq_refl : class (String c m ++ rest) = 1).
    destruct (IH fuel) as [others E].
    + intros a c' b Hm. apply (Hclass (String c a) c' b). simpl. now rewrite Hm.
    + exact Hrest.
    + simpl in Hfuel. lia.
    + cbn [String.append take drop]. rewrite E. eexists. reflexivity.
Qed.

Lemma plain_byte_classes (c : ascii) (r : string) :
  plain_byte c = true ->
  line_terminator (String c r) = 0 /\ white_space (String c r) = 0
  /\ any_char (String c r) = 1.
Proof.
  destruct c as [[] [] [] [] [] [] [] []]; intros H; try discriminate H;
    repeat split; reflexivity.
Qed.

Lemma plain_suffix (v a b : string) (c : ascii) :
  plain v = true -> v = a ++ String c b -> plain_byte c = true.
Proof.
  revert v. induction a as [|x a IH]; intros v H E; subst v; cbn [String.append plain] in H;
    apply andb_true_iff in H; destruct H as [H1 H2].
  - exact H1.
  - now apply (IH (a ++ String c b)).
Qed.

Lemma all_word_suffix (k a b : string) (c : ascii) (rest : string) :
  all_word k = true -> k = a ++ String c b -> word_char (String c b ++ rest) = 1.
Proof.
  revert k. induction a as [|x a IH]; intros k H E; subst k; cbn [String.append all_word] in H;
    apply andb_true_iff in H; destruct H as [H1 H2].
  - cbn [String.append word_char]. now rewrite H1.
  - now apply (IH (a ++ String c b)).
Qed.

Lemma trim_plain (v : string) : plain v = true -> trim v = v.
Proof.
  intros H. unfold trim.
  assert (forall s, plain s = true -> trim_start 0 s = s) as TS.
  { intros s Hs. destruct s as [|c r]; [reflexivity|]. simpl in Hs.
    apply andb_true_iff in Hs. destruct Hs as [Hc _].
    cbn [trim_start]. now rewrite (proj1 (proj2 (plain_byte_classes c r Hc))). }
  rewrite (TS v H). induction v as [|c r IH]; [reflexivity|].
  cbn [trim_end]. rewrite (TS _ H). simpl in H. apply andb_true_iff in H.
  destruct H as [_ Hr]. simpl. now rewrite (IH Hr).
Qed.

(** A line [key: value] with a plain value is read as written. *)
Lemma secret_line_reads (k v : string) :
  all_word k = true -> k <> "" -> plain v = true -> v <> "" ->
  regex_match secret_line (k ++ ": " ++ v) = Some [k; v].
Proof.
  intros Hk Nk Hv Nv. unfold secret_line.
  destruct v as [|c v']; [congruence|].
  assert (plain_byte c = true) as Hc.
  { simpl in Hv. now apply andb_true_iff in Hv. }
  destruct (runs_longest word_char k (": " ++ String c v')
              (String.length (k ++ ": " ++ String c v'))) as [o1 E1].
  { intros a x b E. now apply (all_word_suffix k a b x). }
  { reflexivity. }
  { rewrite length_append. lia. }
  destruct (runs_longest any_char (String c v') EmptyString
              (String.length (String c v'))) as [o4 E4].
  { intros a x b E. rewrite append_empty_r. apply plain_byte_classes.
    now apply (plain_suffix (String c v') a b x). }
  { reflexivity. }
  { lia. }
  rewrite append_empty_r in E4.
  cbn [regex_match]. rewrite E1. apply first_match_head. cbn [fst snd].
  destruct (k =? "") eqn:Ek; [apply String.eqb_eq in Ek; congruence|]. simpl andb. cbv iota.
  cbn [String.append]. rewrite Ascii.eqb_refl.
  assert (exists o3, runs white_space (String.length (String " " (String c v')))
                       (String " " (String c v'))
                     = (" ", String c v') :: o3) as [o3 E3].
  { cbn [String.length]. rewrite runs_S.
    change (white_space (String " " (String c v'))) with 1.
    cbn [take drop String.append].
    rewrite runs_S. rewrite (proj1 (proj2 (plain_byte_classes c v' Hc))).
    cbn [map app fst snd String.append]. eexists. reflexivity. }
  rewrite E3. cbn [first_match fst snd andb]. rewrite E4.
  cbn [first_match fst snd andb String.eqb]. reflexivity.
Qed.

(** What a matching line captures: the key, before the first colon, and
    the value. *)
Lemma secret_line_captures (l : string) (caps : list string) :
  regex_match secret_line l = Some caps ->
  exists key value rest, caps = [key; value] /\ l = key ++ ":" ++ rest.
Proof.
  intros H. unfold secret_line in H.
  apply match_greedy in H. destruct H as [m1 [r1 [caps1 [H1 [_ [H ->]]]]]].
  apply match_literal in H. destruct H as [r2 [caps2 [-> [H ->]]]].
  apply match_greedy in H. destruct H as [m3 [r3 [caps3 [_ [_ [H ->]]]]]].
  apply match_greedy in H. destruct H as [m4 [r4 [caps4 [_ [_ [H ->]]]]]].
  apply match_end in H. destruct H as [_ ->].
  apply runs_split in H1. exists m1, m4, r2. split; [reflexivity | exact H1].
Qed.

Lemma split_lines_line (l rest : string) :
  no_linefeed l = true ->
  split_lines (l ++ LF ++ rest) = l :: split_lines rest.
Proof.
  induction l as [|c l IH]; intros H.
  - reflexivity.
  - cbn [no_linefeed] in H. apply andb_true_iff in H. destruct H as [Hc Hl].
    cbn [String.append split_lines]. apply negb_true_iff in Hc. rewrite Hc.
    fold (String.append l (LF ++ rest)). rewrite (IH Hl). reflexivity.
Qed.

Lemma split_lines_last (l : string) : no_linefeed l = true -> split_lines l = [l].
Proof.
  induction l as [|c l IH]; intros H; [reflexivity|].
  cbn [no_linefeed] in H. apply andb_true_iff in H. destruct H as [Hc Hl].
  cbn [split_lines]. apply negb_true_iff in Hc. rewrite Hc, (IH Hl). reflexivity.
Qed.

(** Splitting the lines joined by line feeds gives the lines back. *)
Lemma split_lines_concat (ls : list string) :
  ls <> [] -> (forall l, In l ls -> no_linefeed l = true) ->
  split_lines (String.concat LF ls) = ls.
Proof.
  induction ls as [|l ls IH]; intros N H; [congruence|].
  destruct ls as [|l' ls].
  - simpl. apply split_lines_last, H. now left.
  - change (String.concat LF (l :: l' :: ls)) with (l ++ LF ++ String.concat LF (l' :: ls)).
    rewrite split_lines_line by (apply H; now left).
    rewrite IH; [reflexivity | discriminate |].
    intros x Hx. apply H. now right.
Qed.

Lemma read_line_keeps (secrets : strings) (l k : string) :
  String.prefix (k ++ ":") l = false ->
  record_get (read_line secrets l) k = record_get secrets k.
Proof.
  intros H. unfold read_line.
  destruct (regex_match secret_line l) as [caps|] eqn:E; [|reflexivity].
  destruct (secret_line_captures _ _ E) as [key [value [rest [-> Hl]]]].
  destruct (key =? "__proto__"); [reflexivity|].
  apply record_set_get_other. intros ->. subst l.
  assert (String.prefix (k ++ ":") (k ++ ":" ++ rest) = true) as P.
  { clear. induction k as [|c k IH]; simpl.
    - destruct (ascii_dec ":" ":"); [|contradiction]. destruct rest; reflexivity.
    - destruct (ascii_dec c c); [exact IH | contradiction]. }
  congruence.
Qed.

Lemma read_lines_keep (lines : list string) (secrets : strings) (k : string) :
  (forall l, In l lines -> String.prefix (k ++ ":") l = false) ->
  record_get (fold_left read_line lines secrets) k = record_get secrets k.
Proof.
  revert secrets. induction lines as [|l lines IH]; intros secrets H; simpl; [reflexivity|].
  rewrite IH by (intros l' Hl; apply H; now right).
  apply read_line_keeps, H. now left.
Qed.

(** What the loop leaves under a key whose last line is [key: value]. *)
Lemma read_lines_last (before after : list string) (k v : string) :
  all_word k = true -> k <> "" -> k <> "__proto__" -> plain v = true -> v <> "" ->
  (forall l, In l after -> String.prefix (k ++ ":") l = false) ->
  record_get (fold_left read_line (before ++ [k ++ ": " ++ v] ++ after) []) k = Some v.
Proof.
  intros Hk Nk Np Hv Nv Hafter.
  rewrite !fold_left_app. rewrite read_lines_keep by exact Hafter.
  cbn [fold_left]. unfold read_line at 1.
  rewrite (secret_line_reads k v Hk Nk Hv Nv).
  apply String.eqb_neq in Np. rewrite Np, (trim_plain v Hv). apply record_set_get.
Qed.

(** X16: a line [TEAMHOOD_API_KEY: value] of the decrypted file, with a plain
    value and no later line for that key, gives the key whatever the
    environment holds, and the text after the colon is taken as it is, a
    pair of quotes included; the same holds of [TEAMHOOD_BASE_URL]. *)
Theorem loadSecrets_file_wins :
  forall (host : Host) (before after : list string) (k v : string),
    k = "TEAMHOOD_API_KEY" \/ k = "TEAMHOOD_BASE_URL" ->
    existsSync host = true ->
    execSync host = Return (String.concat LF (before ++ [k ++ ": " ++ v] ++ after)) ->
    plain v = true -> v <> "" ->
    (forall l, In l (before ++ after) -> no_linefeed l = true) ->
    (forall l, In l after -> String.prefix (k ++ ":") l = false) ->
    (k = "TEAMHOOD_API_KEY" -> apiKey (loadSecrets host) = v)
    /\ (k = "TEAMHOOD_BASE_URL" -> baseUrl (loadSecrets host) = v).
Proof.
  intros host before after k v Hk HE HX Hv Nv HL Hafter.
  assert (no_linefeed (k ++ ": " ++ v) = true) as Hline.
  { assert (forall s, plain s = true -> no_linefeed s = true) as P.
    { induction s as [|c s IH]; [reflexivity|]. cbn [plain no_linefeed].
      intros H. apply andb_true_iff in H. destruct H as [Hc Hs].
      rewrite (IH Hs), andb_true_r.
      destruct c as [[] [] [] [] [] [] [] []]; try discriminate Hc; reflexivity. }
    destruct Hk as [-> | ->]; simpl; now apply P. }
  assert (record_get (fold_left read_line
                 (split_lines (String.concat LF (before ++ [k ++ ": " ++ v] ++ after))) [])
              k = Some v) as G.
  { rewrite split_lines_concat.
    - apply read_lines_last; try assumption; destruct Hk as [-> | ->];
        first [reflexivity | discriminate].
    - destruct before; discriminate.
    - intros l Hl. apply in_app_or in Hl. destruct Hl as [Hl|[<-|Hl]].
      + apply HL, in_or_app. now left.
      + exact Hline.
      + apply HL, in_or_app. now right. }
  assert ((v =? "") = false) as Ev by now apply String.eqb_neq.
  unfold loadSecrets. rewrite HE, HX. cbn [negb]. cbv zeta. cbn [apiKey baseUrl].
  split; intros ->; rewrite G; unfold or_undefined, or_string; rewrite Ev; now rewrite Ev.
Qed.


(** Every request of a dispatch carries the key and starts with the base
    URL. *)
Lemma sent_requests_carry_the_key (name : string) (args : object) (log : list Request)
      (request : Request) :
  In request (sent (handleToolCall name args) log) ->
  In ("Authorization", API_KEY) (headers (options request))
  /\ String.prefix BASE_URL (url request) = true.
Proof.
  intros Hin.
  destruct (dispatch_shape name args log)
    as [[endpoint [m [b [Hlog _]]]]|[[bytes [_ [_ Hlog]]]|[Hlog _]]].
  - rewrite (sent_app _ _ _ Hlog) in Hin. destruct Hin as [<-|[]].
    split; [left; reflexivity | apply prefix_app].
  - rewrite (sent_app _ _ _ Hlog) in Hin. destruct Hin as [<-|[]].
    split; [left; reflexivity | apply prefix_app].
  - exfalso. unfold sent in Hin. rewrite Hlog, skipn_all in Hin. exact Hin.
Qed.

End Server.

(** C8, as stated, fails: the catalog does not hold 30 descriptors. *)
Lemma tools_count_is_not_30 : length tools <> 30%nat.
Proof. discriminate. Qed.

(** The theorem at two positions of the catalog. *)
Lemma tools_count_and_unique_names_witness : "list_users" <> "list_workspaces".
Proof.
  exact (proj2 (proj2 tools_count_and_unique_names) 23%nat 0%nat _ _
           eq_refl eq_refl ltac:(discriminate)).
Defined.

(** ** Sample calls *)

(** C7, as stated, fails: the request of a GET carries the [Content-Type]
    header and no body. *)
Lemma content_type_without_body :
  let request := apiRequest_fetch_arguments "key" "https://example.test/api/v1"
                   "/workspaces" GET VUndefined in
  ~ (In ("Content-Type", "application/json") (headers (options request)) ->
     body (options request) <> None).
Proof.
  simpl. intros H. apply H.
  - right. left. reflexivity.
  - reflexivity.
Qed.

(** The theorem at a DELETE, which carries no body, and at a PUT with one. *)
Lemma apiRequest_request_witness :
  body (options (apiRequest_fetch_arguments "key" "https://example.test/api/v1"
                   "/items/I1" DELETE VUndefined)) = None
  /\ exists s,
       JSON_stringify (VObj [("Name", VStr "a.txt")]) 0 = Some s
       /\ body (options (apiRequest_fetch_arguments "key" "https://example.test/api/v1"
                           "/attachments/A1" PUT (VObj [("Name", VStr "a.txt")])))
          = Some (BodyText s).
Proof.
  split.
  - refine (proj1 (proj2 (proj2 (proj2 (proj2
              (apiRequest_request "key" "https://example.test/api/v1"
                 (fixed_backend not_found_404) (parser_of [])
                 "/items/I1" DELETE VUndefined [])))))
              _).
    right. reflexivity.
  - refine (proj1 (proj2 (proj2 (proj2 (proj2 (proj2
              (apiRequest_request "key" "https://example.test/api/v1"
                 (fixed_backend not_found_404) (parser_of [])
                 "/attachments/A1" PUT (VObj [("Name", VStr "a.txt")]) []))))) _)
              _).
    + right. reflexivity.
    + reflexivity.
Defined.

(** A call of a tool that does not exist. *)
Lemma call_tool_failure_is_recovered_witness :
  CallToolRequestHandler "key" "https://example.test/api/v1"
    (fixed_backend not_found_404) (parser_of []) (decoder_of [])
    "log_time" [("itemId", VStr "I1")] []
  = (Return (error_response "Unknown tool: log_time"), []).
Proof.
  refine (proj1 (proj2 (proj2
            (call_tool_failure_is_recovered "key" "https://example.test/api/v1"
               (fixed_backend not_found_404) (parser_of []) (decoder_of []))))
            "log_time" [("itemId", VStr "I1")] [] _).
  rewrite tool_names. simpl. intuition discriminate.
Defined.


(** The text that call posts. *)
Example create_item_sample_text :
  JSON_stringify (create_item_body create_item_sample) 0
  = Some ("{" ++ DQ ++ "workspaceId" ++ DQ ++ ":" ++ DQ ++ "W1" ++ DQ
          ++ "," ++ DQ ++ "boardId" ++ DQ ++ ":" ++ DQ ++ "B1" ++ DQ
          ++ "," ++ DQ ++ "statusId" ++ DQ ++ ":" ++ DQ ++ "S1" ++ DQ
          ++ "," ++ DQ ++ "title" ++ DQ ++ ":" ++ DQ ++ "Write the report" ++ DQ
          ++ "," ++ DQ ++ "assignedUserId" ++ DQ ++ ":" ++ DQ ++ "U1" ++ DQ
          ++ "," ++ DQ ++ "tags" ++ DQ ++ ":[" ++ DQ ++ "urgent" ++ DQ ++ "]"
          ++ "," ++ DQ ++ "customFields" ++ DQ ++ ":[]"
          ++ "," ++ DQ ++ "blocking" ++ DQ ++ ":[]"
          ++ "," ++ DQ ++ "waiting" ++ DQ ++ ":[]"
          ++ "," ++ DQ ++ "milestone" ++ DQ ++ ":false"
          ++ "," ++ DQ ++ "isSuspended" ++ DQ ++ ":false"
          ++ "," ++ DQ ++ "suspendReason" ++ DQ ++ ":" ++ DQ ++ DQ ++ "}").
Proof. reflexivity. Qed.

(** The theorem at that call: the supplied [tags] are sent, the absent
    [waiting] is sent empty. *)
Lemma create_item_body_fields_witness :
  exists o,
    create_item_body create_item_sample = VObj o
    /\ prop o "assignedUserId" = VStr "U1"
    /\ hasOwn o "assigneeId" = false
    /\ prop o "tags" = VArr [VStr "urgent"]
    /\ prop o "waiting" = VArr [].
Proof.
  destruct (proj2 (create_item_body_fields "key" "https://example.test/api/v1"
                     (fixed_backend not_found_404) (parser_of []) (decoder_of [])
                     create_item_sample []))
    as [o [s [Ho [_ [_ [Ha [Hn [Hf _]]]]]]]].
  exists o. split; [exact Ho|]. split; [exact Ha|]. split; [exact Hn|].
  split.
  - refine (proj1 (proj2 (proj2 (Hf "tags" _))) [VStr "urgent"] _).
    + left. reflexivity.
    + reflexivity.
  - refine (proj1 (proj2 (Hf "waiting" _)) _).
    + right. right. right. left. reflexivity.
    + reflexivity.
Defined.

(** The text [update_item] puts for [assigneeId: "U1"]. *)
Example update_item_sample_text :
  JSON_stringify (update_item_body update_item_sample) 0
  = Some ("{" ++ DQ ++ "data" ++ DQ ++ ":{" ++ DQ ++ "userId" ++ DQ ++ ":"
          ++ DQ ++ "U1" ++ DQ ++ "}}").
Proof. reflexivity. Qed.


(** C4, as stated, fails: a filter supplied as the empty string is not in the
    query; the request goes to [/items] with no query at all. *)
Lemma list_items_empty_filter_not_sent :
  ~ (prop [("workspaceId", VStr "")] "workspaceId" <> VUndefined ->
     exists request,
       In request
          (sent (handleToolCall "key" "https://example.test/api/v1"
                   (fixed_backend not_found_404) (parser_of []) (decoder_of [])
                   "list_items" [("workspaceId", VStr "")]) [])
       /\ includes "WorkspaceId" (url request) = true).
Proof.
  intros H. destruct H as [request [Hin Hi]]; [discriminate|].
  vm_compute in Hin. destruct Hin as [<-|[]]. vm_compute in Hi. discriminate.
Qed.

(** The query of [list_items] for [tags: ["a","b"]]. *)
Example list_items_tags_query :
  and_then (list_items_params [("tags", VArr [VStr "a"; VStr "b"])])
           (fun params => Return (list_items_endpoint params))
  = Return "/items?Tags=a&Tags=b".
Proof. reflexivity. Qed.

(** The theorem at a call with a board, two tags and a page size. *)
Lemma list_items_query_witness :
  sent (handleToolCall "key" "https://example.test/api/v1"
          (fixed_backend not_found_404) (parser_of []) (decoder_of [])
          "list_items"
          [("boardId", VStr "B1"); ("tags", VArr [VStr "a"; VStr "b"]); ("take", VNum 50)])
       []
  = [ {| url := "https://example.test/api/v1/items?BoardId=B1&Tags=a&Tags=b&Take=50";
         options :=
           {| method := GET;
              headers := [("Authorization", "key"); ("Content-Type", "application/json")];
              body := None |} |} ].
Proof.
  exact (proj1
           (list_items_query "key" "https://example.test/api/v1"
              (fixed_backend not_found_404) (parser_of []) (decoder_of [])
              [("boardId", VStr "B1"); ("tags", VArr [VStr "a"; VStr "b"]); ("take", VNum 50)]
              [("BoardId", "B1"); ("Tags", "a"); ("Tags", "b"); ("Take", "50")] []
              eq_refl eq_refl)).
Defined.

(** The query of [list_items] for [skip: 0] and [completed: false]. *)
Example list_items_skip_zero_query :
  and_then (list_items_params [("completed", VBool false); ("skip", VNum 0)])
           (fun params => Return (list_items_endpoint params))
  = Return "/items?Completed=false&Skip=0".
Proof. reflexivity. Qed.

(** The theorem at a call with [skip: 0] and an empty [boardId]. *)
Lemma list_items_guards_witness :
  sent (handleToolCall "key" "https://example.test/api/v1"
          (fixed_backend not_found_404) (parser_of []) (decoder_of [])
          "list_items" [("boardId", VStr ""); ("skip", VNum 0)]) []
  = [ {| url := "https://example.test/api/v1/items?Skip=0";
         options :=
           {| method := GET;
              headers := [("Authorization", "key"); ("Content-Type", "application/json")];
              body := None |} |} ]
  /\ ~ In ("BoardId", "") [("Skip", "0")].
Proof.
  pose proof (list_items_guards "key" "https://example.test/api/v1"
                (fixed_backend not_found_404) (parser_of []) (decoder_of [])
                [("boardId", VStr ""); ("skip", VNum 0)] [("Skip", "0")] []
                eq_refl eq_refl) as W.
  split.
  - exact (proj1 W).
  - refine (proj1 (proj2 (proj2 (proj2 (proj2 (proj2 W))))) "boardId" _ eq_refl "").
    simpl. repeat ((left; reflexivity) || right).
Defined.




(** C9, as stated, fails for [get_board]: the tool is in the catalog, its
    required arguments are given, the backend answers with the list of
    boards, the call succeeds, and the text of the response is the board
    found, not the answer of the backend. *)
Lemma get_board_text_is_not_the_backend_body :
  exists tool,
    descriptor "get_board" = Some tool
    /\ In tool tools
    /\ has_required_arguments tool get_board_B2 = true
    /\ handleToolCall "key" "https://example.test/api/v1"
         (fixed_backend (ok_200 (VArr boards_sample)))
         (parser_of [(text_of (VArr boards_sample), VArr boards_sample)]) (decoder_of [])
         (MCP.name tool) get_board_B2 []
       = (Return board_B2,
          [apiRequest_fetch_arguments "key" "https://example.test/api/v1"
             "/workspaces/W1/boards" GET VUndefined])
    /\ fst (CallToolRequestHandler "key" "https://example.test/api/v1"
              (fixed_backend (ok_200 (VArr boards_sample)))
              (parser_of [(text_of (VArr boards_sample), VArr boards_sample)])
              (decoder_of [])
              (MCP.name tool) get_board_B2 [])
       <> Return (success_response (JSON_stringify (VArr boards_sample) 2)).
Proof.
  eexists. split; [reflexivity|]. split; [|split; [|split]].
  - simpl. repeat ((left; reflexivity) || right).
  - reflexivity.
  - reflexivity.
  - vm_compute. discriminate.
Qed.

(** The theorem at [get_item], answered with an item. *)
Lemma call_tool_success_text_witness :
  CallToolRequestHandler "key" "https://example.test/api/v1"
    (fixed_backend (ok_200 board_B1))
    (parser_of [(text_of board_B1, board_B1)]) (decoder_of [])
    "get_item" [("itemId", VStr "I1")] []
  = (Return (success_response (JSON_stringify board_B1 2)),
     [apiRequest_fetch_arguments "key" "https://example.test/api/v1"
        "/items/I1" GET VUndefined]).
Proof.
  refine (proj2 (proj1 (proj2
            (call_tool_success_text "key" "https://example.test/api/v1"
               (fixed_backend (ok_200 board_B1))
               (parser_of [(text_of board_B1, board_B1)]) (decoder_of [])
               (nth 11 tools {| MCP.name := ""; MCP.description := "";
                                MCP.inputSchema := VNull |})
               [("itemId", VStr "I1")] [] _ (ok_200 board_B1) board_B1 board_B1
               _ eq_refl _ eq_refl _ eq_refl eq_refl)) _)).
  - simpl. repeat ((left; reflexivity) || right).
  - intros request. reflexivity.
  - discriminate.
  - discriminate.
Defined.

(** The text of that response. *)
Example get_item_response_text :
  JSON_stringify board_B1 2
  = Some ("{" ++ LF
          ++ "  " ++ DQ ++ "id" ++ DQ ++ ": " ++ DQ ++ "B1" ++ DQ ++ "," ++ LF
          ++ "  " ++ DQ ++ "title" ++ DQ ++ ": " ++ DQ ++ "Roadmap" ++ DQ ++ LF
          ++ "}").
Proof. reflexivity. Qed.

(** ** Further sample calls *)

(** The theorem at [delete_item] without its [itemId]. *)
Lemma path_argument_is_sent_as_it_prints_witness :
  exists request,
    sent (handleToolCall "key" "https://example.test/api/v1"
            (fixed_backend not_found_404) (parser_of []) (decoder_of [])
            "delete_item" []) [] = [request]
    /\ url request = "https://example.test/api/v1/items/undefined".
Proof.
  destruct (path_argument_is_sent_as_it_prints "key" "https://example.test/api/v1"
              (fixed_backend not_found_404) (parser_of []) (decoder_of [])
              "delete_item" "/items/" "itemId" ""
              ltac:(simpl; repeat ((left; reflexivity) || right)) [] [] eq_refl)
    as [request [Hs [_ [Hu _]]]].
  exists request. split; [exact Hs|]. exact (Hu eq_refl).
Defined.

(** The theorem at the identifier [I1]. *)
Lemma get_item_path_is_not_encoded_witness :
  handleToolCall "key" "https://example.test/api/v1"
    (fixed_backend (ok_200 (VArr []))) (parser_of [(text_of (VArr []), VArr [])])
    (decoder_of [])
    "get_item" [("itemId", VStr "I1/attachments")] []
  = handleToolCall "key" "https://example.test/api/v1"
      (fixed_backend (ok_200 (VArr []))) (parser_of [(text_of (VArr []), VArr [])])
      (decoder_of [])
      "list_attachments" [("itemId", VStr "I1")] [].
Proof.
  exact (get_item_path_is_not_encoded "key" "https://example.test/api/v1"
           (fixed_backend (ok_200 (VArr []))) (parser_of [(text_of (VArr []), VArr [])])
           (decoder_of [])
           "I1" [("itemId", VStr "I1/attachments")] [("itemId", VStr "I1")] []
           eq_refl eq_refl).
Defined.



(** The theorem at [get_item]: one request, with the key, to the base URL. *)
Lemma dispatch_sends_one_authorized_request_witness :
  length (sent (handleToolCall "key" "https://example.test/api/v1"
                  (fixed_backend not_found_404) (parser_of []) (decoder_of [])
                  "get_item" [("itemId", VStr "I1")]) []) = 1%nat.
Proof.
  refine (proj2 (proj2 (proj2 (proj2
            (dispatch_sends_one_authorized_request "key" "https://example.test/api/v1"
               (fixed_backend not_found_404) (parser_of []) (decoder_of [])
               "get_item" [("itemId", VStr "I1")] []))))
            _ _ _ _).
  - simpl. repeat ((left; reflexivity) || right).
  - reflexivity.
  - discriminate.
  - discriminate.
Defined.

(** The theorem at [get_time_logs], a query that is posted. *)
Lemma dispatch_method_and_body_witness :
  tool_method tool_methods "get_time_logs" = Some POST.
Proof.
  refine (proj1 (dispatch_method_and_body "key" "https://example.test/api/v1"
                   (fixed_backend not_found_404) (parser_of []) (decoder_of [])
                   "get_time_logs" [("workspaceId", VStr "W1")] []
                   (apiRequest_fetch_arguments "key" "https://example.test/api/v1"
                      "/timelogs" POST (VObj [("workspaceId", VStr "W1")])) _)).
  left. reflexivity.
Defined.

(** The theorem at [delete_item], answered 204 with no content. *)
Lemma empty_body_is_an_empty_object_witness :
  fst (CallToolRequestHandler "key" "https://example.test/api/v1"
         (fixed_backend {| status := 204; text := "" |}) (parser_of []) (decoder_of [])
         "delete_item" [("itemId", VStr "I1")] [])
  = Return (success_response (Some "{}")).
Proof.
  refine (proj2 (proj1 (empty_body_is_an_empty_object "key" "https://example.test/api/v1"
                          (fixed_backend {| status := 204; text := "" |})
                          (parser_of []) (decoder_of [])
                          "delete_item" [("itemId", VStr "I1")] []
                          {| status := 204; text := "" |} _ eq_refl eq_refl _) _)).
  - intros request. reflexivity.
  - discriminate.
  - discriminate.
Defined.

(** The theorem at a backend that answers with an object. *)
Lemma get_board_needs_a_list_of_boards_witness :
  exists e,
    handleToolCall "key" "https://example.test/api/v1"
      (fixed_backend (ok_200 board_B1)) (parser_of [(text_of board_B1, board_B1)])
      (decoder_of [])
      "get_board" get_board_B2 []
    = (Throw e,
       [apiRequest_fetch_arguments "key" "https://example.test/api/v1"
          "/workspaces/W1/boards" GET VUndefined]).
Proof.
  assert (handleToolCall "key" "https://example.test/api/v1"
            (fixed_backend (ok_200 board_B1)) (parser_of [(text_of board_B1, board_B1)])
            (decoder_of [])
            "list_boards" get_board_B2 []
          = (Return board_B1,
             [apiRequest_fetch_arguments "key" "https://example.test/api/v1"
                "/workspaces/W1/boards" GET VUndefined])) as HL.
  { vm_compute. reflexivity. }
  destruct (get_board_needs_a_list_of_boards "key" "https://example.test/api/v1"
              (fixed_backend (ok_200 board_B1)) (parser_of [(text_of board_B1, board_B1)])
              (decoder_of [])
              get_board_B2 [] _ board_B1 HL)
    as [e [He _]].
  { left. intros l. discriminate. }
  exists e. exact He.
Defined.


(** The theorem at [get_item] with an argument it does not know. *)
Lemma dispatcher_reads_only_advertised_arguments_witness :
  handleToolCall "key" "https://example.test/api/v1"
    (fixed_backend not_found_404) (parser_of []) (decoder_of [])
    "get_item" [("itemId", VStr "I1"); ("verbose", VBool true)] []
  = handleToolCall "key" "https://example.test/api/v1"
      (fixed_backend not_found_404) (parser_of []) (decoder_of [])
      "get_item" [("itemId", VStr "I1")] [].
Proof.
  refine (proj1 (dispatcher_reads_only_advertised_arguments
                   "key" "https://example.test/api/v1"
                   (fixed_backend not_found_404) (parser_of []) (decoder_of [])
                   (nth 11 tools {| MCP.name := ""; MCP.description := "";
                                    MCP.inputSchema := VNull |})
                   [("itemId", VStr "I1"); ("verbose", VBool true)]
                   [("itemId", VStr "I1")] [] _ _)).
  - simpl. repeat ((left; reflexivity) || right).
  - intros k [<-|[]]. reflexivity.
Defined.

(** The theorem at [tags] given as the string [ab]. *)
Lemma list_items_tags_are_iterated_witness :
  sent (handleToolCall "key" "https://example.test/api/v1"
          (fixed_backend not_found_404) (parser_of []) (decoder_of [])
          "list_items" [("tags", VStr "ab")]) []
  = [ {| url := "https://example.test/api/v1/items?Tags=a&Tags=b";
         options :=
           {| method := GET;
              headers := [("Authorization", "key"); ("Content-Type", "application/json")];
              body := None |} |} ].
Proof.
  destruct (proj1 (list_items_tags_are_iterated "key" "https://example.test/api/v1"
                     (fixed_backend not_found_404) (parser_of []) (decoder_of [])
                     [("tags", VStr "ab")] [] eq_refl)
              eq_refl eq_refl)
    as [params [HP [HS _]]].
  vm_compute in HP. injection HP as <-. exact HS.
Defined.

(** The query of [list_system_logs] for a day, and without the first date. *)
Example list_system_logs_sample :
  map url (sent (handleToolCall "key" "https://example.test/api/v1"
                   (fixed_backend not_found_404) (parser_of []) (decoder_of [])
                   "list_system_logs"
                   [("fromDate", VStr "2024-02-05T02:00:00Z");
                    ("toDate", VStr "2024-02-06T02:00:00Z"); ("take", VNum 10)]) [])
  = ["https://example.test/api/v1/logs?fromDate=2024-02-05T02%3A00%3A00Z&toDate=2024-02-06T02%3A00%3A00Z&take=10"].
Proof. reflexivity. Qed.

Lemma list_system_logs_query_witness :
  exists request,
    sent (handleToolCall "key" "https://example.test/api/v1"
            (fixed_backend not_found_404) (parser_of []) (decoder_of [])
            "list_system_logs" [("toDate", VStr "2024-02-06")]) [] = [request]
    /\ String.prefix "https://example.test/api/v1/logs?fromDate=undefined&toDate="
         (url request) = true.
Proof.
  destruct (list_system_logs_query "key" "https://example.test/api/v1"
              (fixed_backend not_found_404) (parser_of []) (decoder_of [])
              [("toDate", VStr "2024-02-06")] [] eq_refl)
    as [request [Hs [_ [_ Hp]]]].
  exists request. split; [exact Hs|]. exact (Hp eq_refl).
Defined.

(** The theorem at a call without dates and without a page. *)
Lemma list_activities_page_defaults_witness :
  map (fun request => body (options request))
      (sent (handleToolCall "key" "https://example.test/api/v1"
               (fixed_backend not_found_404) (parser_of []) (decoder_of [])
               "list_activities" [("boardId", VStr "B1")]) [])
  = [Some (BodyText ("{" ++ DQ ++ "offset" ++ DQ ++ ":0,"
                       ++ DQ ++ "limit" ++ DQ ++ ":100}"))].
Proof.
  destruct (list_activities_page_defaults "key" "https://example.test/api/v1"
              (fixed_backend not_found_404) (parser_of []) (decoder_of [])
              [("boardId", VStr "B1")] [] eq_refl eq_refl)
    as [offset [limit [_ [_ [_ [_ [_ H]]]]]]].
  exact (H eq_refl eq_refl (or_introl eq_refl) (or_introl eq_refl)).
Defined.


(** ** The secrets of sample machines *)

(** The theorem at a machine without file and without variables. *)
Lemma loadSecrets_base_url_is_never_empty_witness :
  loadSecrets (sample_host None None (Some ""))
  = {| apiKey := ""; baseUrl := DEFAULT_BASE_URL |}.
Proof.
  refine (proj1 (proj2 (loadSecrets_base_url_is_never_empty
                          (sample_host None None (Some "")))) _).
  left. reflexivity.
Defined.

(** The theorem at a file written with Windows line ends. *)
Lemma loadSecrets_ignores_crlf_files_witness :
  loadSecrets (sample_host
                 (Some ("TEAMHOOD_API_KEY: abc" ++ CR ++ LF
                        ++ "TEAMHOOD_BASE_URL: https://example.test/api/v1" ++ CR ++ LF))
                 (Some "from-env") None)
  = {| apiKey := "from-env"; baseUrl := DEFAULT_BASE_URL |}.
Proof.
  refine (loadSecrets_ignores_crlf_files
            (sample_host
               (Some ("TEAMHOOD_API_KEY: abc" ++ CR ++ LF
                      ++ "TEAMHOOD_BASE_URL: https://example.test/api/v1" ++ CR ++ LF))
               (Some "from-env") None)
            _ eq_refl _).
  intros l Hl. vm_compute in Hl.
  destruct Hl as [<-|[<-|[<-|[]]]].
  - right. exists "TEAMHOOD_API_KEY: abc". reflexivity.
  - right. exists "TEAMHOOD_BASE_URL: https://example.test/api/v1". reflexivity.
  - left. reflexivity.
Defined.

(** The same file with Unix line ends is read. *)
Example loadSecrets_reads_lf_files :
  loadSecrets (sample_host
                 (Some ("TEAMHOOD_API_KEY: abc" ++ LF
                        ++ "TEAMHOOD_BASE_URL: https://example.test/api/v1" ++ LF))
                 (Some "from-env") None)
  = {| apiKey := "abc"; baseUrl := "https://example.test/api/v1" |}.
Proof. reflexivity. Qed.

(** The theorem at a file of three lines, the key in the middle. *)
Lemma loadSecrets_file_wins_witness :
  apiKey (loadSecrets
            (sample_host
               (Some (String.concat LF
                        (["# secrets"] ++ ["TEAMHOOD_API_KEY: " ++ "abc"] ++ [""])))
               (Some "from-env") None))
  = "abc".
Proof.
  refine (proj1 (loadSecrets_file_wins
                   (sample_host
                      (Some (String.concat LF
                               (["# secrets"] ++ ["TEAMHOOD_API_KEY: " ++ "abc"] ++ [""])))
                      (Some "from-env") None)
                   ["# secrets"] [""] "TEAMHOOD_API_KEY" "abc"
                   _ eq_refl eq_refl eq_refl _ _ _) eq_refl).
  - left. reflexivity.
  - discriminate.
  - intros l [<-|[<-|[]]]; reflexivity.
  - intros l [<-|[]]. reflexivity.
Defined.

(** ** The server on a machine *)

(** X17: the server does not check that a key is configured: on a machine with
    no secrets file and no key in the environment, every request a tool
    sends carries an empty [Authorization] header, and goes to the base URL
    of the environment or else to the default tenant. *)
Theorem unconfigured_server_sends_an_empty_key :
  forall (host : Host) (backend : Request -> outcome Response)
         (JSON_parse : string -> outcome value) (Buffer_from : value -> outcome string)
         (name : string) (args : object) (log : list Request) (request : Request),
    existsSync host = false ->
    env host "TEAMHOOD_API_KEY" = None \/ env host "TEAMHOOD_API_KEY" = Some "" ->
    In request
       (sent (handleToolCall (apiKey (loadSecrets host)) (baseUrl (loadSecrets host))
                backend JSON_parse Buffer_from name args) log) ->
    In ("Authorization", "") (headers (options request))
    /\ String.prefix (or_string (env host "TEAMHOOD_BASE_URL") DEFAULT_BASE_URL)
         (url request) = true.
Proof.
  intros host backend JSON_parse Buffer_from name args log request HE HK Hin.
  destruct (sent_requests_carry_the_key _ _ _ _ _ _ _ _ _ Hin) as [HA HU].
  assert (loadSecrets host
          = {| apiKey := ""; baseUrl := or_string (env host "TEAMHOOD_BASE_URL")
                                          DEFAULT_BASE_URL |}) as E.
  { unfold loadSecrets. rewrite HE. simpl. destruct HK as [-> | ->]; reflexivity. }
  rewrite E in HA, HU. simpl in HA, HU. split; assumption.
Qed.

(** The theorem at [list_users] on a machine with nothing configured. *)
Lemma unconfigured_server_sends_an_empty_key_witness :
  In ("Authorization", "")
     (headers (options
        {| url := "https://api-lafermedutemple.teamhood.com/api/v1/users";
           options := {| method := GET;
                         headers := [("Authorization", "");
                                     ("Content-Type", "application/json")];
                         body := None |} |})).
Proof.
  refine (proj1 (unconfigured_server_sends_an_empty_key
                   (sample_host None None None)
                   (fixed_backend not_found_404) (parser_of []) (decoder_of [])
                   "list_users" [] [] _ eq_refl _ _)).
  - left. reflexivity.
  - left. reflexivity.
Defined.
